(** * getDeviceInfo: the probe script [script.js], embedded and verified

    The script probes a browser for capabilities, formats every finding as a
    key/value row ([mkKV]), groups the rows of one probe in a card ([mkCard])
    and appends the cards of twelve probes, one after the other, to the page
    ([gatherAll]).  The first load hides a loader once the probes are done and
    seven seconds have passed ([initFlow]).

    The embedding is shallow: every function of the script is a Rocq function
    of the same name.  The browser is a record [Env] of what each queried
    attribute holds and what each called API answers; how long the answers
    take, and what the clock reads, is a second record [Timing].  Code that
    appends to a DOM node, awaits and throws runs in a small monad [M] over
    the state of the page. *)

From Stdlib Require Import String Ascii List ZArith NArith Bool Lia.
From Stdlib Require Import DecimalString DecimalPos.
Import ListNotations.
Open Scope string_scope.

(** ** JavaScript values *)

(** An awaited answer: a promise that is fulfilled, rejected, or never
    settled.  A call that throws before it returns a promise is, under
    [await] inside [try], the same as a rejection. *)
Inductive AsyncR (A : Type) : Type :=
| Resolves (a : A)
| Rejects
| NeverSettles.
Arguments Resolves {A} a.
Arguments Rejects {A}.
Arguments NeverSettles {A}.

(** A synchronous call: it returns or it throws. *)
Inductive result (A : Type) : Type :=
| Ok (a : A)
| Throws.
Arguments Ok {A} a.
Arguments Throws {A}.

(** Numbers: the integral doubles, NaN and the two infinities.  An integer
    prints as its decimal numeral (the exponent form JavaScript switches to
    from 1e21 on is left out). *)
Inductive number : Type :=
| NaN
| Infinity (negative : bool)
| Int (z : Z).

(** The values the script formats.  Attributes of host objects are typed by
    Web IDL, so what reaches [mkKV] is undefined (attribute absent), null, a
    boolean, a number or a string; [safe] can also hand on a promise. *)
#[warnings="-register-all"]
Inductive jsval : Type :=
| VUndefined
| VNull
| VBool (b : bool)
| VNumber (n : number)
| VString (s : string)
| VPromise (p : AsyncR jsval).

Coercion VString : string >-> jsval.

Definition Number_toString (n : number) : string :=
  match n with
  | NaN => "NaN"
  | Infinity false => "Infinity"
  | Infinity true => "-Infinity"
  | Int z => NilZero.string_of_int (Z.to_int z)
  end.

(** [String(v)], also the conversion of [${v}] in a template literal. *)
Definition ToString (v : jsval) : string :=
  match v with
  | VUndefined => "undefined"
  | VNull => "null"
  | VBool true => "true"
  | VBool false => "false"
  | VNumber n => Number_toString n
  | VString s => s
  | VPromise _ => "[object Promise]"
  end.

Definition is_empty (s : string) : bool :=
  match s with EmptyString => true | String _ _ => false end.

(** Truthiness, as [if (v)], [!!v], [v || w] and [v && w] test it. *)
Definition ToBoolean (v : jsval) : bool :=
  match v with
  | VUndefined | VNull => false
  | VBool b => b
  | VNumber NaN => false
  | VNumber (Infinity _) => true
  | VNumber (Int z) => negb (Z.eqb z 0)
  | VString s => negb (is_empty s)
  | VPromise _ => true
  end.

(** [a || b] *)
Definition js_or (a b : jsval) : jsval := if ToBoolean a then a else b.

(** [a ?? b] *)
Definition nullish (a b : jsval) : jsval :=
  match a with
  | VUndefined | VNull => b
  | _ => a
  end.

(** [v === s] for a string literal [s] *)
Definition strict_eq_string (v : jsval) (s : string) : bool :=
  match v with
  | VString s' => String.eqb s' s
  | _ => false
  end.

Infix "||'" := js_or (at level 50, left associativity).
Infix "??" := nullish (at level 50, left associativity).

(** ** The formatter: rows and cards *)

(** A row: the text of its [key] and [val] cells. *)
Record KV : Type := { key : string; val : string }.

(** What a card shows under its heading. *)
Inductive CardBody : Type :=
| Paragraph (text : string)
| Rows (rows : list KV).

Record Card : Type := { title : string; body : CardBody }.

(** The second argument of [mkCard]: a string or an element holding rows. *)
Inductive Content : Type :=
| CString (s : string)
| CElement (rows : list KV).

Definition mkCard (title : string) (contentEl : Content) : Card :=
  match contentEl with
  | CString s => {| title := title;
                    body := Paragraph (if is_empty s then "unknown" else s) |}
  | CElement rows => {| title := title; body := Rows rows |}
  end.

(** The text [mkKV] puts in the value cell. *)
Definition display (v : jsval) : string :=
  match v with
  | VUndefined => "unknown"
  | VNull => "unknown"
  | VString EmptyString => "unknown"
  | _ => ToString v
  end.

Definition mkKV (key : string) (v : jsval) : KV :=
  {| key := key; val := display v |}.

(** [safe(fn, fallback = 'unknown')]: [fn] is given by what calling it
    does; the default takes the place of an argument that is undefined. *)
Definition safe (fn : result jsval) (fallback : jsval) : jsval :=
  let fallback := match fallback with
                  | VUndefined => VString "unknown"
                  | _ => fallback
                  end in
  match fn with
  | Throws => fallback
  | Ok (VPromise p) =>
      VPromise match p with
               | Resolves r => Resolves (r ?? fallback)
               | Rejects => Resolves fallback
               | NeverSettles => NeverSettles
               end
  | Ok v => v ?? fallback
  end.

Definition safe' (fn : result jsval) : jsval := safe fn "unknown".

(** ** The browser *)

(** [navigator.userAgentData]: the script reads three members of it and
    serialises them; [uad_json] is what [JSON.stringify] makes of them. *)
Record UserAgentData : Type := { uad_json : result string }.

Record ScreenOrientation : Type := { type : jsval; angle : jsval }.

Record Screen : Type := {
  width : jsval;
  height : jsval;
  availWidth : jsval;
  availHeight : jsval;
  colorDepth : jsval;
  orientation : option ScreenOrientation
}.

(** A WebGL context: whether [getExtension('WEBGL_debug_renderer_info')]
    finds the extension, and what [getParameter] answers for the four
    parameters the script asks for. *)
Record WebGL : Type := {
  WEBGL_debug_renderer_info : result bool;
  UNMASKED_VENDOR_WEBGL : result jsval;
  UNMASKED_RENDERER_WEBGL : result jsval;
  VENDOR : result jsval;
  RENDERER : result jsval
}.

(** A canvas element: [getContext] for the three context names used, the
    drawing calls on the 2D context, and [toDataURL]. *)
Record Canvas : Type := {
  getContext_webgl : result (option WebGL);
  getContext_experimental_webgl : result (option WebGL);
  getContext_2d : result bool;
  draw_2d : result unit;
  toDataURL : result string
}.

Record BatteryManager : Type := {
  charging : jsval;
  level : jsval;
  chargingTime : jsval;
  dischargingTime : jsval
}.

Record NetworkInformation : Type := {
  effectiveType : jsval;
  downlink : jsval;
  rtt : jsval;
  saveData : jsval
}.

Record Coordinates : Type := {
  latitude : jsval;
  longitude : jsval;
  accuracy : jsval;
  altitude : jsval
}.

(** What [getCurrentPosition] does with its callbacks. *)
Inductive Geolocation : Type :=
| CallsSuccess (coords : Coordinates)
| CallsError
| CallsNeither
| ThrowsAtCall.

(** [navigator.permissions]: [query], when it is there, answers a name with
    the [state] of the status it resolves to. *)
Record Permissions : Type := { query : option (string -> AsyncR jsval) }.

Inductive MediaDeviceKind : Type := audioinput | audiooutput | videoinput.

Record MediaDeviceInfo : Type := { kind : MediaDeviceKind; label : string }.

Record MediaDevices : Type := {
  enumerateDevices : option (AsyncR (list MediaDeviceInfo))
}.

Record PerformanceTiming : Type := {
  navigationStart : jsval;
  timing_domContentLoadedEventEnd : jsval;
  timing_loadEventEnd : jsval
}.

Record PerformanceNavigationTiming : Type := {
  domContentLoadedEventEnd : jsval;
  loadEventEnd : jsval
}.

(** [getEntriesByType('navigation')[0]] and [now()] may throw; the reading of
    [now()] is in [Timing]. *)
Record Performance : Type := {
  timeOrigin : jsval;
  timing : option PerformanceTiming;
  getEntriesByType_navigation_0 : result (option PerformanceNavigationTiming);
  now : result unit
}.

Record AudioContext : Type := {
  createOscillator_is_function : bool;
  oscillator_setup : result unit
}.

Record Clipboard : Type := { writeText : bool; readText : bool }.

(** The environment.  An attribute is the value it holds ([VUndefined] when
    it is absent); an object the script looks into is [None] when absent; for
    an object only tested for presence the field tells whether it is truthy. *)
Record Env : Type := {
  (* document *)
  CARDS_ROOT : bool;
  REFRESH_BTN : bool;
  loader : bool;
  canvas : Canvas;
  (* navigator *)
  userAgent : jsval;
  userAgentData : option UserAgentData;
  platform : jsval;
  language : jsval;
  languages : option (list string);
  cookieEnabled : jsval;
  doNotTrack : jsval;
  vendor : jsval;
  hardwareConcurrency : jsval;
  deviceMemory : jsval;
  maxTouchPoints : jsval;
  getBattery : option (AsyncR BatteryManager);
  connection : option NetworkInformation;
  mozConnection : option NetworkInformation;
  webkitConnection : option NetworkInformation;
  onLine : jsval;
  geolocation : option Geolocation;
  permissions : option Permissions;
  mediaDevices : option MediaDevices;
  serviceWorker : bool;
  clipboard : option Clipboard;
  bluetooth : bool;
  usb : bool;
  serial : bool;
  hid : bool;
  getGamepads : bool;
  (* window *)
  screen : option Screen;
  devicePixelRatio : jsval;
  innerWidth : jsval;
  innerHeight : jsval;
  performance : option Performance;
  DeviceMotionEvent : option bool;  (* is [requestPermission] a function *)
  Accelerometer : bool;
  window_AudioContext : option (result AudioContext);
  webkitAudioContext : option (result AudioContext);
  localStorage : result bool;
  indexedDB : bool;
  showOpenFilePicker : bool
}.

(** How long each awaited answer takes, in milliseconds, and what
    [performance.now()] reads: what may differ between two runs in the same
    environment. *)
Record Timing : Type := {
  t_getBattery : N;
  t_geolocation_query : N;
  t_getCurrentPosition : N;
  t_enumerateDevices : N;
  t_query : string -> N;
  now_reading : number
}.

(** ** Running code: state, time, exceptions *)

(** How a piece of code ends: it returns, it throws, or it waits for ever on
    a promise that is never settled. *)
Inductive completion (A : Type) : Type :=
| Return (a : A)
| Throw
| Pending.
Arguments Return {A} a.
Arguments Throw {A}.
Arguments Pending {A}.

(** Code over a state [S].  The state is kept whatever the completion: what
    was appended before a [throw] stays appended. *)
Definition M (S A : Type) : Type := S -> completion A * S.

Definition ret {S A} (a : A) : M S A := fun s => (Return a, s).

Definition bind {S A B} (m : M S A) (f : A -> M S B) : M S B :=
  fun s =>
    match m s with
    | (Return a, s') => f a s'
    | (Throw, s') => (Throw, s')
    | (Pending, s') => (Pending, s')
    end.

Definition throw {S A} : M S A := fun s => (Throw, s).

Definition never {S A} : M S A := fun s => (Pending, s).

(** [try { body } catch (e) { handler }] *)
Definition try_catch {S A} (body handler : M S A) : M S A :=
  fun s =>
    match body s with
    | (Throw, s') => handler s'
    | r => r
    end.

(** A synchronous call into the environment. *)
Definition eval {S A} (r : result A) : M S A :=
  match r with
  | Ok a => ret a
  | Throws => throw
  end.

Declare Scope js_scope.
Delimit Scope js_scope with js.
Notation "x <- c1 ;; c2" := (bind c1 (fun x => c2))
  (at level 100, c1 at next level, right associativity) : js_scope.
Notation "c1 ;; c2" := (bind c1 (fun _ => c2))
  (at level 100, right associativity) : js_scope.
Open Scope js_scope.

(** [for (const x of l) body] *)
Fixpoint for_of {S A} (l : list A) (body : A -> M S unit) : M S unit :=
  match l with
  | [] => ret tt
  | x :: l' => body x;; for_of l' body
  end.

(** Calls that start something asynchronous. *)
Inductive Call : Type :=
| GetBattery
| PermissionsQuery (name : string)
| GetCurrentPosition
| EnumerateDevices
| SetTimeout (ms : N).

(** The state of one probe: the rows of its [el], the time it has taken so
    far, and the asynchronous calls it has made. *)
Record Probe : Type := { el : list KV; elapsed : N; calls : list Call }.

Definition fresh : Probe := {| el := []; elapsed := 0; calls := [] |}.

(** [const el = document.createElement('div')] *)
Definition createElement_div : M Probe unit :=
  fun s => (Return tt, {| el := []; elapsed := elapsed s; calls := calls s |}).

(** [el.appendChild(row)] *)
Definition appendChild (row : KV) : M Probe unit :=
  fun s => (Return tt,
            {| el := el s ++ [row]; elapsed := elapsed s; calls := calls s |}).

Definition tick (ms : N) : M Probe unit :=
  fun s => (Return tt,
            {| el := el s; elapsed := elapsed s + ms; calls := calls s |}).

Definition call (c : Call) : M Probe unit :=
  fun s => (Return tt,
            {| el := el s; elapsed := elapsed s; calls := calls s ++ [c] |}).

(** [await f()], where the promise [f()] settles as [r] after [ms]. *)
Definition await {A} (c : Call) (ms : N) (r : AsyncR A) : M Probe A :=
  call c;;
  match r with
  | Resolves a => tick ms;; ret a
  | Rejects => tick ms;; throw
  | NeverSettles => never
  end.

(** [return mkCard(title, el)] *)
Definition return_mkCard (title : string) : M Probe Card :=
  fun s => (Return (mkCard title (CElement (el s))), s).

(** ** The probes *)

Section Probes.

Variable env : Env.
Variable tm : Timing.

Definition gatherBasic : M Probe Card :=
  createElement_div;;
  appendChild (mkKV "userAgent" (userAgent env ||' "unknown"));;
  appendChild (mkKV "userAgentData"
    (safe' match userAgentData env with
           | Some uad => match uad_json uad with
                         | Ok json => Ok (VString json)
                         | Throws => Throws
                         end
           | None => Ok (VString "unsupported")
           end));;
  appendChild (mkKV "platform" (platform env ||' "unknown"));;
  appendChild (mkKV "language" (language env ||' "unknown"));;
  appendChild (mkKV "languages"
    (match languages env with
     | Some l => VString (String.concat ", " l)
     | None => VUndefined
     end ||' "unknown"));;
  appendChild (mkKV "cookieEnabled" (cookieEnabled env));;
  appendChild (mkKV "doNotTrack" (doNotTrack env ||' "unknown"));;
  appendChild (mkKV "vendor" (vendor env ||' "unknown"));;
  return_mkCard "Browser & Locale".

(** [s.f] for [const s = window.screen || {}] *)
Definition s_ (f : Screen -> jsval) : jsval :=
  match screen env with
  | Some sc => f sc
  | None => VUndefined
  end.

Definition gatherScreen : M Probe Card :=
  createElement_div;;
  appendChild (mkKV "screenWxH"
    (ToString (s_ width ||' "unknown") ++ " x "
       ++ ToString (s_ height ||' "unknown")));;
  appendChild (mkKV "availWxH"
    (ToString (s_ availWidth ||' "unknown") ++ " x "
       ++ ToString (s_ availHeight ||' "unknown")));;
  appendChild (mkKV "colorDepth" (s_ colorDepth ?? "unknown"));;
  appendChild (mkKV "pixelRatio" (devicePixelRatio env ?? "unknown"));;
  appendChild (mkKV "viewportWxH"
    (ToString (innerWidth env) ++ " x " ++ ToString (innerHeight env)));;
  (* [screen.orientation]: the global [screen], not [s] *)
  match screen env with
  | None => throw
  | Some sc =>
      match orientation sc with
      | Some o =>
          appendChild (mkKV "orientation"
            (ToString (type o ||' "unknown") ++ " @ "
               ++ ToString (angle o ||' VNumber (Int 0)) ++ "°"))
      | None => ret tt
      end
  end;;
  return_mkCard "Display & Viewport".

Definition gatherHardware : M Probe Card :=
  createElement_div;;
  appendChild (mkKV "hardwareConcurrency"
                 (hardwareConcurrency env ?? "unknown"));;
  appendChild (mkKV "deviceMemory" (deviceMemory env ?? "unknown"));;
  appendChild (mkKV "maxTouchPoints" (maxTouchPoints env ?? "unknown"));;
  try_catch
    (gl <- (g <- eval (getContext_webgl (canvas env));;
            match g with
            | Some _ => ret g
            | None => eval (getContext_experimental_webgl (canvas env))
            end);;
     match gl with
     | None => appendChild (mkKV "webgl" "unsupported")
     | Some gl =>
         dbg <- eval (WEBGL_debug_renderer_info gl);;
         vendor <- eval (if dbg then UNMASKED_VENDOR_WEBGL gl else VENDOR gl);;
         renderer <- eval (if dbg then UNMASKED_RENDERER_WEBGL gl
                           else RENDERER gl);;
         appendChild (mkKV "webglVendor" vendor);;
         appendChild (mkKV "webglRenderer" renderer)
     end)
    (appendChild (mkKV "webgl" "unknown"));;
  return_mkCard "Hardware Hints".

Definition gatherBattery : M Probe Card :=
  createElement_div;;
  match getBattery env with
  | Some answer =>
      try_catch
        (b <- await GetBattery (t_getBattery tm) answer;;
         appendChild (mkKV "charging" (charging b));;
         appendChild (mkKV "level" (level b));;
         appendChild (mkKV "chargingTime" (chargingTime b));;
         appendChild (mkKV "dischargingTime" (dischargingTime b)))
        (appendChild (mkKV "battery" "unknown"))
  | None => appendChild (mkKV "battery" "unsupported")
  end;;
  return_mkCard "Battery".

Definition navConn : option NetworkInformation :=
  match connection env with
  | Some c => Some c
  | None => match mozConnection env with
            | Some c => Some c
            | None => webkitConnection env
            end
  end.

Definition gatherNetwork : M Probe Card :=
  createElement_div;;
  appendChild (mkKV "online" (onLine env));;
  match navConn with
  | Some c =>
      appendChild (mkKV "effectiveType" (effectiveType c ?? "unknown"));;
      appendChild (mkKV "downlink" (downlink c ?? "unknown"));;
      appendChild (mkKV "rtt" (rtt c ?? "unknown"));;
      appendChild (mkKV "saveData" (saveData c ?? "unknown"))
  | None => appendChild (mkKV "networkAPI" "unsupported")
  end;;
  appendChild (mkKV "publicIP" "unknown (use server or STUN)");;
  return_mkCard "Network".

(** [navigator.permissions && navigator.permissions.query] *)
Definition permissions_query : option (string -> AsyncR jsval) :=
  match permissions env with
  | Some p => query p
  | None => None
  end.

(** The promise around [getCurrentPosition]: an 8000 ms timer rejects it
    unless a callback has settled it before. *)
Definition position_promise (geo : Geolocation) : M Probe Coordinates :=
  call (SetTimeout 8000);;
  call GetCurrentPosition;;
  match geo with
  | ThrowsAtCall => throw
  | CallsNeither => tick 8000;; throw
  | CallsError => tick (N.min (t_getCurrentPosition tm) 8000);; throw
  | CallsSuccess coords =>
      if (t_getCurrentPosition tm <? 8000)%N
      then tick (t_getCurrentPosition tm);; ret coords
      else tick 8000;; throw
  end.

Definition gatherGeo : M Probe Card :=
  createElement_div;;
  match geolocation env with
  | None =>
      appendChild (mkKV "geolocation" "unsupported");;
      return_mkCard "Geolocation"
  | Some geo =>
      permState <-
        try_catch
          match permissions_query with
          | Some q => await (PermissionsQuery "geolocation")
                        (t_geolocation_query tm) (q "geolocation")
          | None => ret (VString "unknown")
          end
          (ret (VString "unknown"));;
      appendChild (mkKV "permission" permState);;
      (if strict_eq_string permState "granted"
          || strict_eq_string permState "prompt"
       then
         try_catch
           (coords <- position_promise geo;;
            appendChild (mkKV "coords"
              (ToString (latitude coords) ++ ", "
                 ++ ToString (longitude coords)));;
            appendChild (mkKV "accuracy_m" (accuracy coords));;
            appendChild (mkKV "altitude" (altitude coords ?? "null")))
           (appendChild (mkKV "coords" "unknown or blocked"))
       else
         appendChild (mkKV "coords" "unknown (permission denied or prompt)"));;
      return_mkCard "Geolocation"
  end.

Definition kind_name (k : MediaDeviceKind) : string :=
  match k with
  | audioinput => "audioinput"
  | audiooutput => "audiooutput"
  | videoinput => "videoinput"
  end.

Definition kind_eqb (a b : MediaDeviceKind) : bool :=
  match a, b with
  | audioinput, audioinput | audiooutput, audiooutput
  | videoinput, videoinput => true
  | _, _ => false
  end.

(** [acc[k] = acc[k] || 0; acc[k]++] on an object whose own keys keep the
    order in which they were first set. *)
Fixpoint count_kind (k : MediaDeviceKind) (acc : list (MediaDeviceKind * N))
  : list (MediaDeviceKind * N) :=
  match acc with
  | [] => [(k, 1%N)]
  | (k', n) :: acc' =>
      if kind_eqb k k' then (k', (n + 1)%N) :: acc'
      else (k', n) :: count_kind k acc'
  end.

Definition byType (devices : list MediaDeviceInfo)
  : list (MediaDeviceKind * N) :=
  fold_left (fun acc d => count_kind (kind d) acc) devices [].

Definition dquote : string := String (ascii_of_nat 34) EmptyString.

(** [JSON.stringify] of the counts object *)
Definition JSON_stringify (o : list (MediaDeviceKind * N)) : string :=
  "{" ++ String.concat ","
           (map (fun kn => dquote ++ kind_name (fst kn) ++ dquote ++ ":"
                             ++ NilZero.string_of_uint (N.to_uint (snd kn))) o)
      ++ "}".

(** [navigator.mediaDevices && navigator.mediaDevices.enumerateDevices] *)
Definition mediaDevices_enumerateDevices
  : option (AsyncR (list MediaDeviceInfo)) :=
  match mediaDevices env with
  | Some md => enumerateDevices md
  | None => None
  end.

Definition gatherMediaDevices : M Probe Card :=
  createElement_div;;
  match mediaDevices_enumerateDevices with
  | None =>
      appendChild (mkKV "mediaDevices" "unsupported");;
      return_mkCard "Media Devices"
  | Some answer =>
      try_catch
        (devices <- await EnumerateDevices (t_enumerateDevices tm) answer;;
         appendChild (mkKV "count"
           (VNumber (Int (Z.of_nat (length devices)))));;
         appendChild (mkKV "kinds" (JSON_stringify (byType devices)));;
         appendChild (mkKV "deviceLabelsAvailable"
           (VBool (existsb (fun d => negb (is_empty (label d))) devices))))
        (appendChild (mkKV "mediaDevices" "unknown"));;
      return_mkCard "Media & Devices"
  end.

Definition names : list string :=
  ["geolocation"; "microphone"; "camera"; "notifications";
   "persistent-storage"; "push"; "clipboard-read"; "clipboard-write";
   "background-sync"].

(** The body of the loop over [names] *)
Definition query_one (q : string -> AsyncR jsval) (name : string)
  : M Probe unit :=
  try_catch
    (state <- await (PermissionsQuery name) (t_query tm name) (q name);;
     appendChild (mkKV name state))
    (appendChild (mkKV name "unknown")).

Definition gatherPermissions : M Probe Card :=
  createElement_div;;
  match permissions_query with
  | None =>
      appendChild (mkKV "permissionsAPI" "unsupported");;
      return_mkCard "Permissions"
  | Some q =>
      try_catch
        (for_of names (query_one q))
        (appendChild (mkKV "permissions" "error"));;
      return_mkCard "Permissions"
  end.

Definition gatherPerformance : M Probe Card :=
  createElement_div;;
  try_catch
    match performance env with
    | None => throw
    | Some perf =>
        appendChild (mkKV "timeOrigin"
          (timeOrigin perf
             ||' match timing perf with
                 | Some t => navigationStart t
                 | None => VUndefined
                 end
             ||' "unknown"));;
        nav <- eval (getEntriesByType_navigation_0 perf);;
        match nav with
        | Some nav =>
            appendChild (mkKV "domContentLoaded"
                           (domContentLoadedEventEnd nav));;
            appendChild (mkKV "loadEventEnd" (loadEventEnd nav))
        | None =>
            match timing perf with
            | Some t =>
                appendChild (mkKV "domContentLoaded"
                               (timing_domContentLoadedEventEnd t));;
                appendChild (mkKV "loadEventEnd" (timing_loadEventEnd t))
            | None => ret tt
            end
        end;;
        eval (now perf);;
        appendChild (mkKV "perfNow" (VNumber (now_reading tm)))
    end
    (appendChild (mkKV "performance" "unknown"));;
  return_mkCard "Performance".

Definition gatherSensors : M Probe Card :=
  createElement_div;;
  match DeviceMotionEvent env with
  | Some true =>
      appendChild (mkKV "DeviceMotion API" "requires gesture to request");;
      appendChild (mkKV "deviceMotionPermission" "not-requested")
  | Some false =>
      appendChild (mkKV "DeviceMotion API" "available (may be restricted)")
  | None => appendChild (mkKV "DeviceMotion API" "unsupported")
  end;;
  appendChild (mkKV "GenericSensor"
    (if Accelerometer env then "available" else "unsupported"));;
  return_mkCard "Sensors".

(** [window.AudioContext || window.webkitAudioContext]; the constructor is
    given by what [new] on it does. *)
Definition AudioCtx : option (result AudioContext) :=
  match window_AudioContext env with
  | Some ctor => Some ctor
  | None => webkitAudioContext env
  end.

Definition gatherCanvasAudioFingerprintingProbe : M Probe Card :=
  createElement_div;;
  try_catch
    (ctx <- eval (getContext_2d (canvas env));;
     (if ctx : bool then ret tt else throw);;
     eval (draw_2d (canvas env));;
     data <- eval (toDataURL (canvas env));;
     appendChild (mkKV "canvasProbe" (substring 0 80 data ++ "...")))
    (appendChild (mkKV "canvasProbe" "error"));;
  try_catch
    match AudioCtx with
    | Some ctor =>
        ctx <- eval ctor;;
        if createOscillator_is_function ctx
        then
          eval (oscillator_setup ctx);;
          call (SetTimeout 60);;
          appendChild (mkKV "audioContext" "available")
        else appendChild (mkKV "audioContext" "limited")
    | None => appendChild (mkKV "audioContext" "unsupported")
    end
    (appendChild (mkKV "audioContext" "error"));;
  return_mkCard "Canvas / Audio Probes".

Definition features : list (string * bool) :=
  [("ServiceWorker", serviceWorker env);
   ("localStorage", match localStorage env with
                    | Ok b => b
                    | Throws => false
                    end);
   ("IndexedDB", indexedDB env);
   ("FileSystem Access", showOpenFilePicker env);
   ("Clipboard (write)", match clipboard env with
                         | Some c => writeText c
                         | None => false
                         end);
   ("Clipboard (read)", match clipboard env with
                        | Some c => readText c
                        | None => false
                        end);
   ("WebBluetooth", bluetooth env);
   ("WebUSB", usb env);
   ("WebSerial", serial env);
   ("WebHID", hid env);
   ("Gamepad", getGamepads env)].

Definition gatherWebAPIs : M Probe Card :=
  createElement_div;;
  for_of features (fun kv => appendChild (mkKV (fst kv) (VBool (snd kv))));;
  return_mkCard "Web APIs".

(** ** The orchestrator *)

(** The page: the clock, the asynchronous calls made so far, the children of
    [CARDS_ROOT], the loader and when it was hidden, and the refresh button. *)
Record Page : Type := {
  clock : N;
  log : list Call;
  cards : list Card;
  loader_hidden_at : option N;
  scrolled_to_top : bool;
  refresh_disabled : bool;
  refresh_text : string
}.

Definition probes : list (M Probe Card) :=
  [gatherBasic; gatherScreen; gatherHardware; gatherBattery; gatherNetwork;
   gatherGeo; gatherMediaDevices; gatherPermissions; gatherPerformance;
   gatherSensors; gatherCanvasAudioFingerprintingProbe; gatherWebAPIs].

(** [await p()]: the probe runs on an element of its own; the page sees the
    time it took and the calls it made. *)
Definition await_probe (p : M Probe Card) : M Page Card :=
  fun pg =>
    let (r, s) := p fresh in
    (r, {| clock := clock pg + elapsed s;
           log := log pg ++ calls s;
           cards := cards pg;
           loader_hidden_at := loader_hidden_at pg;
           scrolled_to_top := scrolled_to_top pg;
           refresh_disabled := refresh_disabled pg;
           refresh_text := refresh_text pg |}).

(** [CARDS_ROOT.innerHTML = ''] *)
Definition clear_cards : M Page unit :=
  fun pg =>
    (Return tt, {| clock := clock pg;
                   log := log pg;
                   cards := [];
                   loader_hidden_at := loader_hidden_at pg;
                   scrolled_to_top := scrolled_to_top pg;
                   refresh_disabled := refresh_disabled pg;
                   refresh_text := refresh_text pg |}).

(** [CARDS_ROOT.appendChild(card)] *)
Definition append_card (card : Card) : M Page unit :=
  fun pg =>
    (Return tt, {| clock := clock pg;
                   log := log pg;
                   cards := cards pg ++ [card];
                   loader_hidden_at := loader_hidden_at pg;
                   scrolled_to_top := scrolled_to_top pg;
                   refresh_disabled := refresh_disabled pg;
                   refresh_text := refresh_text pg |}).

Definition gatherAll : M Page unit :=
  if negb (CARDS_ROOT env) then ret tt
  else
    clear_cards;;
    for_of probes (fun p =>
      try_catch
        (card <- await_probe p;;
         append_card card)
        (append_card (mkCard "error" (CString "unknown")))).

(** ** The loader and the refresh button *)

(** [if (loader) loader.style.display = 'none'] *)
Definition hide_loader : M Page unit :=
  fun pg =>
    (Return tt,
     if loader env
     then {| clock := clock pg;
             log := log pg;
             cards := cards pg;
             loader_hidden_at := Some (clock pg);
             scrolled_to_top := scrolled_to_top pg;
             refresh_disabled := refresh_disabled pg;
             refresh_text := refresh_text pg |}
     else pg).

Definition scrollTo_top : M Page unit :=
  fun pg =>
    (Return tt, {| clock := clock pg;
                   log := log pg;
                   cards := cards pg;
                   loader_hidden_at := loader_hidden_at pg;
                   scrolled_to_top := true;
                   refresh_disabled := refresh_disabled pg;
                   refresh_text := refresh_text pg |}).

(** [await Promise.all([gatherPromise, minWait])], where [gatherPromise] was
    started at [start] and [minWait] is a timer of 7000 ms set at [start],
    before the first probe that waits makes its call: fulfilled when both
    are, rejected as soon as [gatherPromise] is. *)
Definition await_all_with_minWait (gather : M Page unit) : M Page unit :=
  fun pg =>
    let start := clock pg in
    match gather {| clock := clock pg;
                    log := log pg ++ [SetTimeout 7000];
                    cards := cards pg;
                    loader_hidden_at := loader_hidden_at pg;
                    scrolled_to_top := scrolled_to_top pg;
                    refresh_disabled := refresh_disabled pg;
                    refresh_text := refresh_text pg |} with
    | (Return _, pg') =>
        (Return tt, {| clock := N.max (clock pg') (start + 7000);
                       log := log pg';
                       cards := cards pg';
                       loader_hidden_at := loader_hidden_at pg';
                       scrolled_to_top := scrolled_to_top pg';
                       refresh_disabled := refresh_disabled pg';
                       refresh_text := refresh_text pg' |})
    | r => r
    end.

Definition initFlow : M Page unit :=
  await_all_with_minWait gatherAll;;
  hide_loader;;
  scrollTo_top.

(** The [DOMContentLoaded] listener *)
Definition on_DOMContentLoaded : M Page unit :=
  try_catch initFlow hide_loader.

Definition set_refresh (disabled : bool) (text : string) : M Page unit :=
  fun pg =>
    (Return tt, {| clock := clock pg;
                   log := log pg;
                   cards := cards pg;
                   loader_hidden_at := loader_hidden_at pg;
                   scrolled_to_top := scrolled_to_top pg;
                   refresh_disabled := disabled;
                   refresh_text := text |}).

(** The [click] listener of [REFRESH_BTN], there when the button is *)
Definition on_refresh_click : M Page unit :=
  if REFRESH_BTN env
  then
    set_refresh true "Refreshing…";;
    gatherAll;;
    set_refresh false "Refresh data"
  else ret tt.

End Probes.

(** The page as it is when the script starts. *)
Definition page_at_load : Page :=
  {| clock := 0;
     log := [];
     cards := [];
     loader_hidden_at := None;
     scrolled_to_top := false;
     refresh_disabled := false;
     refresh_text := "Refresh data" |}.

(** ** Sample environments *)

(** A host where every probed attribute and API is absent and every call
    that can throw does. *)
Definition bare_canvas : Canvas :=
  {| getContext_webgl := Throws;
     getContext_experimental_webgl := Throws;
     getContext_2d := Throws;
     draw_2d := Throws;
     toDataURL := Throws |}.

Definition env_absent : Env :=
  {| CARDS_ROOT := true; REFRESH_BTN := true; loader := true;
     canvas := bare_canvas;
     userAgent := VUndefined; userAgentData := None; platform := VUndefined;
     language := VUndefined; languages := None; cookieEnabled := VUndefined;
     doNotTrack := VUndefined; vendor := VUndefined;
     hardwareConcurrency := VUndefined; deviceMemory := VUndefined;
     maxTouchPoints := VUndefined; getBattery := None;
     connection := None; mozConnection := None; webkitConnection := None;
     onLine := VUndefined; geolocation := None; permissions := None;
     mediaDevices := None; serviceWorker := false; clipboard := None;
     bluetooth := false; usb := false; serial := false; hid := false;
     getGamepads := false;
     screen := None; devicePixelRatio := VUndefined;
     innerWidth := VUndefined; innerHeight := VUndefined;
     performance := None; DeviceMotionEvent := None; Accelerometer := false;
     window_AudioContext := None; webkitAudioContext := None;
     localStorage := Throws; indexedDB := false;
     showOpenFilePicker := false |}.

(** A desktop browser: geolocation permission [state], [getBattery] answers
    as [battery], media devices are listed, nothing throws. *)
Definition desktop_gl : WebGL :=
  {| WEBGL_debug_renderer_info := Ok true;
     UNMASKED_VENDOR_WEBGL := Ok (VString "Google Inc.");
     UNMASKED_RENDERER_WEBGL := Ok (VString "ANGLE");
     VENDOR := Ok (VString "WebKit");
     RENDERER := Ok (VString "WebKit WebGL") |}.

Definition desktop_canvas : Canvas :=
  {| getContext_webgl := Ok (Some desktop_gl);
     getContext_experimental_webgl := Ok (Some desktop_gl);
     getContext_2d := Ok true;
     draw_2d := Ok tt;
     toDataURL := Ok "data:image/png;base64,iVBORw0KGgo" |}.

Definition desktop_screen : Screen :=
  {| width := VNumber (Int 1920); height := VNumber (Int 1080);
     availWidth := VNumber (Int 1920); availHeight := VNumber (Int 1040);
     colorDepth := VNumber (Int 24);
     orientation := Some {| type := VString "landscape-primary";
                            angle := VNumber (Int 0) |} |}.

Definition desktop_coords : Coordinates :=
  {| latitude := VNumber (Int 52); longitude := VNumber (Int 13);
     accuracy := VNumber (Int 25); altitude := VNull |}.

Definition desktop_battery : BatteryManager :=
  {| charging := VBool true; level := VNumber (Int 1);
     chargingTime := VNumber (Int 0);
     dischargingTime := VNumber (Infinity false) |}.

Definition env_desktop_with (state : string)
    (battery : AsyncR BatteryManager) : Env :=
  {| CARDS_ROOT := true; REFRESH_BTN := true; loader := true;
     canvas := desktop_canvas;
     userAgent := VString "Mozilla/5.0";
     userAgentData := None;
     platform := VString "Linux x86_64";
     language := VString "en-US"; languages := Some ["en-US"; "en"];
     cookieEnabled := VBool false;
     doNotTrack := VNull; vendor := VString EmptyString;
     hardwareConcurrency := VNumber (Int 8); deviceMemory := VUndefined;
     maxTouchPoints := VNumber (Int 0);
     getBattery := Some battery;
     connection := None; mozConnection := None; webkitConnection := None;
     onLine := VBool false;
     geolocation := Some (CallsSuccess desktop_coords);
     permissions :=
       Some {| query := Some (fun name =>
                 if String.eqb name "geolocation"
                 then Resolves (VString state)
                 else if String.eqb name "push" then Rejects
                 else Resolves (VString "prompt")) |};
     mediaDevices :=
       Some {| enumerateDevices := Some (Resolves
                 [ {| kind := audioinput; label := EmptyString |};
                   {| kind := videoinput; label := EmptyString |};
                   {| kind := audioinput; label := EmptyString |} ]) |};
     serviceWorker := true; clipboard := Some {| writeText := true;
                                                 readText := false |};
     bluetooth := false; usb := false; serial := false; hid := false;
     getGamepads := true;
     screen := Some desktop_screen; devicePixelRatio := VNumber (Int 1);
     innerWidth := VNumber (Int 1280); innerHeight := VNumber (Int 720);
     performance :=
       Some {| timeOrigin := VNumber (Int 1700000000000);
               timing := None;
               getEntriesByType_navigation_0 :=
                 Ok (Some {| domContentLoadedEventEnd := VNumber (Int 120);
                             loadEventEnd := VNumber (Int 0) |});
               now := Ok tt |};
     DeviceMotionEvent := Some false; Accelerometer := false;
     window_AudioContext :=
       Some (Ok {| createOscillator_is_function := true;
                   oscillator_setup := Ok tt |});
     webkitAudioContext := None;
     localStorage := Ok true; indexedDB := true;
     showOpenFilePicker := false |}.

Definition env_desktop (state : string) : Env :=
  env_desktop_with state (Resolves desktop_battery).

(** Every answer after [ms] milliseconds, the position after [fix_ms]. *)
Definition timing_of (ms fix_ms : N) : Timing :=
  {| t_getBattery := ms;
     t_geolocation_query := ms;
     t_getCurrentPosition := fix_ms;
     t_enumerateDevices := ms;
     t_query := fun _ => ms;
     now_reading := Int 1234 |}.


(** ** What the properties are stated with *)

(** From a state in [P], the code returns in [Q], throws in [E], and waits
    for ever only in [H]. *)
Definition triple {S A} (P : S -> Prop) (m : M S A)
    (Q : A -> S -> Prop) (E H : S -> Prop) : Prop :=
  forall s, P s ->
    match m s with
    | (Return a, s') => Q a s'
    | (Throw, s') => E s'
    | (Pending, s') => H s'
    end.

(** Every row appended so far shows some text. *)
Definition rows_ok (s : Probe) : Prop :=
  Forall (fun row => val row <> EmptyString) (el s).

(** A card with heading [t] over rows that all show some text. *)
Definition card_ok (t : string) (c : Card) : Prop :=
  title c = t /\
  exists rows, body c = Rows rows /\
               Forall (fun row => val row <> EmptyString) rows.

(** No promise the probes wait for stays unsettled. *)
Definition always_settles (env : Env) : Prop :=
  getBattery env <> Some NeverSettles /\
  (forall q name, permissions_query env = Some q -> In name names ->
                  q name <> NeverSettles) /\
  (forall md, mediaDevices env = Some md ->
              enumerateDevices md <> Some NeverSettles).

(** What a probe is asked to do: from any state return a card headed [t]
    whose rows all show some text, never throw, and wait for ever only on a
    promise that is never settled. *)
Definition probe_spec (env : Env) (t : string) (p : M Probe Card) : Prop :=
  triple (fun _ => True) p (fun c _ => card_ok t c)
         (fun _ => False) (fun _ => ~ always_settles env).

(** The rows of a probe run on its own. *)
Definition rows_of (p : M Probe Card) : list KV := el (snd (p fresh)).

Definition error_card : Card := mkCard "error" (CString "unknown").

(** What the orchestrator's loop amounts to, probe by probe: whether all
    probes finish, the cards on the page (none after a probe that waits for
    ever), the time used and the calls made. *)
Fixpoint settled (ps : list (M Probe Card)) : bool :=
  match ps with
  | [] => true
  | p :: ps' =>
      match fst (p fresh) with
      | Pending => false
      | _ => settled ps'
      end
  end.

Fixpoint shown (ps : list (M Probe Card)) : list Card :=
  match ps with
  | [] => []
  | p :: ps' =>
      match fst (p fresh) with
      | Return card => card :: shown ps'
      | Throw => error_card :: shown ps'
      | Pending => []
      end
  end.

Fixpoint duration (ps : list (M Probe Card)) : N :=
  match ps with
  | [] => 0
  | p :: ps' =>
      elapsed (snd (p fresh))
      + match fst (p fresh) with
        | Pending => 0
        | _ => duration ps'
        end
  end.

Fixpoint calls_made (ps : list (M Probe Card)) : list Call :=
  match ps with
  | [] => []
  | p :: ps' =>
      calls (snd (p fresh))
      ++ match fst (p fresh) with
         | Pending => []
         | _ => calls_made ps'
         end
  end.

(** The headings in the order the probes are declared; the media probe has
    two. *)
Definition declared_titles : list (list string) :=
  [["Browser & Locale"]; ["Display & Viewport"]; ["Hardware Hints"];
   ["Battery"]; ["Network"]; ["Geolocation"];
   ["Media Devices"; "Media & Devices"]; ["Permissions"]; ["Performance"];
   ["Sensors"]; ["Canvas / Audio Probes"]; ["Web APIs"]].

(** The heading of a card and the keys of its rows. *)
Definition keys_of (c : Card) : string * list string :=
  (title c, match body c with
            | Rows rows => map key rows
            | Paragraph _ => []
            end).

(** What holds of the probe declared under the headings [ts], run on its
    own: it returns a card with one of these headings and rows that all show
    some text; only the display probe can throw, and only without a
    [screen]; it waits for ever only on a promise that is never settled. *)
Definition probe_fact (env : Env) (p : M Probe Card) (ts : list string)
  : Prop :=
  match p fresh with
  | (Return c, _) => exists t, In t ts /\ card_ok t c
  | (Throw, _) => ts = ["Display & Viewport"] /\ screen env = None
  | (Pending, _) => ~ always_settles env
  end.

(** The same of a card on the page. *)
Definition card_fact (env : Env) (c : Card) (ts : list string) : Prop :=
  (exists t, In t ts /\ card_ok t c) \/
  (c = error_card /\ ts = ["Display & Viewport"] /\ screen env = None).

(** What the geolocation probe holds in [permState] once it has asked, if it
    gets that far: the queried state, or "unknown" when there is nothing to
    ask or the query fails. *)
Definition geo_permState (env : Env) : option jsval :=
  match permissions_query env with
  | Some q =>
      match q "geolocation" with
      | Resolves state => Some state
      | Rejects => Some (VString "unknown")
      | NeverSettles => None
      end
  | None => Some (VString "unknown")
  end.

(** [permState === 'granted' || permState === 'prompt'] *)
Definition granted_or_prompt (permState : jsval) : bool :=
  strict_eq_string permState "granted" || strict_eq_string permState "prompt".

(** Does the position arrive before the probe's timer of 8000 ms fires? *)
Definition fix_in_time (tm : Timing) : bool :=
  (t_getCurrentPosition tm <? 8000)%N.

(** Two completions of a probe that show the same heading and keys. *)
Definition same_keys (r1 r2 : completion Card) : Prop :=
  match r1, r2 with
  | Return c1, Return c2 => keys_of c1 = keys_of c2
  | Throw, Throw => True
  | Pending, Pending => True
  | _, _ => False
  end.

(** ** What the further properties are stated with *)

(** [v == null]: undefined or null, what [??] replaces. *)
Definition is_nullish (v : jsval) : bool :=
  match v with
  | VUndefined | VNull => true
  | _ => false
  end.

(** The count the counts object holds for a kind, 0 when the key is not
    there. *)
Fixpoint count_of (k : MediaDeviceKind) (acc : list (MediaDeviceKind * N))
  : N :=
  match acc with
  | [] => 0
  | (k', n) :: acc' => if kind_eqb k k' then n else count_of k acc'
  end.

(** The sum of the counts. *)
Definition total (acc : list (MediaDeviceKind * N)) : N :=
  fold_right (fun kn n => (snd kn + n)%N) 0%N acc.

(** The row the permissions probe appends for a name whose query settles:
    the state, or "unknown" when the query is rejected. *)
Definition query_row (q : string -> AsyncR jsval) (name : string) : KV :=
  mkKV name match q name with
            | Resolves state => state
            | _ => VString "unknown"
            end.

(** The latencies of the queries for the names in [l], added up. *)
Definition queries_time (tm : Timing) (l : list string) : N :=
  fold_right (fun name n => (t_query tm name + n)%N) 0%N l.

(** How long the geolocation probe waits for the position. *)
Definition position_wait (tm : Timing) (geo : Geolocation) : N :=
  match geo with
  | ThrowsAtCall => 0
  | CallsNeither => 8000
  | _ => N.min (t_getCurrentPosition tm) 8000
  end.

(** An upper bound of the time a run of the orchestrator takes. *)
Definition run_bound (tm : Timing) : N :=
  t_getBattery tm + (t_geolocation_query tm + 8000) + t_enumerateDevices tm
  + queries_time tm names.

(** The time each probe takes at most, in the order of [probes]. *)
Definition probe_bounds (tm : Timing) : list N :=
  [0; 0; 0; t_getBattery tm; 0; t_geolocation_query tm + 8000;
   t_enumerateDevices tm; queries_time tm names; 0; 0; 0; 0]%N.

(** The keys of the rows of a card are pairwise distinct. *)
Definition keys_distinct (c : Card) : Prop :=
  match body c with
  | Rows rows => NoDup (map key rows)
  | Paragraph _ => True
  end.

(** Does a call inside the [try] of the canvas part throw?  A context of
    null throws at the first assignment to it. *)
Definition canvas_try_throws (env : Env) : bool :=
  match getContext_2d (canvas env) with
  | Ok true =>
      match draw_2d (canvas env) with
      | Ok _ => match toDataURL (canvas env) with
                | Ok _ => false
                | Throws => true
                end
      | Throws => true
      end
  | _ => true
  end.

(** Does a call inside the [try] of the audio part throw? *)
Definition audio_try_throws (env : Env) : bool :=
  match AudioCtx env with
  | Some (Ok ctx) =>
      if createOscillator_is_function ctx
      then match oscillator_setup ctx with
           | Ok _ => false
           | Throws => true
           end
      else false
  | Some Throws => true
  | None => false
  end.

(** Does [getExtension] or [getParameter] throw on this context? *)
Definition gl_throws (gl : WebGL) : bool :=
  match WEBGL_debug_renderer_info gl with
  | Ok dbg =>
      match (if dbg then UNMASKED_VENDOR_WEBGL gl else VENDOR gl) with
      | Ok _ =>
          match (if dbg then UNMASKED_RENDERER_WEBGL gl else RENDERER gl) with
          | Ok _ => false
          | Throws => true
          end
      | Throws => true
      end
  | Throws => true
  end.

(** Does a call inside the [try] of the hardware probe throw? *)
Definition webgl_try_throws (env : Env) : bool :=
  match getContext_webgl (canvas env) with
  | Ok (Some gl) => gl_throws gl
  | Ok None =>
      match getContext_experimental_webgl (canvas env) with
      | Ok (Some gl) => gl_throws gl
      | Ok None => false
      | Throws => true
      end
  | Throws => true
  end.

(** ** What two runs are compared with *)

(** Is the position request made and answered with a position?  Then what
    the geolocation card shows depends on when the answer comes. *)
Definition geo_decides (env : Env) : bool :=
  match geolocation env, geo_permState env with
  | Some (CallsSuccess _), Some permState => granted_or_prompt permState
  | _, _ => false
  end.

(** The same, for a run of the orchestrator: the geolocation probe has to
    be reached, which it is not when [getBattery] is never answered. *)
Definition position_decides (env : Env) : bool :=
  match getBattery env with
  | Some NeverSettles => false
  | _ => geo_decides env
  end.

(** Two rows with the same key, and the same value unless they are the
    reading of [performance.now()]. *)
Definition same_row (a b : KV) : Prop :=
  key a = key b /\ (key a <> "perfNow" -> val a = val b).

(** Two cards with the same heading and, row by row, the same rows up to
    the reading of [performance.now()]. *)
Definition same_card (c1 c2 : Card) : Prop :=
  title c1 = title c2 /\
  match body c1, body c2 with
  | Rows r1, Rows r2 => Forall2 same_row r1 r2
  | Paragraph t1, Paragraph t2 => t1 = t2
  | _, _ => False
  end.

(** Two completions of a probe that end alike, with such cards. *)
Definition same_completion (r1 r2 : completion Card) : Prop :=
  match r1, r2 with
  | Return c1, Return c2 => same_card c1 c2
  | Throw, Throw => True
  | Pending, Pending => True
  | _, _ => False
  end.

(** Two lists of probes that run alike, probe by probe, as far as the
    orchestrator gets: up to the first probe that waits for ever. *)
Inductive runs_alike : list (M Probe Card) -> list (M Probe Card) -> Prop :=
| alike_nil : runs_alike [] []
| alike_stop (p1 p2 : M Probe Card) (ps1 ps2 : list (M Probe Card)) :
    fst (p1 fresh) = Pending ->
    fst (p2 fresh) = Pending ->
    runs_alike (p1 :: ps1) (p2 :: ps2)
| alike_cons (p1 p2 : M Probe Card) (ps1 ps2 : list (M Probe Card)) :
    same_completion (fst (p1 fresh)) (fst (p2 fresh)) ->
    runs_alike ps1 ps2 ->
    runs_alike (p1 :: ps1) (p2 :: ps2).

(** ** What the permissions loop is described with *)

Definition never_settles {A} (r : AsyncR A) : bool :=
  match r with
  | NeverSettles => true
  | _ => false
  end.

(** The names before the first one whose query is never answered. *)
Fixpoint answered (q : string -> AsyncR jsval) (l : list string)
  : list string :=
  match l with
  | [] => []
  | x :: l' => if never_settles (q x) then [] else x :: answered q l'
  end.

(** The names up to and with the first one whose query is never answered. *)
Fixpoint asked (q : string -> AsyncR jsval) (l : list string)
  : list string :=
  match l with
  | [] => []
  | x :: l' => x :: if never_settles (q x) then [] else asked q l'
  end.

(** Is the query answered for every name? *)
Definition all_answered (q : string -> AsyncR jsval) (l : list string)
  : bool :=
  forallb (fun x => negb (never_settles (q x))) l.

(** ** The reads of the Web APIs probe *)

(** What reading each of the capabilities the Web APIs probe tests does: it
    gives a value, truthy or not, or it throws, as a getter of a host object
    may.  [Env] takes the reads the script does not guard as giving a
    value. *)
Record FeatureReads : Type := {
  read_serviceWorker : result bool;
  read_localStorage : result bool;
  read_indexedDB : result bool;
  read_showOpenFilePicker : result bool;
  read_clipboard : result (option Clipboard);
  read_bluetooth : result bool;
  read_usb : result bool;
  read_serial : result bool;
  read_hid : result bool;
  read_getGamepads : result bool
}.

(** The array [features], its elements evaluated in order; only the read of
    [localStorage] is inside a [try]. *)
Definition features_reading (r : FeatureReads)
  : M Probe (list (string * bool)) :=
  sw <- eval (read_serviceWorker r);;
  ls <- try_catch (eval (read_localStorage r)) (ret false);;
  idb <- eval (read_indexedDB r);;
  fsa <- eval (read_showOpenFilePicker r);;
  cw <- eval (read_clipboard r);;
  cr <- eval (read_clipboard r);;
  bt <- eval (read_bluetooth r);;
  us <- eval (read_usb r);;
  se <- eval (read_serial r);;
  hi <- eval (read_hid r);;
  gp <- eval (read_getGamepads r);;
  ret [("ServiceWorker", sw);
       ("localStorage", ls);
       ("IndexedDB", idb);
       ("FileSystem Access", fsa);
       ("Clipboard (write)", match cw with
                             | Some c => writeText c
                             | None => false
                             end);
       ("Clipboard (read)", match cr with
                            | Some c => readText c
                            | None => false
                            end);
       ("WebBluetooth", bt);
       ("WebUSB", us);
       ("WebSerial", se);
       ("WebHID", hi);
       ("Gamepad", gp)].

(** [gatherWebAPIs] over reads that may throw. *)
Definition gatherWebAPIs_reading (r : FeatureReads) : M Probe Card :=
  createElement_div;;
  fs <- features_reading r;;
  for_of fs (fun kv => appendChild (mkKV (fst kv) (VBool (snd kv))));;
  return_mkCard "Web APIs".

(** The reads as [Env] has them. *)
Definition reads_of (env : Env) : FeatureReads :=
  {| read_serviceWorker := Ok (serviceWorker env);
     read_localStorage := localStorage env;
     read_indexedDB := Ok (indexedDB env);
     read_showOpenFilePicker := Ok (showOpenFilePicker env);
     read_clipboard := Ok (clipboard env);
     read_bluetooth := Ok (bluetooth env);
     read_usb := Ok (usb env);
     read_serial := Ok (serial env);
     read_hid := Ok (hid env);
     read_getGamepads := Ok (getGamepads env) |}.

Definition throws {A} (r : result A) : bool :=
  match r with
  | Ok _ => false
  | Throws => true
  end.

(** Does a read outside the [try] throw? *)
Definition unguarded_read_throws (r : FeatureReads) : bool :=
  throws (read_serviceWorker r) || throws (read_indexedDB r)
  || throws (read_showOpenFilePicker r) || throws (read_clipboard r)
  || throws (read_bluetooth r) || throws (read_usb r)
  || throws (read_serial r) || throws (read_hid r)
  || throws (read_getGamepads r).

(** * Properties *)

(** ** Strings and the formatter *)

Lemma string_of_uint_nonempty (d : Decimal.uint) :
  NilZero.string_of_uint d <> EmptyString.
Proof. destruct d; simpl; discriminate. Qed.

Lemma Number_toString_nonempty (n : number) :
  Number_toString n <> EmptyString.
Proof.
  destruct n as [ | [ | ] | z ]; try discriminate.
  unfold Number_toString.
  destruct (Z.to_int z) as [d | d]; simpl.
  - apply string_of_uint_nonempty.
  - discriminate.
Qed.

Lemma ToString_nonempty (v : jsval) :
  v <> VString EmptyString -> ToString v <> EmptyString.
Proof.
  destruct v as [ | | [ | ] | n | s | p ]; simpl; try discriminate.
  - intros _. apply Number_toString_nonempty.
  - intros H E. apply H. now rewrite E.
Qed.

Lemma display_nonempty (v : jsval) : display v <> EmptyString.
Proof.
  destruct v as [ | | [ | ] | n | [ | c s ] | p ]; simpl; try discriminate.
  apply Number_toString_nonempty.
Qed.

Lemma display_ToString (v : jsval) :
  v <> VUndefined -> v <> VNull -> v <> VString EmptyString ->
  display v = ToString v.
Proof.
  destruct v as [ | | b | n | [ | c s ] | p ]; simpl; congruence.
Qed.

Lemma safe_Throws (fallback : jsval) :
  safe Throws fallback
  = match fallback with
    | VUndefined => VString "unknown"
    | _ => fallback
    end.
Proof. reflexivity. Qed.

Example display_examples :
  display (VNumber (Int 0)) = "0" /\
  display (VNumber (Int (-42))) = "-42" /\
  display (VNumber (Infinity false)) = "Infinity" /\
  display (VBool false) = "false" /\
  display (VString EmptyString) = "unknown" /\
  display (VString "denied") = "denied".
Proof. repeat split. Qed.

Example JSON_stringify_example :
  JSON_stringify (byType [ {| kind := audioinput; label := EmptyString |};
                           {| kind := videoinput; label := "cam" |};
                           {| kind := audioinput; label := EmptyString |} ])
  = "{" ++ dquote ++ "audioinput" ++ dquote ++ ":2,"
        ++ dquote ++ "videoinput" ++ dquote ++ ":1}".
Proof. reflexivity. Qed.

(** ** Rules of the program logic *)

Section Rules.

Context {S : Type}.
Implicit Types P E H : S -> Prop.

Lemma triple_ret {A} P (a : A) (Q : A -> S -> Prop) E H :
  (forall s, P s -> Q a s) -> triple P (ret a) Q E H.
Proof. intros HQ s Hs. simpl. auto. Qed.

Lemma triple_throw {A} P (Q : A -> S -> Prop) E H :
  (forall s, P s -> E s) -> triple P throw Q E H.
Proof. intros HE s Hs. simpl. auto. Qed.

Lemma triple_never {A} P (Q : A -> S -> Prop) E H :
  (forall s, P s -> H s) -> triple P never Q E H.
Proof. intros HH s Hs. simpl. auto. Qed.

Lemma triple_bind {A B} P (m : M S A) (f : A -> M S B)
    (Q1 : A -> S -> Prop) (Q : B -> S -> Prop) E H :
  triple P m Q1 E H ->
  (forall a, triple (Q1 a) (f a) Q E H) ->
  triple P (bind m f) Q E H.
Proof.
  intros Hm Hf s Hs. unfold bind.
  specialize (Hm s Hs). destruct (m s) as [[a | | ] s']; auto.
  apply (Hf a s' Hm).
Qed.

Lemma triple_try_catch {A} P (body handler : M S A)
    (Q : A -> S -> Prop) E1 E H :
  triple P body Q E1 H ->
  triple E1 handler Q E H ->
  triple P (try_catch body handler) Q E H.
Proof.
  intros Hb Hh s Hs. unfold try_catch.
  specialize (Hb s Hs). destruct (body s) as [[a | | ] s']; auto.
  apply (Hh s' Hb).
Qed.

Lemma triple_eval {A} P (r : result A) (Q : A -> S -> Prop) E H :
  (forall a s, r = Ok a -> P s -> Q a s) ->
  (forall s, r = Throws -> P s -> E s) ->
  triple P (eval r) Q E H.
Proof.
  intros HQ HE s Hs. destruct r; simpl; auto.
Qed.

Lemma triple_for_of {A} (I : S -> Prop) (l : list A) (body : A -> M S unit)
    E H :
  (forall x, In x l -> triple I (body x) (fun _ => I) E H) ->
  triple I (for_of l body) (fun _ => I) E H.
Proof.
  induction l as [ | x l IH]; intros Hb.
  - apply triple_ret. auto.
  - simpl. apply triple_bind with (Q1 := fun _ => I).
    + apply Hb. now left.
    + intros _. apply IH. intros y Hy. apply Hb. now right.
Qed.

Lemma triple_weaken {A} P (m : M S A) (Q Q' : A -> S -> Prop) E E' H H' :
  triple P m Q E H ->
  (forall a s, Q a s -> Q' a s) ->
  (forall s, E s -> E' s) ->
  (forall s, H s -> H' s) ->
  triple P m Q' E' H'.
Proof.
  intros Hm HQ HE HH s Hs. specialize (Hm s Hs).
  destruct (m s) as [[a | | ] s']; auto.
Qed.

End Rules.

(** ** The probes, one by one *)

Section ProbeRules.

Context {E H : Probe -> Prop}.

Lemma appendChild_keeps (k : string) (v : jsval) :
  triple rows_ok (appendChild (mkKV k v)) (fun _ => rows_ok) E H.
Proof.
  intros s Hs. unfold rows_ok in *. simpl.
  apply Forall_app. split; [assumption | ].
  constructor; [apply display_nonempty | constructor].
Qed.

Lemma tick_keeps (ms : N) : triple rows_ok (tick ms) (fun _ => rows_ok) E H.
Proof. intros s Hs. exact Hs. Qed.

Lemma call_keeps (c : Call) : triple rows_ok (call c) (fun _ => rows_ok) E H.
Proof. intros s Hs. exact Hs. Qed.

Lemma createElement_div_keeps :
  triple (fun _ => True) createElement_div (fun _ => rows_ok) E H.
Proof. intros s _. constructor. Qed.

Lemma return_mkCard_ok (t : string) :
  triple rows_ok (return_mkCard t) (fun c _ => card_ok t c) E H.
Proof.
  intros s Hs. simpl. split; [reflexivity | ].
  exists (el s). split; [reflexivity | exact Hs].
Qed.

End ProbeRules.

Lemma await_keeps {A} (H : Probe -> Prop) (c : Call) (ms : N)
    (r : AsyncR A) :
  (r = NeverSettles -> forall s, H s) ->
  triple rows_ok (await c ms r) (fun _ => rows_ok) rows_ok H.
Proof.
  intros HH s Hs. unfold await, bind, call, tick.
  destruct r; simpl; auto.
Qed.

Lemma position_promise_keeps (H : Probe -> Prop) (tm : Timing)
    (geo : Geolocation) :
  triple rows_ok (position_promise tm geo) (fun _ => rows_ok) rows_ok H.
Proof.
  intros s Hs. unfold position_promise, bind, call, tick.
  destruct geo; simpl; auto.
  destruct (t_getCurrentPosition tm <? 8000)%N; simpl; auto.
Qed.

(** One step of a proof that a probe keeps [rows_ok]. *)
Ltac probe_step :=
  lazymatch goal with
  | |- triple _ (bind _ _) _ _ _ =>
      apply triple_bind with (Q1 := fun _ => rows_ok); [ | intros ? ]
  | |- triple _ (try_catch _ _) _ _ _ =>
      apply triple_try_catch with (E1 := rows_ok)
  | |- triple _ (appendChild (mkKV _ _)) _ _ _ => apply appendChild_keeps
  | |- triple _ createElement_div _ _ _ => apply createElement_div_keeps
  | |- triple _ (return_mkCard _) _ _ _ => apply return_mkCard_ok
  | |- triple _ (call _) _ _ _ => apply call_keeps
  | |- triple _ (tick _) _ _ _ => apply tick_keeps
  | |- triple _ (eval _) _ _ _ => apply triple_eval; intros; assumption
  | |- triple _ throw _ _ _ =>
      apply triple_throw; intros; first [assumption | reflexivity]
  | |- triple _ (ret _) _ _ _ => apply triple_ret; intros; assumption
  | |- triple _ (position_promise _ _) _ _ _ => apply position_promise_keeps
  | |- triple _ (for_of _ _) _ _ _ => apply triple_for_of; intros ? ?
  | |- triple _ (query_one _ _ _) _ _ _ => unfold query_one
  | |- triple _ (match ?x with _ => _ end) _ _ _ => destruct x eqn:?
  end.

Ltac probe_steps := unfold probe_spec; repeat probe_step.

Section ProbeSpecs.

Variable env : Env.
Variable tm : Timing.

Lemma gatherBasic_spec : probe_spec env "Browser & Locale" (gatherBasic env).
Proof. unfold gatherBasic. probe_steps. Qed.

(** [gatherScreen] throws exactly when there is no [screen]. *)
Lemma gatherScreen_spec :
  triple (fun _ => True) (gatherScreen env)
         (fun c _ => card_ok "Display & Viewport" c)
         (fun _ => screen env = None) (fun _ => False).
Proof. unfold gatherScreen. probe_steps. Qed.

Lemma gatherHardware_spec :
  probe_spec env "Hardware Hints" (gatherHardware env).
Proof. unfold gatherHardware. probe_steps. Qed.

Lemma gatherBattery_spec : probe_spec env "Battery" (gatherBattery env tm).
Proof.
  unfold gatherBattery. probe_steps.
  apply await_keeps. intros -> _ [Hb _]. now apply Hb.
Qed.

Lemma gatherNetwork_spec : probe_spec env "Network" (gatherNetwork env).
Proof. unfold gatherNetwork. probe_steps. Qed.

Lemma gatherGeo_spec : probe_spec env "Geolocation" (gatherGeo env tm).
Proof.
  unfold gatherGeo. probe_steps.
  apply await_keeps. intros Hr _ (_ & Hq & _).
  apply (Hq _ "geolocation" Heqo0); [simpl; auto | exact Hr].
Qed.

Lemma gatherMediaDevices_absent_spec :
  mediaDevices_enumerateDevices env = None ->
  probe_spec env "Media Devices" (gatherMediaDevices env tm).
Proof. intros Hmd. unfold gatherMediaDevices. rewrite Hmd. probe_steps. Qed.

Lemma gatherMediaDevices_present_spec (answer : AsyncR (list MediaDeviceInfo)) :
  mediaDevices_enumerateDevices env = Some answer ->
  probe_spec env "Media & Devices" (gatherMediaDevices env tm).
Proof.
  intros Hmd. unfold gatherMediaDevices. rewrite Hmd. probe_steps.
  apply await_keeps. intros -> _ (_ & _ & Hm).
  unfold mediaDevices_enumerateDevices in Hmd.
  destruct (mediaDevices env) as [md | ] eqn:Emd; [ | discriminate].
  now apply (Hm md).
Qed.

Lemma gatherPermissions_spec :
  probe_spec env "Permissions" (gatherPermissions env tm).
Proof.
  unfold gatherPermissions. probe_steps.
  apply await_keeps. intros Hr _ (_ & Hq & _).
  now apply (Hq _ x Heqo).
Qed.

Lemma gatherPerformance_spec :
  probe_spec env "Performance" (gatherPerformance env tm).
Proof. unfold gatherPerformance. probe_steps. Qed.

Lemma gatherSensors_spec : probe_spec env "Sensors" (gatherSensors env).
Proof. unfold gatherSensors. probe_steps. Qed.

Lemma gatherCanvasAudioFingerprintingProbe_spec :
  probe_spec env "Canvas / Audio Probes"
             (gatherCanvasAudioFingerprintingProbe env).
Proof. unfold gatherCanvasAudioFingerprintingProbe. probe_steps. Qed.

Lemma gatherWebAPIs_spec : probe_spec env "Web APIs" (gatherWebAPIs env).
Proof. unfold gatherWebAPIs. probe_steps. Qed.

End ProbeSpecs.

(** ** The orchestrator *)

Lemma for_of_probes (ps : list (M Probe Card)) (pg : Page) :
  for_of ps (fun p =>
    try_catch (card <- await_probe p;; append_card card)
              (append_card (mkCard "error" (CString "unknown")))) pg
  = (if settled ps then Return tt else Pending,
     {| clock := clock pg + duration ps;
        log := log pg ++ calls_made ps;
        cards := cards pg ++ shown ps;
        loader_hidden_at := loader_hidden_at pg;
        scrolled_to_top := scrolled_to_top pg;
        refresh_disabled := refresh_disabled pg;
        refresh_text := refresh_text pg |}).
Proof.
  revert pg. induction ps as [ | p ps IH]; intros pg.
  - destruct pg; simpl. rewrite N.add_0_r, !app_nil_r. reflexivity.
  - simpl. unfold bind at 1. unfold try_catch, bind, await_probe.
    destruct (p fresh) as [[card | | ] s]; simpl.
    + rewrite IH. simpl.
      rewrite N.add_assoc, <- !app_assoc. reflexivity.
    + rewrite IH. simpl.
      rewrite N.add_assoc, <- !app_assoc. reflexivity.
    + rewrite N.add_0_r, !app_nil_r. reflexivity.
Qed.

(** With a [CARDS_ROOT], a run of the orchestrator is the probes run in the
    order of the list, each started when the one before is done. *)
Lemma gatherAll_eq (env : Env) (tm : Timing) (pg : Page) :
  CARDS_ROOT env = true ->
  gatherAll env tm pg
  = (if settled (probes env tm) then Return tt else Pending,
     {| clock := clock pg + duration (probes env tm);
        log := log pg ++ calls_made (probes env tm);
        cards := shown (probes env tm);
        loader_hidden_at := loader_hidden_at pg;
        scrolled_to_top := scrolled_to_top pg;
        refresh_disabled := refresh_disabled pg;
        refresh_text := refresh_text pg |}).
Proof.
  intros Hroot. unfold gatherAll. rewrite Hroot.
  change (negb true) with false. cbv iota.
  unfold bind at 1. unfold clear_cards. cbv beta iota.
  rewrite for_of_probes. reflexivity.
Qed.

Lemma gatherAll_without_root (env : Env) (tm : Timing) (pg : Page) :
  CARDS_ROOT env = false -> gatherAll env tm pg = (Return tt, pg).
Proof. intros Hroot. unfold gatherAll. rewrite Hroot. reflexivity. Qed.

Lemma gatherAll_never_throws (env : Env) (tm : Timing) (pg : Page) :
  fst (gatherAll env tm pg) <> Throw.
Proof.
  destruct (CARDS_ROOT env) eqn:Hroot.
  - rewrite gatherAll_eq by assumption. unfold fst.
    destruct (settled (probes env tm)); discriminate.
  - rewrite gatherAll_without_root by assumption. discriminate.
Qed.

Lemma probes_facts (env : Env) (tm : Timing) :
  Forall2 (probe_fact env) (probes env tm) declared_titles.
Proof.
  unfold probes, declared_titles, probe_fact.
  repeat apply Forall2_cons; try apply Forall2_nil.
  - pose proof (gatherBasic_spec env fresh I) as Hp.
    destruct (gatherBasic env fresh) as [[c | | ] s]; simpl in *; eauto.
    contradiction.
  - pose proof (gatherScreen_spec env fresh I) as Hp.
    destruct (gatherScreen env fresh) as [[c | | ] s]; simpl in *; eauto.
  - pose proof (gatherHardware_spec env fresh I) as Hp.
    destruct (gatherHardware env fresh) as [[c | | ] s]; simpl in *; eauto.
    contradiction.
  - pose proof (gatherBattery_spec env tm fresh I) as Hp.
    destruct (gatherBattery env tm fresh) as [[c | | ] s]; simpl in *; eauto.
    contradiction.
  - pose proof (gatherNetwork_spec env fresh I) as Hp.
    destruct (gatherNetwork env fresh) as [[c | | ] s]; simpl in *; eauto.
    contradiction.
  - pose proof (gatherGeo_spec env tm fresh I) as Hp.
    destruct (gatherGeo env tm fresh) as [[c | | ] s]; simpl in *; eauto.
    contradiction.
  - destruct (mediaDevices_enumerateDevices env) as [answer | ] eqn:Hmd.
    + pose proof (gatherMediaDevices_present_spec env tm answer Hmd fresh I)
        as Hp.
      destruct (gatherMediaDevices env tm fresh) as [[c | | ] s];
        simpl in *; eauto.
      contradiction.
    + pose proof (gatherMediaDevices_absent_spec env tm Hmd fresh I) as Hp.
      destruct (gatherMediaDevices env tm fresh) as [[c | | ] s];
        simpl in *; eauto.
      contradiction.
  - pose proof (gatherPermissions_spec env tm fresh I) as Hp.
    destruct (gatherPermissions env tm fresh) as [[c | | ] s];
      simpl in *; eauto.
    contradiction.
  - pose proof (gatherPerformance_spec env tm fresh I) as Hp.
    destruct (gatherPerformance env tm fresh) as [[c | | ] s];
      simpl in *; eauto.
    contradiction.
  - pose proof (gatherSensors_spec env fresh I) as Hp.
    destruct (gatherSensors env fresh) as [[c | | ] s]; simpl in *; eauto.
    contradiction.
  - pose proof (gatherCanvasAudioFingerprintingProbe_spec env fresh I) as Hp.
    destruct (gatherCanvasAudioFingerprintingProbe env fresh)
      as [[c | | ] s]; simpl in *; eauto.
    contradiction.
  - pose proof (gatherWebAPIs_spec env fresh I) as Hp.
    destruct (gatherWebAPIs env fresh) as [[c | | ] s]; simpl in *; eauto.
    contradiction.
Qed.

(** The cards on the page match a prefix of the declared headings, the whole
    list when the run finishes; and it finishes when every promise settles. *)
Lemma shown_facts (env : Env) (ps : list (M Probe Card))
    (tss : list (list string)) :
  Forall2 (probe_fact env) ps tss ->
  (exists k, Forall2 (card_fact env) (shown ps) (firstn k tss) /\
             (settled ps = true -> k = length tss)) /\
  (always_settles env -> settled ps = true).
Proof.
  induction 1 as [ | p ts ps tss Hp _ [[k [Hk Hlen]] Hset]].
  - split; [ | reflexivity]. exists 0%nat. split; [constructor | reflexivity].
  - unfold probe_fact in Hp. simpl.
    destruct (p fresh) as [[c | | ] s]; simpl.
    + split; [ | exact Hset]. exists (Datatypes.S k). split.
      * simpl. constructor; [left; exact Hp | exact Hk].
      * intros Hs. now rewrite (Hlen Hs).
    + split; [ | exact Hset]. exists (Datatypes.S k). split.
      * simpl. constructor; [right; tauto | exact Hk].
      * intros Hs. now rewrite (Hlen Hs).
    + split.
      * exists 0%nat. split; [constructor | discriminate].
      * intros Hs. contradiction.
Qed.

(** * The claims *)

(** ** Falsy values that are defined are shown *)

(** C9. [mkKV] replaces undefined, null and the empty string with
    "unknown", and only these: for them, and for no other value, what is
    displayed differs from [String(val)].  Any other value is shown as
    [String(val)], so [false] is shown as "false" and [0] as "0"; the
    [cookieEnabled] and [online] rows hold what [navigator.cookieEnabled]
    and [navigator.onLine] hold, "false" when the flag is false. *)
Theorem mkKV_keeps_defined_falsy_values :
  (forall k, mkKV k VUndefined = {| key := k; val := "unknown" |} /\
             mkKV k VNull = {| key := k; val := "unknown" |} /\
             mkKV k (VString EmptyString)
             = {| key := k; val := "unknown" |}) /\
  (forall k v,
     mkKV k v <> {| key := k; val := ToString v |} <->
     v = VUndefined \/ v = VNull \/ v = VString EmptyString) /\
  (forall k v, v <> VUndefined -> v <> VNull -> v <> VString EmptyString ->
               mkKV k v = {| key := k; val := ToString v |}) /\
  (forall k, mkKV k (VBool false) = {| key := k; val := "false" |}) /\
  (forall k, mkKV k (VNumber (Int 0)) = {| key := k; val := "0" |}) /\
  (forall env,
     In (mkKV "cookieEnabled" (cookieEnabled env))
        (rows_of (gatherBasic env)) /\
     (cookieEnabled env = VBool false ->
      In {| key := "cookieEnabled"; val := "false" |}
         (rows_of (gatherBasic env)))) /\
  (forall env,
     In (mkKV "online" (onLine env)) (rows_of (gatherNetwork env)) /\
     (onLine env = VBool false ->
      In {| key := "online"; val := "false" |} (rows_of (gatherNetwork env)))).
Proof.
  split; [ | split; [ | split; [ | split; [ | split; [ | split]]]]].
  - intros k. repeat split.
  - intros k v. split.
    + intros Hdiff.
      destruct v as [ | | b | n | [ | c s] | p]; auto;
        exfalso; apply Hdiff; reflexivity.
    + intros [-> | [-> | ->]]; discriminate.
  - intros k v H1 H2 H3. unfold mkKV. now rewrite display_ToString.
  - reflexivity.
  - reflexivity.
  - intros env.
    assert (Hin : In (mkKV "cookieEnabled" (cookieEnabled env))
                     (rows_of (gatherBasic env))).
    { unfold rows_of, gatherBasic. simpl. auto 10. }
    split; [exact Hin | ].
    intros Hc. rewrite Hc in Hin. exact Hin.
  - intros env.
    assert (Hin : In (mkKV "online" (onLine env))
                     (rows_of (gatherNetwork env))).
    { unfold rows_of, gatherNetwork. destruct (navConn env); simpl; auto. }
    split; [exact Hin | ].
    intros Hc. rewrite Hc in Hin. exact Hin.
Qed.

(** The flags are false on the sample desktop; undefined is replaced. *)
Lemma mkKV_keeps_defined_falsy_values_witness :
  In {| key := "cookieEnabled"; val := "false" |}
     (rows_of (gatherBasic (env_desktop "denied"))) /\
  In {| key := "online"; val := "false" |}
     (rows_of (gatherNetwork (env_desktop "denied"))) /\
  mkKV "deviceMemory" VUndefined
  = {| key := "deviceMemory"; val := "unknown" |}.
Proof.
  pose proof mkKV_keeps_defined_falsy_values
    as (Hrepl & _ & _ & _ & _ & Hcookie & Honline).
  split; [ | split].
  - apply Hcookie. reflexivity.
  - apply Honline. reflexivity.
  - apply Hrepl.
Defined.

(** ** The media probe *)

(** C6. Without [navigator.mediaDevices], or without [enumerateDevices] on
    it, the media probe returns a card with exactly one row: key
    "mediaDevices", value "unsupported". *)
Theorem gatherMediaDevices_unsupported (env : Env) (tm : Timing) (s : Probe) :
  mediaDevices env = None \/
  (exists md, mediaDevices env = Some md /\ enumerateDevices md = None) ->
  exists c,
    fst (gatherMediaDevices env tm s) = Return c /\
    body c = Rows [ {| key := "mediaDevices"; val := "unsupported" |} ].
Proof.
  intros Habsent.
  assert (Hcap : mediaDevices_enumerateDevices env = None).
  { unfold mediaDevices_enumerateDevices.
    destruct Habsent as [-> | [md [-> Hmd]]]; [reflexivity | exact Hmd]. }
  unfold gatherMediaDevices. rewrite Hcap.
  eexists. split; reflexivity.
Qed.

Lemma gatherMediaDevices_unsupported_witness :
  exists c,
    fst (gatherMediaDevices env_absent (timing_of 10 100) fresh) = Return c /\
    body c = Rows [ {| key := "mediaDevices"; val := "unsupported" |} ].
Proof.
  apply (gatherMediaDevices_unsupported env_absent (timing_of 10 100) fresh).
  left. reflexivity.
Defined.


(** ** The geolocation probe *)

Ltac run_probe :=
  unfold bind, try_catch, await, createElement_div, appendChild, call, tick,
    return_mkCard, ret, throw, never; simpl.

(** C4. With geolocation supported and a permission state other than
    "granted" and "prompt" (the queried state, or "unknown" when nothing
    answers the query), the card has a "permission" row showing the state
    and a "coords" row "unknown (permission denied or prompt)", and
    [getCurrentPosition] is not called; it is called only when the state is
    "granted" or "prompt".  For "denied" the rows are spelled out; a state
    that is a non-empty string is shown as it is. *)
Theorem gatherGeo_asks_permission_first (env : Env) (tm : Timing) :
  (forall geo permState,
     geolocation env = Some geo ->
     geo_permState env = Some permState ->
     granted_or_prompt permState = false ->
     exists s,
       gatherGeo env tm fresh
       = (Return {| title := "Geolocation";
                    body := Rows [ mkKV "permission" permState;
                                   mkKV "coords"
                                     "unknown (permission denied or prompt)" ]
                 |}, s) /\
       ~ In GetCurrentPosition (calls s)) /\
  (In GetCurrentPosition (calls (snd (gatherGeo env tm fresh))) ->
   exists permState, geo_permState env = Some permState /\
                     granted_or_prompt permState = true) /\
  (forall geo q,
     geolocation env = Some geo ->
     permissions_query env = Some q ->
     q "geolocation" = Resolves (VString "denied") ->
     rows_of (gatherGeo env tm)
     = [ {| key := "permission"; val := "denied" |};
         {| key := "coords";
            val := "unknown (permission denied or prompt)" |} ] /\
     ~ In GetCurrentPosition (calls (snd (gatherGeo env tm fresh)))) /\
  (forall state, state <> EmptyString ->
                 mkKV "permission" (VString state)
                 = {| key := "permission"; val := state |}).
Proof.
  assert (Hfirst : forall geo permState,
     geolocation env = Some geo ->
     geo_permState env = Some permState ->
     granted_or_prompt permState = false ->
     exists s,
       gatherGeo env tm fresh
       = (Return {| title := "Geolocation";
                    body := Rows [ mkKV "permission" permState;
                                   mkKV "coords"
                                     "unknown (permission denied or prompt)" ]
                 |}, s) /\
       ~ In GetCurrentPosition (calls s)).
  { intros geo v Hgeo Hv Hgp. unfold gatherGeo. rewrite Hgeo.
    unfold geo_permState in Hv. unfold granted_or_prompt in Hgp.
    destruct (permissions_query env) as [q | ].
    - destruct (q "geolocation") as [state | | ]; inversion Hv; subst;
        run_probe; rewrite ?Hgp; simpl;
        (eexists; split; [reflexivity | simpl; intuition discriminate]).
    - inversion Hv; subst. run_probe.
      eexists; split; [reflexivity | simpl; intuition discriminate]. }
  split; [exact Hfirst | split; [ | split]].
  - intros Hcall.
    destruct (geolocation env) as [geo | ] eqn:Hgeo.
    + destruct (geo_permState env) as [v | ] eqn:Hv.
      * exists v. split; [reflexivity | ].
        destruct (granted_or_prompt v) eqn:Hgp; [reflexivity | ].
        destruct (Hfirst geo v eq_refl eq_refl Hgp) as [s [Hrun Hno]].
        rewrite Hrun in Hcall. contradiction.
      * exfalso. revert Hcall. unfold gatherGeo. rewrite Hgeo.
        unfold geo_permState in Hv.
        destruct (permissions_query env) as [q | ]; [ | discriminate].
        destruct (q "geolocation") as [state | | ]; try discriminate.
        run_probe. intuition discriminate.
    + exfalso. revert Hcall. unfold gatherGeo. rewrite Hgeo.
      run_probe. tauto.
  - intros geo q Hgeo Hq Hdenied.
    destruct (Hfirst geo (VString "denied") Hgeo) as [s [Hrun Hno]].
    + unfold geo_permState. now rewrite Hq, Hdenied.
    + reflexivity.
    + unfold rows_of. rewrite Hrun. split; [ | exact Hno].
      revert Hrun. unfold gatherGeo. rewrite Hgeo, Hq, Hdenied. run_probe.
      intros [= <-]. reflexivity.
  - intros [ | c state] Hne; [contradiction | reflexivity].
Qed.

(** On the sample desktop with the permission denied. *)
Lemma gatherGeo_asks_permission_first_witness :
  rows_of (gatherGeo (env_desktop "denied") (timing_of 10 100))
  = [ {| key := "permission"; val := "denied" |};
      {| key := "coords"; val := "unknown (permission denied or prompt)" |} ]
  /\ ~ In GetCurrentPosition
         (calls (snd (gatherGeo (env_desktop "denied") (timing_of 10 100)
                        fresh))).
Proof.
  apply (proj1 (proj2 (proj2 (gatherGeo_asks_permission_first
                                (env_desktop "denied") (timing_of 10 100))))
           (CallsSuccess desktop_coords)
           (fun name =>
              if String.eqb name "geolocation"
              then Resolves (VString "denied")
              else if String.eqb name "push" then Rejects
              else Resolves (VString "prompt"))); reflexivity.
Defined.

(** ** The order of the cards *)

Lemma env_desktop_always_settles (state : string) :
  always_settles (env_desktop state).
Proof.
  split; [discriminate | split].
  - intros q name [= <-] _.
    destruct (String.eqb name "geolocation"); [discriminate | ].
    destruct (String.eqb name "push"); discriminate.
  - intros md [= <-]. discriminate.
Qed.

(** C7. A run of the orchestrator (with a [CARDS_ROOT]) leaves on the page
    the cards of the probes in the order of the list, whatever the
    latencies: the cards are those of the probes run one by one, each probe
    started when the one before is done, so the run takes the sum of their
    times; card by card the headings are the declared ones (Browser &
    Locale, Display & Viewport, Hardware Hints, Battery, Network,
    Geolocation, Media Devices or Media & Devices, Permissions, Performance,
    Sensors, Canvas / Audio Probes, Web APIs), the error card standing in
    for a probe that threw; all twelve are there when the run finishes,
    and it finishes when every awaited promise settles. *)
Theorem gatherAll_keeps_declared_order (env : Env) (tm : Timing) (pg : Page) :
  CARDS_ROOT env = true ->
  cards (snd (gatherAll env tm pg)) = shown (probes env tm) /\
  clock (snd (gatherAll env tm pg)) = (clock pg + duration (probes env tm))%N /\
  (exists k,
     Forall2 (card_fact env) (cards (snd (gatherAll env tm pg)))
             (firstn k declared_titles) /\
     (fst (gatherAll env tm pg) = Return tt -> k = 12%nat)) /\
  (always_settles env ->
   fst (gatherAll env tm pg) = Return tt /\
   length (cards (snd (gatherAll env tm pg))) = 12%nat).
Proof.
  intros Hroot. rewrite gatherAll_eq by assumption.
  unfold fst, snd, cards, clock.
  split; [reflexivity | split; [reflexivity | ]].
  destruct (shown_facts env _ _ (probes_facts env tm))
    as [[k [Hk Hlen]] Hset].
  split.
  - exists k. split; [exact Hk | ].
    intros Hret. apply Hlen.
    destruct (settled (probes env tm)); [reflexivity | discriminate].
  - intros Hs. rewrite (Hset Hs). split; [reflexivity | ].
    rewrite (Forall2_length Hk), (Hlen (Hset Hs)). reflexivity.
Qed.

Lemma gatherAll_keeps_declared_order_witness :
  fst (gatherAll (env_desktop "granted") (timing_of 500 4000) page_at_load)
  = Return tt /\
  length (cards (snd (gatherAll (env_desktop "granted") (timing_of 500 4000)
                        page_at_load))) = 12%nat.
Proof.
  apply (gatherAll_keeps_declared_order (env_desktop "granted")
           (timing_of 500 4000) page_at_load).
  - reflexivity.
  - apply env_desktop_always_settles.
Defined.

(** The headings of a finished run on the sample desktop, in order. *)
Example titles_on_desktop :
  map title (cards (snd (gatherAll (env_desktop "granted")
                           (timing_of 500 4000) page_at_load)))
  = ["Browser & Locale"; "Display & Viewport"; "Hardware Hints"; "Battery";
     "Network"; "Geolocation"; "Media & Devices"; "Permissions";
     "Performance"; "Sensors"; "Canvas / Audio Probes"; "Web APIs"].
Proof. reflexivity. Qed.

(** ** Probes that throw *)

Lemma gatherAll_settles (env : Env) (tm : Timing) (pg : Page) :
  always_settles env -> fst (gatherAll env tm pg) = Return tt.
Proof.
  intros Hs. destruct (CARDS_ROOT env) eqn:Hroot.
  - rewrite gatherAll_eq by assumption. unfold fst.
    destruct (shown_facts env _ _ (probes_facts env tm)) as [_ Hset].
    now rewrite (Hset Hs).
  - now rewrite gatherAll_without_root.
Qed.

(** C2. The display probe throws when there is no [screen]: it reads
    [screen.orientation] from the global, not from the guarded [s].  On the
    host with everything absent the orchestrator shows the error card in its
    place.  No other probe throws; the orchestrator never throws, and its
    run finishes whenever every awaited promise settles. *)
Theorem gatherScreen_throws_without_screen :
  (forall env, screen env = None -> fst (gatherScreen env fresh) = Throw) /\
  fst (gatherScreen env_absent fresh) = Throw /\
  gatherAll env_absent (timing_of 10 100) page_at_load
  = (Return tt,
     snd (gatherAll env_absent (timing_of 10 100) page_at_load)) /\
  nth_error (cards (snd (gatherAll env_absent (timing_of 10 100)
                           page_at_load))) 1
  = Some error_card /\
  length (cards (snd (gatherAll env_absent (timing_of 10 100) page_at_load)))
  = 12%nat /\
  (forall env tm,
     Forall2 (fun p ts => fst (p fresh) = Throw ->
                          ts = ["Display & Viewport"] /\ screen env = None)
             (probes env tm) declared_titles) /\
  (forall env tm pg, fst (gatherAll env tm pg) <> Throw) /\
  (forall env tm pg, always_settles env ->
                     fst (gatherAll env tm pg) = Return tt).
Proof.
  split; [ | split; [ | split; [ | split; [ | split; [ | split; [ | split]]]]]].
  - intros env Hs. unfold gatherScreen, s_. rewrite Hs. reflexivity.
  - vm_compute. reflexivity.
  - vm_compute. reflexivity.
  - vm_compute. reflexivity.
  - vm_compute. reflexivity.
  - intros env tm.
    eapply Forall2_impl; [ | apply probes_facts].
    intros p ts Hp Hthrow. unfold probe_fact in Hp.
    destruct (p fresh) as [[c | | ] s]; simpl in Hthrow;
      [discriminate | exact Hp | discriminate].
  - apply gatherAll_never_throws.
  - apply gatherAll_settles.
Qed.

(** ** The loader and the refresh button *)

(** What a run of the orchestrator returns, the time it ends at and the
    cards it leaves do not depend on the calls logged before. *)
Lemma gatherAll_after_setTimeout (env : Env) (tm : Timing) (pg : Page)
    (c : Call) :
  gatherAll env tm {| clock := clock pg;
                      log := log pg ++ [c];
                      cards := cards pg;
                      loader_hidden_at := loader_hidden_at pg;
                      scrolled_to_top := scrolled_to_top pg;
                      refresh_disabled := refresh_disabled pg;
                      refresh_text := refresh_text pg |}
  = (fst (gatherAll env tm pg),
     {| clock := clock (snd (gatherAll env tm pg));
        log := (log pg ++ [c])
               ++ (if CARDS_ROOT env then calls_made (probes env tm) else []);
        cards := cards (snd (gatherAll env tm pg));
        loader_hidden_at := loader_hidden_at pg;
        scrolled_to_top := scrolled_to_top pg;
        refresh_disabled := refresh_disabled pg;
        refresh_text := refresh_text pg |}).
Proof.
  destruct (CARDS_ROOT env) eqn:Hroot.
  - rewrite !gatherAll_eq by assumption. reflexivity.
  - rewrite !gatherAll_without_root by assumption.
    unfold fst, snd. rewrite app_nil_r. reflexivity.
Qed.

(** C3. On load the loader is hidden when the orchestrator's run has
    finished and 7000 ms have passed since the start, at the later of the
    two, so never before 7000 ms; it stays as it is while the run has not
    finished or when there is no loader.  A click on the refresh button runs
    the orchestrator again and ends when that run ends, with no wait of
    7000 ms and without touching the loader. *)
Theorem loader_hidden_after_run_and_minWait (env : Env) (tm : Timing)
    (pg : Page) :
  loader_hidden_at (snd (on_DOMContentLoaded env tm pg))
  = match fst (gatherAll env tm pg) with
    | Return _ =>
        if loader env
        then Some (N.max (clock (snd (gatherAll env tm pg)))
                         (clock pg + 7000))
        else loader_hidden_at pg
    | _ => loader_hidden_at pg
    end /\
  (forall T,
     loader_hidden_at pg = None ->
     loader_hidden_at (snd (on_DOMContentLoaded env tm pg)) = Some T ->
     fst (gatherAll env tm pg) = Return tt /\
     (clock pg + 7000 <= T)%N /\
     (clock (snd (gatherAll env tm pg)) <= T)%N) /\
  (REFRESH_BTN env = true ->
   fst (on_refresh_click env tm pg) = fst (gatherAll env tm pg) /\
   clock (snd (on_refresh_click env tm pg))
   = clock (snd (gatherAll env tm pg)) /\
   cards (snd (on_refresh_click env tm pg))
   = cards (snd (gatherAll env tm pg)) /\
   loader_hidden_at (snd (on_refresh_click env tm pg))
   = loader_hidden_at pg).
Proof.
  assert (Hload :
    loader_hidden_at (snd (on_DOMContentLoaded env tm pg))
    = match fst (gatherAll env tm pg) with
      | Return _ =>
          if loader env
          then Some (N.max (clock (snd (gatherAll env tm pg)))
                           (clock pg + 7000))
          else loader_hidden_at pg
      | _ => loader_hidden_at pg
      end).
  { unfold on_DOMContentLoaded, initFlow, try_catch.
    unfold bind at 1. unfold await_all_with_minWait.
    rewrite gatherAll_after_setTimeout.
    pose proof (gatherAll_never_throws env tm pg) as Hnt.
    destruct (fst (gatherAll env tm pg)) as [[] | | ].
    - unfold bind, hide_loader, scrollTo_top.
      destruct (loader env); reflexivity.
    - contradiction.
    - reflexivity. }
  split; [exact Hload | split].
  - intros T Hnone HT. rewrite Hload, Hnone in HT.
    destruct (fst (gatherAll env tm pg)) as [[] | | ]; try discriminate.
    destruct (loader env); [ | discriminate].
    injection HT as <-. split; [reflexivity | lia].
  - intros Hbtn. unfold on_refresh_click. rewrite Hbtn.
    unfold bind, set_refresh.
    destruct (CARDS_ROOT env) eqn:Hroot.
    + rewrite !gatherAll_eq by assumption. unfold fst, snd.
      destruct (settled (probes env tm)); repeat split; reflexivity.
    + rewrite !gatherAll_without_root by assumption.
      repeat split; reflexivity.
Qed.

(** The spec's two scenarios on the sample desktop: probing done after
    2000 ms, loader hidden at 7000 ms; probing done after 10000 ms, loader
    hidden at 10000 ms.  A refresh of the first takes 2000 ms. *)
Lemma loader_hidden_after_run_and_minWait_witness :
  (clock (snd (gatherAll (env_desktop "granted") (timing_of 100 800)
                 page_at_load)) = 2000%N /\
   loader_hidden_at (snd (on_DOMContentLoaded (env_desktop "granted")
                            (timing_of 100 800) page_at_load))
   = Some 7000%N) /\
  (clock (snd (gatherAll (env_desktop "granted") (timing_of 500 4000)
                 page_at_load)) = 10000%N /\
   loader_hidden_at (snd (on_DOMContentLoaded (env_desktop "granted")
                            (timing_of 500 4000) page_at_load))
   = Some 10000%N) /\
  clock (snd (on_refresh_click (env_desktop "granted") (timing_of 100 800)
                page_at_load)) = 2000%N.
Proof.
  split; [ | split].
  - split; [vm_compute; reflexivity | ].
    rewrite (proj1 (loader_hidden_after_run_and_minWait
                      (env_desktop "granted") (timing_of 100 800)
                      page_at_load)).
    vm_compute. reflexivity.
  - split; [vm_compute; reflexivity | ].
    rewrite (proj1 (loader_hidden_after_run_and_minWait
                      (env_desktop "granted") (timing_of 500 4000)
                      page_at_load)).
    vm_compute. reflexivity.
  - vm_compute. reflexivity.
Defined.

(** ** The displayed values *)

(** The fields with a check for an absent capability show "unsupported"
    when the capability is absent. *)
Lemma unsupported_rows (env : Env) (tm : Timing) :
  (userAgentData env = None ->
   In {| key := "userAgentData"; val := "unsupported" |}
      (rows_of (gatherBasic env))) /\
  (getContext_webgl (canvas env) = Ok None ->
   getContext_experimental_webgl (canvas env) = Ok None ->
   In {| key := "webgl"; val := "unsupported" |}
      (rows_of (gatherHardware env))) /\
  (getBattery env = None ->
   rows_of (gatherBattery env tm)
   = [ {| key := "battery"; val := "unsupported" |} ]) /\
  (navConn env = None ->
   In {| key := "networkAPI"; val := "unsupported" |}
      (rows_of (gatherNetwork env))) /\
  (geolocation env = None ->
   rows_of (gatherGeo env tm)
   = [ {| key := "geolocation"; val := "unsupported" |} ]) /\
  (mediaDevices_enumerateDevices env = None ->
   rows_of (gatherMediaDevices env tm)
   = [ {| key := "mediaDevices"; val := "unsupported" |} ]) /\
  (permissions_query env = None ->
   rows_of (gatherPermissions env tm)
   = [ {| key := "permissionsAPI"; val := "unsupported" |} ]) /\
  (DeviceMotionEvent env = None ->
   In {| key := "DeviceMotion API"; val := "unsupported" |}
      (rows_of (gatherSensors env))) /\
  (Accelerometer env = false ->
   In {| key := "GenericSensor"; val := "unsupported" |}
      (rows_of (gatherSensors env))) /\
  (AudioCtx env = None ->
   In {| key := "audioContext"; val := "unsupported" |}
      (rows_of (gatherCanvasAudioFingerprintingProbe env))).
Proof.
  repeat split.
  - intros Ha. unfold rows_of, gatherBasic. rewrite Ha. simpl. auto.
  - intros Ha Hb. unfold rows_of, gatherHardware. rewrite Ha, Hb. simpl.
    auto 6.
  - intros Ha. unfold rows_of, gatherBattery. now rewrite Ha.
  - intros Ha. unfold rows_of, gatherNetwork. rewrite Ha. simpl. auto.
  - intros Ha. unfold rows_of, gatherGeo. now rewrite Ha.
  - intros Ha. unfold rows_of, gatherMediaDevices. now rewrite Ha.
  - intros Ha. unfold rows_of, gatherPermissions. now rewrite Ha.
  - intros Ha. unfold rows_of, gatherSensors. rewrite Ha. simpl. auto.
  - intros Ha. unfold rows_of, gatherSensors. rewrite Ha.
    destruct (DeviceMotionEvent env) as [[ | ] | ]; simpl; auto.
  - intros Ha. unfold rows_of, gatherCanvasAudioFingerprintingProbe.
    rewrite Ha.
    destruct (getContext_2d (canvas env)) as [[ | ] | ];
      destruct (draw_2d (canvas env)) as [[] | ];
      destruct (toDataURL (canvas env)); simpl; auto.
Qed.

(** Every row of every card the orchestrator leaves shows some text. *)
Lemma gatherAll_rows_nonempty (env : Env) (tm : Timing) (pg : Page)
    (c : Card) (rows : list KV) :
  CARDS_ROOT env = true ->
  In c (cards (snd (gatherAll env tm pg))) ->
  body c = Rows rows ->
  Forall (fun row => val row <> EmptyString) rows.
Proof.
  intros Hroot Hin Hbody.
  rewrite gatherAll_eq in Hin by assumption. unfold snd, cards in Hin.
  destruct (shown_facts env _ _ (probes_facts env tm)) as [[k [Hk _]] _].
  revert Hk Hin.
  generalize (firstn k declared_titles), (shown (probes env tm)).
  intros tss0 l0 HF. induction HF as [ | c' ts l tss Hc _ IH].
  - intros [].
  - intros [<- | Hin]; [ | exact (IH Hin)].
    destruct Hc as [[t [_ [_ [rows' [Hb Hrows]]]]] | [-> _]].
    + rewrite Hb in Hbody. injection Hbody as <-. exact Hrows.
    + discriminate.
Qed.

(** What a probe shows when a query throws inside its own [try]. *)
Lemma catch_rows (env : Env) (tm : Timing) :
  (getContext_2d (canvas env) = Throws ->
   In {| key := "canvasProbe"; val := "error" |}
      (rows_of (gatherCanvasAudioFingerprintingProbe env))) /\
  (AudioCtx env = Some Throws ->
   In {| key := "audioContext"; val := "error" |}
      (rows_of (gatherCanvasAudioFingerprintingProbe env))) /\
  (getContext_webgl (canvas env) = Throws ->
   In {| key := "webgl"; val := "unknown" |}
      (rows_of (gatherHardware env))) /\
  (getBattery env = Some Rejects ->
   rows_of (gatherBattery env tm)
   = [ {| key := "battery"; val := "unknown" |} ]) /\
  (mediaDevices_enumerateDevices env = Some Rejects ->
   rows_of (gatherMediaDevices env tm)
   = [ {| key := "mediaDevices"; val := "unknown" |} ]) /\
  (performance env = None ->
   rows_of (gatherPerformance env tm)
   = [ {| key := "performance"; val := "unknown" |} ]).
Proof.
  repeat split.
  - intros Ha. unfold rows_of, gatherCanvasAudioFingerprintingProbe.
    rewrite Ha.
    run_probe.
    destruct (AudioCtx env) as [[ctx | ] | ]; simpl;
      [destruct (createOscillator_is_function ctx); simpl;
       [destruct (oscillator_setup ctx) as [[] | ]; simpl | ] | | ];
      auto.
  - intros Ha. unfold rows_of, gatherCanvasAudioFingerprintingProbe.
    rewrite Ha.
    destruct (getContext_2d (canvas env)) as [[ | ] | ];
      destruct (draw_2d (canvas env)) as [[] | ];
      destruct (toDataURL (canvas env)); simpl; auto.
  - intros Ha. unfold rows_of, gatherHardware. rewrite Ha. simpl. auto 6.
  - intros Ha. unfold rows_of, gatherBattery. now rewrite Ha.
  - intros Ha. unfold rows_of, gatherMediaDevices. now rewrite Ha.
  - intros Ha. unfold rows_of, gatherPerformance. now rewrite Ha.
Qed.

(** What holds of the formatter.  Every value [mkKV] displays is a
    non-empty string.  A value passed to [mkKV] that is undefined, null or
    the empty string is displayed as "unknown", also when [safe] handed it
    on or put its fallback for a query that throws; a field with a check for
    an absent capability shows "unsupported" when the capability is absent;
    any other value passed is displayed as [String(val)], which is not
    empty.  So every row of every card the orchestrator leaves on the page
    shows some text. *)
Theorem displayed_value_never_empty :
  (forall k v, val (mkKV k v) <> EmptyString) /\
  (forall k, val (mkKV k VUndefined) = "unknown" /\
             val (mkKV k VNull) = "unknown" /\
             val (mkKV k (VString EmptyString)) = "unknown") /\
  (forall k, val (mkKV k (safe' Throws)) = "unknown" /\
             val (mkKV k (safe' (Ok VNull))) = "unknown" /\
             val (mkKV k (safe' (Ok VUndefined))) = "unknown" /\
             val (mkKV k (safe' (Ok (VString EmptyString)))) = "unknown") /\
  (forall k v, v <> VUndefined -> v <> VNull -> v <> VString EmptyString ->
               val (mkKV k v) = ToString v /\ ToString v <> EmptyString) /\
  (forall env tm,
     (userAgentData env = None ->
      In {| key := "userAgentData"; val := "unsupported" |}
         (rows_of (gatherBasic env))) /\
     (getContext_webgl (canvas env) = Ok None ->
      getContext_experimental_webgl (canvas env) = Ok None ->
      In {| key := "webgl"; val := "unsupported" |}
         (rows_of (gatherHardware env))) /\
     (getBattery env = None ->
      rows_of (gatherBattery env tm)
      = [ {| key := "battery"; val := "unsupported" |} ]) /\
     (navConn env = None ->
      In {| key := "networkAPI"; val := "unsupported" |}
         (rows_of (gatherNetwork env))) /\
     (geolocation env = None ->
      rows_of (gatherGeo env tm)
      = [ {| key := "geolocation"; val := "unsupported" |} ]) /\
     (mediaDevices_enumerateDevices env = None ->
      rows_of (gatherMediaDevices env tm)
      = [ {| key := "mediaDevices"; val := "unsupported" |} ]) /\
     (permissions_query env = None ->
      rows_of (gatherPermissions env tm)
      = [ {| key := "permissionsAPI"; val := "unsupported" |} ]) /\
     (DeviceMotionEvent env = None ->
      In {| key := "DeviceMotion API"; val := "unsupported" |}
         (rows_of (gatherSensors env))) /\
     (Accelerometer env = false ->
      In {| key := "GenericSensor"; val := "unsupported" |}
         (rows_of (gatherSensors env))) /\
     (AudioCtx env = None ->
      In {| key := "audioContext"; val := "unsupported" |}
         (rows_of (gatherCanvasAudioFingerprintingProbe env)))) /\
  (forall env tm,
     (getContext_2d (canvas env) = Throws ->
      In {| key := "canvasProbe"; val := "error" |}
         (rows_of (gatherCanvasAudioFingerprintingProbe env))) /\
     (AudioCtx env = Some Throws ->
      In {| key := "audioContext"; val := "error" |}
         (rows_of (gatherCanvasAudioFingerprintingProbe env))) /\
     (getContext_webgl (canvas env) = Throws ->
      In {| key := "webgl"; val := "unknown" |}
         (rows_of (gatherHardware env))) /\
     (getBattery env = Some Rejects ->
      rows_of (gatherBattery env tm)
      = [ {| key := "battery"; val := "unknown" |} ]) /\
     (mediaDevices_enumerateDevices env = Some Rejects ->
      rows_of (gatherMediaDevices env tm)
      = [ {| key := "mediaDevices"; val := "unknown" |} ]) /\
     (performance env = None ->
      rows_of (gatherPerformance env tm)
      = [ {| key := "performance"; val := "unknown" |} ])) /\
  (forall env tm pg c rows,
     CARDS_ROOT env = true ->
     In c (cards (snd (gatherAll env tm pg))) ->
     body c = Rows rows ->
     Forall (fun row => val row <> EmptyString) rows).
Proof.
  split; [ | split; [ | split; [ | split; [ | split; [ | split]]]]].
  - intros k v. apply display_nonempty.
  - intros k. repeat split.
  - intros k. repeat split.
  - intros k v H1 H2 H3. simpl. split.
    + now apply display_ToString.
    + now apply ToString_nonempty.
  - apply unsupported_rows.
  - apply catch_rows.
  - apply gatherAll_rows_nonempty.
Qed.

(** On the host with everything absent: the rows that show "unsupported",
    and no row without text. *)
Lemma displayed_value_never_empty_witness :
  rows_of (gatherBattery env_absent (timing_of 10 100))
  = [ {| key := "battery"; val := "unsupported" |} ] /\
  In {| key := "audioContext"; val := "unsupported" |}
     (rows_of (gatherCanvasAudioFingerprintingProbe env_absent)) /\
  forall c rows,
    In c (cards (snd (gatherAll env_absent (timing_of 10 100) page_at_load))) ->
    body c = Rows rows ->
    Forall (fun row => val row <> EmptyString) rows.
Proof.
  pose proof displayed_value_never_empty as [_ [_ [_ [_ [Hun [_ Hall]]]]]].
  destruct (Hun env_absent (timing_of 10 100))
    as (_ & _ & Hbat & _ & _ & _ & _ & _ & _ & Haudio).
  split; [apply Hbat; reflexivity | ].
  split; [apply Haudio; reflexivity | ].
  intros c rows.
  apply (Hall env_absent (timing_of 10 100) page_at_load c rows).
  reflexivity.
Defined.


(** ** Waiting *)

(** The loop of the permissions probe stops at a query that is never
    answered. *)
Lemma query_loop_pending (tm : Timing) (q : string -> AsyncR jsval)
    (l : list string) (s : Probe) :
  (exists name, In name l /\ q name = NeverSettles) ->
  fst (for_of l (query_one tm q) s) = Pending.
Proof.
  revert s. induction l as [ | x l IH]; intros s [name [Hin Hname]].
  - destruct Hin.
  - simpl. unfold bind at 1. unfold query_one at 1.
    destruct (q x) as [state | | ] eqn:Hx; run_probe.
    + apply IH. destruct Hin as [<- | Hin]; [congruence | eauto].
    + apply IH. destruct Hin as [<- | Hin]; [congruence | eauto].
    + reflexivity.
Qed.

(** The claim of C5 fails for the battery probe: with a [getBattery]
    promise that is never settled the probe, and with it the orchestrator,
    waits for ever, and no "battery" row is appended. *)
Lemma gatherBattery_waits_for_ever :
  fst (gatherBattery (env_desktop_with "granted" NeverSettles)
         (timing_of 10 100) fresh) = Pending /\
  rows_of (gatherBattery (env_desktop_with "granted" NeverSettles)
             (timing_of 10 100)) = [] /\
  fst (gatherAll (env_desktop_with "granted" NeverSettles)
         (timing_of 10 100) page_at_load) = Pending.
Proof. repeat split; vm_compute; reflexivity. Qed.

(** C5, amended.  Only the wait for the position has a timeout: once the
    permission state is read the geolocation probe returns, at most 8000 ms
    after the query was answered, and when no position has come by then (no
    callback, or one after 8000 ms or more) the "coords" row shows "unknown
    or blocked".  The battery status, the enumeration of media devices and
    the permission queries, the one of the geolocation probe included, are
    awaited without a timeout: the probe takes as long as the answer, and
    waits for ever when the promise is never settled. *)
Theorem only_position_wait_has_timeout (env : Env) (tm : Timing) :
  (forall geo permState,
     geolocation env = Some geo ->
     geo_permState env = Some permState ->
     exists c s,
       gatherGeo env tm fresh = (Return c, s) /\
       (elapsed s <= t_geolocation_query tm + 8000)%N) /\
  (forall geo permState,
     geolocation env = Some geo ->
     geo_permState env = Some permState ->
     granted_or_prompt permState = true ->
     geo = CallsNeither \/ (fix_in_time tm = false /\ geo <> ThrowsAtCall) ->
     rows_of (gatherGeo env tm)
     = [ mkKV "permission" permState;
         {| key := "coords"; val := "unknown or blocked" |} ] /\
     elapsed (snd (gatherGeo env tm fresh))
     = (t_geolocation_query tm + 8000)%N) /\
  (getBattery env = Some NeverSettles ->
   fst (gatherBattery env tm fresh) = Pending) /\
  (forall b, getBattery env = Some (Resolves b) ->
             elapsed (snd (gatherBattery env tm fresh)) = t_getBattery tm) /\
  (mediaDevices_enumerateDevices env = Some NeverSettles ->
   fst (gatherMediaDevices env tm fresh) = Pending) /\
  (forall devices,
     mediaDevices_enumerateDevices env = Some (Resolves devices) ->
     elapsed (snd (gatherMediaDevices env tm fresh))
     = t_enumerateDevices tm) /\
  (forall q, permissions_query env = Some q ->
             (exists name, In name names /\ q name = NeverSettles) ->
             fst (gatherPermissions env tm fresh) = Pending) /\
  (forall geo q, geolocation env = Some geo ->
                 permissions_query env = Some q ->
                 q "geolocation" = NeverSettles ->
                 fst (gatherGeo env tm fresh) = Pending).
Proof.
  split; [ | split; [ | split; [ | split; [ | split; [ | split; [ | split]]]]]].
  - intros geo v Hgeo Hv. unfold gatherGeo. rewrite Hgeo.
    unfold geo_permState in Hv.
    destruct (permissions_query env) as [q | ].
    + destruct (q "geolocation") as [state | | ]; inversion Hv; subst;
        run_probe;
        try (destruct (strict_eq_string v "granted"
                       || strict_eq_string v "prompt"));
        unfold position_promise; run_probe;
        try (destruct geo; run_probe;
             try (destruct (t_getCurrentPosition tm <? 8000)%N eqn:Hlt;
                  run_probe; try apply N.ltb_lt in Hlt));
        (eexists; eexists; split; [reflexivity | simpl; lia]).
    + inversion Hv; subst. run_probe.
      eexists; eexists; split; [reflexivity | simpl; lia].
  - intros geo v Hgeo Hv Hgp Hlate. unfold rows_of, gatherGeo. rewrite Hgeo.
    unfold geo_permState in Hv. unfold granted_or_prompt in Hgp.
    unfold fix_in_time in Hlate.
    destruct (permissions_query env) as [q | ].
    + destruct (q "geolocation") as [state | | ]; inversion Hv; subst;
        [ | discriminate].
      run_probe. rewrite Hgp. unfold position_promise. run_probe.
      destruct Hlate as [-> | [Hlate Hgeo']].
      * run_probe. split; [reflexivity | lia].
      * destruct geo; run_probe; rewrite ?Hlate; run_probe.
        -- split; [reflexivity | lia].
        -- apply N.ltb_ge in Hlate. split; [reflexivity | lia].
        -- split; [reflexivity | lia].
        -- congruence.
    + inversion Hv; subst. discriminate.
  - intros Hb. unfold gatherBattery. now rewrite Hb.
  - intros b Hb. unfold gatherBattery. now rewrite Hb.
  - intros Hm. unfold gatherMediaDevices. now rewrite Hm.
  - intros devices Hm. unfold gatherMediaDevices. now rewrite Hm.
  - intros q Hq Hnever. unfold gatherPermissions. rewrite Hq.
    unfold bind at 1. unfold createElement_div.
    unfold bind at 1. unfold try_catch at 1.
    pose proof (query_loop_pending tm q names
                  {| el := []; elapsed := elapsed fresh;
                     calls := calls fresh |} Hnever) as Hp.
    destruct (for_of names (query_one tm q) _) as [[[] | | ] s'];
      simpl in Hp; try discriminate.
    reflexivity.
  - intros geo q Hgeo Hq Hnever. unfold gatherGeo.
    rewrite Hgeo, Hq, Hnever. reflexivity.
Qed.

(** The position never comes, the state is "granted": the probe gives up
    8000 ms after the query was answered. *)
Lemma only_position_wait_has_timeout_witness :
  rows_of (gatherGeo (env_desktop "granted") (timing_of 10 9000))
  = [ mkKV "permission" (VString "granted");
      {| key := "coords"; val := "unknown or blocked" |} ] /\
  elapsed (snd (gatherGeo (env_desktop "granted") (timing_of 10 9000) fresh))
  = (t_geolocation_query (timing_of 10 9000) + 8000)%N.
Proof.
  apply (proj1 (proj2 (only_position_wait_has_timeout
                         (env_desktop "granted") (timing_of 10 9000)))
           (CallsSuccess desktop_coords) (VString "granted"));
    try reflexivity.
  right. split; [reflexivity | discriminate].
Defined.

(** ** Two runs in the same environment *)

Lemma same_keys_refl (r : completion Card) : same_keys r r.
Proof. destruct r; simpl; auto. Qed.

Lemma query_loop_same (tm1 tm2 : Timing) (q : string -> AsyncR jsval)
    (l : list string) (s1 s2 : Probe) :
  el s1 = el s2 ->
  fst (for_of l (query_one tm1 q) s1) = fst (for_of l (query_one tm2 q) s2) /\
  el (snd (for_of l (query_one tm1 q) s1))
  = el (snd (for_of l (query_one tm2 q) s2)).
Proof.
  revert s1 s2. induction l as [ | x l IH]; intros s1 s2 Hel.
  - simpl. auto.
  - simpl. unfold bind, query_one.
    destruct (q x) as [state | | ]; run_probe.
    + apply IH. simpl. now rewrite Hel.
    + apply IH. simpl. now rewrite Hel.
    + auto.
Qed.

Section TwoRuns.

Variable env : Env.
Variables tm1 tm2 : Timing.

Lemma gatherBattery_same_keys :
  same_keys (fst (gatherBattery env tm1 fresh))
            (fst (gatherBattery env tm2 fresh)).
Proof.
  unfold gatherBattery.
  destruct (getBattery env) as [[b | | ] | ]; simpl; auto.
Qed.

Lemma gatherMediaDevices_same_keys :
  same_keys (fst (gatherMediaDevices env tm1 fresh))
            (fst (gatherMediaDevices env tm2 fresh)).
Proof.
  unfold gatherMediaDevices.
  destruct (mediaDevices_enumerateDevices env) as [[devices | | ] | ];
    simpl; auto.
Qed.

Lemma gatherPerformance_same_keys :
  same_keys (fst (gatherPerformance env tm1 fresh))
            (fst (gatherPerformance env tm2 fresh)).
Proof.
  unfold gatherPerformance.
  destruct (performance env) as [perf | ]; [ | simpl; auto].
  run_probe.
  destruct (getEntriesByType_navigation_0 perf) as [[nav | ] | ];
    destruct (timing perf) as [t | ];
    destruct (now perf) as [[] | ]; simpl; auto.
Qed.

Lemma gatherPermissions_run (tm : Timing) (q : string -> AsyncR jsval) :
  permissions_query env = Some q ->
  gatherPermissions env tm fresh
  = match for_of names (query_one tm q) fresh with
    | (Return _, s) => (Return (mkCard "Permissions" (CElement (el s))), s)
    | (Throw, s) =>
        (return_mkCard "Permissions")
          (snd (appendChild (mkKV "permissions" "error") s))
    | (Pending, s) => (Pending, s)
    end.
Proof.
  intros Hq. unfold gatherPermissions. rewrite Hq.
  unfold bind at 1. unfold createElement_div.
  change {| el := []; elapsed := elapsed fresh; calls := calls fresh |}
    with fresh.
  unfold bind at 1. unfold try_catch.
  destruct (for_of names (query_one tm q) fresh) as [[[] | | ] s];
    reflexivity.
Qed.

Lemma gatherPermissions_same_keys :
  same_keys (fst (gatherPermissions env tm1 fresh))
            (fst (gatherPermissions env tm2 fresh)).
Proof.
  destruct (permissions_query env) as [q | ] eqn:Hq.
  - rewrite !(gatherPermissions_run _ q Hq).
    destruct (query_loop_same tm1 tm2 q names fresh fresh eq_refl)
      as [Hfst Hel].
    destruct (for_of names (query_one tm1 q) fresh) as [r1 s1].
    destruct (for_of names (query_one tm2 q) fresh) as [r2 s2].
    simpl in Hfst, Hel. subst r2.
    destruct r1 as [[] | | ]; simpl; unfold keys_of; simpl;
      now rewrite ?Hel.
  - unfold gatherPermissions. rewrite Hq. simpl. auto.
Qed.

Hypothesis same_side : fix_in_time tm1 = fix_in_time tm2.

Lemma gatherGeo_same_keys :
  same_keys (fst (gatherGeo env tm1 fresh)) (fst (gatherGeo env tm2 fresh)).
Proof.
  unfold fix_in_time in same_side. unfold gatherGeo.
  destruct (geolocation env) as [geo | ]; [ | simpl; auto].
  destruct (permissions_query env) as [q | ].
  - destruct (q "geolocation") as [state | | ]; run_probe; auto.
    + destruct (strict_eq_string state "granted"
                || strict_eq_string state "prompt"); [ | simpl; auto].
      unfold position_promise. run_probe.
      destruct geo; run_probe; auto.
      rewrite same_side.
      destruct (t_getCurrentPosition tm2 <? 8000)%N; simpl; auto.
  - run_probe. auto.
Qed.

Lemma probes_same_keys :
  Forall2 (fun p1 p2 => same_keys (fst (p1 fresh)) (fst (p2 fresh)))
          (probes env tm1) (probes env tm2).
Proof.
  unfold probes.
  repeat apply Forall2_cons; try apply Forall2_nil;
    try apply same_keys_refl.
  - apply gatherBattery_same_keys.
  - apply gatherGeo_same_keys.
  - apply gatherMediaDevices_same_keys.
  - apply gatherPermissions_same_keys.
  - apply gatherPerformance_same_keys.
Qed.

End TwoRuns.

Lemma shown_same_keys (ps1 ps2 : list (M Probe Card)) :
  Forall2 (fun p1 p2 => same_keys (fst (p1 fresh)) (fst (p2 fresh)))
          ps1 ps2 ->
  settled ps1 = settled ps2 /\
  map keys_of (shown ps1) = map keys_of (shown ps2).
Proof.
  induction 1 as [ | p1 p2 ps1 ps2 Hp _ [IHs IHk]]; [auto | ].
  simpl.
  destruct (fst (p1 fresh)) as [c1 | | ], (fst (p2 fresh)) as [c2 | | ];
    simpl in Hp; try contradiction; simpl; auto.
  - rewrite Hp, IHk. auto.
  - rewrite IHk. auto.
Qed.

(** The claim of C8 fails.  On the sample desktop the permission state is
    "prompt" and the same position is answered in both runs, 100 ms after
    the request in one (the user allows at once) and 9000 ms after it in the
    other: the geolocation card has the keys permission, coords, accuracy_m,
    altitude in the first run and permission, coords in the second. *)
Lemma keys_depend_on_position_latency :
  nth_error
    (map keys_of (cards (snd (gatherAll (env_desktop "prompt")
                                (timing_of 10 100) page_at_load)))) 5
  = Some ("Geolocation", ["permission"; "coords"; "accuracy_m"; "altitude"])
  /\
  nth_error
    (map keys_of (cards (snd (gatherAll (env_desktop "prompt")
                                (timing_of 10 9000) page_at_load)))) 5
  = Some ("Geolocation", ["permission"; "coords"]) /\
  map keys_of (cards (snd (gatherAll (env_desktop "prompt")
                             (timing_of 10 100) page_at_load)))
  <> map keys_of (cards (snd (gatherAll (env_desktop "prompt")
                                (timing_of 10 9000) page_at_load))).
Proof.
  split; [vm_compute; reflexivity | ].
  split; [vm_compute; reflexivity | ].
  vm_compute. discriminate.
Qed.

(** Case analysis on what the environment holds, one [match] at a time. *)
Ltac break_match :=
  match goal with
  | |- context [match ?x with _ => _ end] =>
      lazymatch x with
      | context [match _ with _ => _ end] => fail
      | _ => destruct x eqn:?
      end
  end.

Lemma same_row_refl (a : KV) : same_row a a.
Proof. split; reflexivity. Qed.

Lemma same_card_refl (c : Card) : same_card c c.
Proof.
  split; [reflexivity | ].
  destruct (body c) as [t | rows]; [reflexivity | ].
  induction rows; constructor; auto using same_row_refl.
Qed.

Lemma same_completion_eq (r1 r2 : completion Card) :
  r1 = r2 -> same_completion r1 r2.
Proof. intros <-. destruct r1; simpl; auto using same_card_refl. Qed.

Lemma same_card_keys (c1 c2 : Card) :
  same_card c1 c2 -> keys_of c1 = keys_of c2.
Proof.
  intros [Ht Hb]. unfold keys_of. rewrite Ht. f_equal.
  destruct (body c1) as [t1 | r1], (body c2) as [t2 | r2];
    try contradiction; [reflexivity | ].
  induction Hb as [ | a b r1 r2 [Hk _] _ IH]; simpl; [reflexivity | ].
  now rewrite Hk, IH.
Qed.

Lemma runs_alike_shown (ps1 ps2 : list (M Probe Card)) :
  runs_alike ps1 ps2 ->
  settled ps1 = settled ps2 /\ Forall2 same_card (shown ps1) (shown ps2).
Proof.
  induction 1 as [ | p1 p2 ps1 ps2 H1 H2 | p1 p2 ps1 ps2 Hp _ [IHs IHc]];
    simpl.
  - split; [reflexivity | constructor].
  - rewrite H1, H2. split; [reflexivity | constructor].
  - destruct (fst (p1 fresh)) as [c1 | | ], (fst (p2 fresh)) as [c2 | | ];
      simpl in Hp; try contradiction; split; auto;
      constructor; auto using same_card_refl.
Qed.

Lemma Forall2_same_card_keys (cs1 cs2 : list Card) :
  Forall2 same_card cs1 cs2 -> map keys_of cs1 = map keys_of cs2.
Proof.
  induction 1 as [ | c1 c2 cs1 cs2 Hc _ IH]; simpl; [reflexivity | ].
  now rewrite (same_card_keys _ _ Hc), IH.
Qed.

Section TwoRunsAlike.

Variable env : Env.
Variables tm1 tm2 : Timing.

Lemma gatherBattery_alike :
  same_completion (fst (gatherBattery env tm1 fresh))
                  (fst (gatherBattery env tm2 fresh)).
Proof.
  apply same_completion_eq. unfold gatherBattery.
  destruct (getBattery env) as [[b | | ] | ]; reflexivity.
Qed.

Lemma gatherMediaDevices_alike :
  same_completion (fst (gatherMediaDevices env tm1 fresh))
                  (fst (gatherMediaDevices env tm2 fresh)).
Proof.
  apply same_completion_eq. unfold gatherMediaDevices.
  destruct (mediaDevices_enumerateDevices env) as [[devices | | ] | ];
    reflexivity.
Qed.

Lemma gatherPermissions_alike :
  same_completion (fst (gatherPermissions env tm1 fresh))
                  (fst (gatherPermissions env tm2 fresh)).
Proof.
  apply same_completion_eq.
  destruct (permissions_query env) as [q | ] eqn:Hq.
  - rewrite !(gatherPermissions_run _ _ q Hq).
    destruct (query_loop_same tm1 tm2 q names fresh fresh eq_refl)
      as [Hfst Hel].
    destruct (for_of names (query_one tm1 q) fresh) as [r1 s1].
    destruct (for_of names (query_one tm2 q) fresh) as [r2 s2].
    simpl in Hfst, Hel. subst r2.
    destruct r1 as [[] | | ]; simpl; now rewrite ?Hel.
  - unfold gatherPermissions. now rewrite Hq.
Qed.

Lemma gatherPerformance_alike :
  same_completion (fst (gatherPerformance env tm1 fresh))
                  (fst (gatherPerformance env tm2 fresh)).
Proof.
  unfold gatherPerformance.
  destruct (performance env) as [perf | ];
    [ | apply same_completion_eq; reflexivity].
  run_probe.
  destruct (getEntriesByType_navigation_0 perf) as [[nav | ] | ];
    destruct (timing perf) as [t | ];
    destruct (now perf) as [[] | ]; simpl;
    (split; [reflexivity | ]); simpl;
    repeat (apply Forall2_cons;
            [split; [reflexivity
                    | intros Hk; first [reflexivity
                                       | now contradiction Hk]] | ]);
    apply Forall2_nil.
Qed.

Lemma gatherGeo_alike :
  geo_decides env = false \/ fix_in_time tm1 = fix_in_time tm2 ->
  same_completion (fst (gatherGeo env tm1 fresh))
                  (fst (gatherGeo env tm2 fresh)).
Proof.
  intros Hcond. apply same_completion_eq.
  unfold geo_decides, geo_permState, granted_or_prompt, fix_in_time in Hcond.
  unfold gatherGeo.
  destruct (geolocation env) as [geo | ]; [ | reflexivity].
  destruct (permissions_query env) as [q | ]; [ | reflexivity].
  destruct (q "geolocation") as [state | | ]; run_probe; auto.
  destruct (strict_eq_string state "granted"
            || strict_eq_string state "prompt"); [ | reflexivity].
  unfold position_promise. run_probe.
  destruct geo as [coords | | | ]; run_probe; auto.
  destruct Hcond as [Hcond | Hcond]; [discriminate | ].
  rewrite Hcond.
  destruct (t_getCurrentPosition tm2 <? 8000)%N; reflexivity.
Qed.

(** When the position decides, the geolocation probe returns the four rows
    if the position comes in time and the two rows if it does not. *)
Lemma gatherGeo_decided (tm : Timing) :
  geo_decides env = true ->
  exists c,
    fst (gatherGeo env tm fresh) = Return c /\
    keys_of c
    = ("Geolocation",
       if fix_in_time tm
       then ["permission"; "coords"; "accuracy_m"; "altitude"]
       else ["permission"; "coords"]).
Proof.
  unfold geo_decides, geo_permState, granted_or_prompt, fix_in_time.
  unfold gatherGeo. intros Hd.
  destruct (geolocation env) as [[coords | | | ] | ]; try discriminate.
  destruct (permissions_query env) as [q | ]; [ | discriminate].
  destruct (q "geolocation") as [state | | ]; try discriminate.
  run_probe. rewrite Hd. unfold position_promise. run_probe.
  destruct (t_getCurrentPosition tm <? 8000)%N; run_probe;
    eexists; split; reflexivity.
Qed.

Lemma probes_alike :
  position_decides env = false \/ fix_in_time tm1 = fix_in_time tm2 ->
  runs_alike (probes env tm1) (probes env tm2).
Proof.
  intros Hcond. unfold probes.
  do 3 (apply alike_cons; [apply same_completion_eq; reflexivity | ]).
  destruct (getBattery env) as [[b | | ] | ] eqn:Hb.
  4: { unfold position_decides in Hcond. rewrite Hb in Hcond.
       apply alike_cons; [apply gatherBattery_alike | ].
       apply alike_cons; [apply same_completion_eq; reflexivity | ].
       apply alike_cons; [now apply gatherGeo_alike | ].
       apply alike_cons; [apply gatherMediaDevices_alike | ].
       apply alike_cons; [apply gatherPermissions_alike | ].
       apply alike_cons; [apply gatherPerformance_alike | ].
       do 3 (apply alike_cons; [apply same_completion_eq; reflexivity | ]).
       apply alike_nil. }
  3: { apply alike_stop; unfold gatherBattery; now rewrite Hb. }
  all: unfold position_decides in Hcond; rewrite Hb in Hcond;
    (apply alike_cons; [apply gatherBattery_alike | ]);
    (apply alike_cons; [apply same_completion_eq; reflexivity | ]);
    (apply alike_cons; [now apply gatherGeo_alike | ]);
    (apply alike_cons; [apply gatherMediaDevices_alike | ]);
    (apply alike_cons; [apply gatherPermissions_alike | ]);
    (apply alike_cons; [apply gatherPerformance_alike | ]);
    do 3 (apply alike_cons; [apply same_completion_eq; reflexivity | ]);
    apply alike_nil.
Qed.

End TwoRunsAlike.

Lemma shown_next (p : M Probe Card) (ps : list (M Probe Card)) (n : nat) :
  fst (p fresh) <> Pending ->
  nth_error (map keys_of (shown (p :: ps))) (Datatypes.S n)
  = nth_error (map keys_of (shown ps)) n.
Proof.
  intros Hp. simpl. destruct (fst (p fresh)); [ | | contradiction];
    reflexivity.
Qed.

Lemma shown_first (p : M Probe Card) (ps : list (M Probe Card)) (c : Card) :
  fst (p fresh) = Return c ->
  nth_error (map keys_of (shown (p :: ps))) 0 = Some (keys_of c).
Proof. intros Hp. simpl. now rewrite Hp. Qed.

(** When the position decides, the sixth card of a run is that of the
    geolocation probe. *)
Lemma gatherAll_geolocation_card (env : Env) (tm : Timing) :
  position_decides env = true ->
  nth_error (map keys_of (shown (probes env tm))) 5
  = Some ("Geolocation",
          if fix_in_time tm
          then ["permission"; "coords"; "accuracy_m"; "altitude"]
          else ["permission"; "coords"]).
Proof.
  intros Hd. unfold position_decides in Hd. unfold probes.
  rewrite shown_next by (unfold gatherBasic; discriminate).
  rewrite shown_next.
  2: { pose proof (gatherScreen_spec env fresh I) as Hs.
       destruct (gatherScreen env fresh) as [[c | | ] s];
         [discriminate | discriminate | contradiction]. }
  rewrite shown_next.
  2: { unfold gatherHardware, eval. run_probe.
       repeat (break_match; run_probe); discriminate. }
  rewrite shown_next.
  2: { unfold gatherBattery.
       destruct (getBattery env) as [[b | | ] | ]; discriminate. }
  rewrite shown_next.
  2: { unfold gatherNetwork. destruct (navConn env); discriminate. }
  assert (Hg : geo_decides env = true)
    by (destruct (getBattery env) as [[b | | ] | ]; auto; discriminate).
  destruct (gatherGeo_decided env tm Hg) as [c [Hc Hkeys]].
  rewrite (shown_first _ _ c Hc). now rewrite Hkeys.
Qed.

(** C8, amended.  Two runs of the orchestrator in the same environment,
    with any latencies and any readings of [performance.now()], leave cards
    with the same headings and the same row keys exactly when the position
    does not decide them (the geolocation probe is not reached, does not
    request the position, or is not answered with one) or it arrives on the
    same side of the probe's timer of 8000 ms in both runs.  Then the runs
    also end alike and the rows have the same values, but for the reading of
    [performance.now()].  When the position decides and arrives in time in
    the first run only, the geolocation card has the keys permission,
    coords, accuracy_m, altitude in the first run and permission, coords in
    the second. *)
Theorem gatherAll_same_titles_and_keys (env : Env) (tm1 tm2 : Timing)
    (pg1 pg2 : Page) :
  CARDS_ROOT env = true ->
  (map keys_of (cards (snd (gatherAll env tm1 pg1)))
   = map keys_of (cards (snd (gatherAll env tm2 pg2))) <->
   position_decides env = false \/ fix_in_time tm1 = fix_in_time tm2) /\
  (position_decides env = false \/ fix_in_time tm1 = fix_in_time tm2 ->
   fst (gatherAll env tm1 pg1) = fst (gatherAll env tm2 pg2) /\
   Forall2 same_card (cards (snd (gatherAll env tm1 pg1)))
                     (cards (snd (gatherAll env tm2 pg2)))) /\
  (position_decides env = true ->
   fix_in_time tm1 = true -> fix_in_time tm2 = false ->
   nth_error (map keys_of (cards (snd (gatherAll env tm1 pg1)))) 5
   = Some ("Geolocation",
           ["permission"; "coords"; "accuracy_m"; "altitude"]) /\
   nth_error (map keys_of (cards (snd (gatherAll env tm2 pg2)))) 5
   = Some ("Geolocation", ["permission"; "coords"])).
Proof.
  intros Hroot. rewrite !gatherAll_eq by assumption.
  unfold fst, snd, cards.
  assert (Hsame : position_decides env = false \/
                  fix_in_time tm1 = fix_in_time tm2 ->
                  settled (probes env tm1) = settled (probes env tm2) /\
                  Forall2 same_card (shown (probes env tm1))
                                    (shown (probes env tm2))).
  { intros Hcond. apply runs_alike_shown. now apply probes_alike. }
  split; [ | split].
  - split.
    + intros Hkeys.
      destruct (position_decides env) eqn:Hd; [ | now left]. right.
      pose proof (gatherAll_geolocation_card env tm1 Hd) as H1.
      pose proof (gatherAll_geolocation_card env tm2 Hd) as H2.
      rewrite Hkeys in H1. rewrite H1 in H2.
      destruct (fix_in_time tm1), (fix_in_time tm2);
        try reflexivity; discriminate H2.
    + intros Hcond. apply Forall2_same_card_keys. now apply Hsame.
  - intros Hcond. destruct (Hsame Hcond) as [Hs Hc].
    rewrite Hs. auto.
  - intros Hd H1 H2.
    pose proof (gatherAll_geolocation_card env tm1 Hd) as Hc1.
    pose proof (gatherAll_geolocation_card env tm2 Hd) as Hc2.
    rewrite H1 in Hc1. rewrite H2 in Hc2. auto.
Qed.

(** The position after 100 ms in one run and after 5000 ms in the other, the
    other answers after 10 ms and after 300 ms. *)
Lemma gatherAll_same_titles_and_keys_witness :
  fst (gatherAll (env_desktop "granted") (timing_of 10 100) page_at_load)
  = fst (gatherAll (env_desktop "granted") (timing_of 300 5000) page_at_load)
  /\
  map keys_of (cards (snd (gatherAll (env_desktop "granted")
                             (timing_of 10 100) page_at_load)))
  = map keys_of (cards (snd (gatherAll (env_desktop "granted")
                               (timing_of 300 5000) page_at_load))).
Proof.
  destruct (gatherAll_same_titles_and_keys (env_desktop "granted")
              (timing_of 10 100) (timing_of 300 5000)
              page_at_load page_at_load eq_refl) as (Hkeys & Hsame & _).
  split.
  - apply Hsame. right. reflexivity.
  - apply Hkeys. right. reflexivity.
Defined.

(** * Further properties of the script *)

(** ** The formatter *)



(** X2. What [mkKV] displays is stable: a displayed value passed to [mkKV]
    again is displayed as it is, and "unknown" stays "unknown". *)
Theorem mkKV_displayed_value_is_stable (k : string) (v : jsval) :
  mkKV k (VString (val (mkKV k v))) = mkKV k v.
Proof.
  unfold mkKV. simpl. f_equal.
  pose proof (display_nonempty v) as Hne.
  destruct (display v) as [ | c s]; [contradiction | reflexivity].
Qed.

(** ** Counting the media devices *)

Lemma kind_eqb_eq (a b : MediaDeviceKind) : kind_eqb a b = true <-> a = b.
Proof. destruct a, b; simpl; split; congruence. Qed.

Lemma count_kind_keys (k : MediaDeviceKind)
    (acc : list (MediaDeviceKind * N)) :
  map fst (count_kind k acc)
  = if existsb (kind_eqb k) (map fst acc) then map fst acc
    else (map fst acc ++ [k])%list.
Proof.
  induction acc as [ | [k' n] acc IH]; simpl; [reflexivity | ].
  destruct (kind_eqb k k'); simpl; [reflexivity | ].
  rewrite IH. destruct (existsb (kind_eqb k) (map fst acc)); reflexivity.
Qed.

Lemma count_kind_NoDup (k : MediaDeviceKind)
    (acc : list (MediaDeviceKind * N)) :
  NoDup (map fst acc) -> NoDup (map fst (count_kind k acc)).
Proof.
  intros Hnd. rewrite count_kind_keys.
  destruct (existsb (kind_eqb k) (map fst acc)) eqn:Hex; [exact Hnd | ].
  apply NoDup_app; [exact Hnd | repeat constructor; intros [] | ].
  intros x Hx [Hk | []]. subst x.
  assert (existsb (kind_eqb k) (map fst acc) = true) as Hc; [ | congruence].
  apply existsb_exists. exists k. split; [exact Hx | now apply kind_eqb_eq].
Qed.

Lemma count_kind_count_of (k k' : MediaDeviceKind)
    (acc : list (MediaDeviceKind * N)) :
  count_of k' (count_kind k acc)
  = (count_of k' acc + if kind_eqb k' k then 1 else 0)%N.
Proof.
  induction acc as [ | [k0 n] acc IH]; simpl.
  - destruct (kind_eqb k' k); reflexivity.
  - destruct (kind_eqb k k0) eqn:Hk; simpl.
    + apply kind_eqb_eq in Hk. subst k0.
      destruct (kind_eqb k' k); lia.
    + destruct (kind_eqb k' k0) eqn:Hk'; [ | exact IH].
      apply kind_eqb_eq in Hk'. subst k0.
      destruct (kind_eqb k' k) eqn:Hk2; [ | lia].
      apply kind_eqb_eq in Hk2. subst k'.
      destruct k; discriminate.
Qed.

Lemma count_kind_total (k : MediaDeviceKind)
    (acc : list (MediaDeviceKind * N)) :
  total (count_kind k acc) = (total acc + 1)%N.
Proof.
  unfold total. induction acc as [ | [k' n] acc IH]; simpl; [reflexivity | ].
  destruct (kind_eqb k k'); simpl; [lia | rewrite IH; lia].
Qed.

Lemma count_kind_positive (k : MediaDeviceKind)
    (acc : list (MediaDeviceKind * N)) :
  Forall (fun kn => (0 < snd kn)%N) acc ->
  Forall (fun kn => (0 < snd kn)%N) (count_kind k acc).
Proof.
  induction 1 as [ | [k' n] acc Hn Hacc IH]; simpl.
  - repeat constructor.
  - destruct (kind_eqb k k'); constructor; simpl in *; auto; lia.
Qed.

Lemma byType_from (devices : list MediaDeviceInfo)
    (acc : list (MediaDeviceKind * N)) :
  NoDup (map fst acc) ->
  Forall (fun kn => (0 < snd kn)%N) acc ->
  let out := fold_left (fun acc d => count_kind (kind d) acc) devices acc in
  NoDup (map fst out) /\
  Forall (fun kn => (0 < snd kn)%N) out /\
  total out = (total acc + N.of_nat (length devices))%N /\
  forall k,
    count_of k out
    = (count_of k acc
       + N.of_nat (length (filter (fun d => kind_eqb k (kind d)) devices)))%N.
Proof.
  revert acc. induction devices as [ | d devices IH]; intros acc Hnd Hpos.
  - simpl. repeat split; auto; intros; lia.
  - simpl fold_left.
    destruct (IH (count_kind (kind d) acc)
                (count_kind_NoDup _ _ Hnd) (count_kind_positive _ _ Hpos))
      as (H1 & H2 & H3 & H4).
    repeat split; auto.
    + cbv zeta in H3. rewrite H3, count_kind_total. simpl length. lia.
    + intros k. cbv zeta in H4. rewrite H4, count_kind_count_of. simpl.
      destruct (kind_eqb k (kind d)); simpl length; lia.
Qed.

(** X3. The counts object built from the enumerated devices has each kind
    at most once, holds for a kind the number of devices of that kind (and no
    key with count 0), and its counts add up to the number of devices. *)
Theorem byType_counts_devices (devices : list MediaDeviceInfo) :
  NoDup (map fst (byType devices)) /\
  Forall (fun kn => (0 < snd kn)%N) (byType devices) /\
  total (byType devices) = N.of_nat (length devices) /\
  forall k,
    count_of k (byType devices)
    = N.of_nat (length (filter (fun d => kind_eqb k (kind d)) devices)).
Proof.
  destruct (byType_from devices [] (NoDup_nil _) (Forall_nil _))
    as (H1 & H2 & H3 & H4).
  repeat split; auto.
Qed.

(** ** The permissions probe *)

Lemma for_of_cons {S A} (x : A) (l : list A) (body : A -> M S unit)
    (s : S) :
  for_of (x :: l) body s
  = match body x s with
    | (Return _, s') => for_of l body s'
    | (Throw, s') => (Throw, s')
    | (Pending, s') => (Pending, s')
    end.
Proof. reflexivity. Qed.

(** One turn of the loop: the query is made; when it settles, after its
    latency, one row is appended; the turn never throws. *)
Lemma query_one_run (tm : Timing) (q : string -> AsyncR jsval) (x : string)
    (s : Probe) :
  query_one tm q x s
  = match q x with
    | NeverSettles =>
        (Pending, {| el := el s; elapsed := elapsed s;
                     calls := calls s ++ [PermissionsQuery x] |})
    | _ =>
        (Return tt, {| el := el s ++ [query_row q x];
                       elapsed := elapsed s + t_query tm x;
                       calls := calls s ++ [PermissionsQuery x] |})
    end.
Proof. unfold query_one, query_row. destruct (q x); reflexivity. Qed.

Lemma query_loop_run (tm : Timing) (q : string -> AsyncR jsval)
    (l : list string) (s : Probe) :
  (forall name, In name l -> q name <> NeverSettles) ->
  for_of l (query_one tm q) s
  = (Return tt,
     {| el := el s ++ map (query_row q) l;
        elapsed := elapsed s + queries_time tm l;
        calls := calls s ++ map PermissionsQuery l |}).
Proof.
  revert s. induction l as [ | x l IH]; intros s Hq.
  - destruct s; simpl. rewrite N.add_0_r, !app_nil_r. reflexivity.
  - rewrite for_of_cons, query_one_run.
    assert (Hx : q x <> NeverSettles) by (apply Hq; now left).
    assert (Hl : forall name, In name l -> q name <> NeverSettles)
      by (intros name Hin; apply Hq; now right).
    destruct (q x) as [state | | ]; [ | | contradiction];
      rewrite (IH _ Hl); simpl;
      rewrite <- !app_assoc, N.add_assoc; reflexivity.
Qed.

Lemma query_loop_prefix (tm : Timing) (q : string -> AsyncR jsval)
    (l : list string) (s : Probe) :
  exists k,
    el (snd (for_of l (query_one tm q) s))
    = (el s ++ map (query_row q) (firstn k l))%list /\
    fst (for_of l (query_one tm q) s) <> Throw /\
    (elapsed (snd (for_of l (query_one tm q) s))
     <= elapsed s + queries_time tm l)%N /\
    (fst (for_of l (query_one tm q) s) = Return tt -> k = length l).
Proof.
  revert s. induction l as [ | x l IH]; intros s.
  - exists 0%nat. simpl. rewrite app_nil_r.
    repeat split; [discriminate | lia].
  - rewrite for_of_cons, query_one_run.
    destruct (q x) as [state | | ] eqn:Hx.
    + destruct (IH {| el := el s ++ [query_row q x];
                      elapsed := elapsed s + t_query tm x;
                      calls := calls s ++ [PermissionsQuery x] |})
        as (k & Hel & Hth & Ht & Hk).
      exists (Datatypes.S k). simpl in *.
      rewrite Hel, <- app_assoc. repeat split; auto; lia.
    + destruct (IH {| el := el s ++ [query_row q x];
                      elapsed := elapsed s + t_query tm x;
                      calls := calls s ++ [PermissionsQuery x] |})
        as (k & Hel & Hth & Ht & Hk).
      exists (Datatypes.S k). simpl in *.
      rewrite Hel, <- app_assoc. repeat split; auto; lia.
    + exists 0%nat. simpl. rewrite app_nil_r.
      repeat split; [discriminate | lia | discriminate].
Qed.

Lemma In_firstn {A} (x : A) (k : nat) (l : list A) :
  In x (firstn k l) -> In x l.
Proof.
  revert l. induction k as [ | k IH]; intros [ | y l]; simpl; try tauto.
  intros [-> | Hin]; [now left | right; now apply IH].
Qed.

Lemma query_row_keys (q : string -> AsyncR jsval) (l : list string) :
  map key (map (query_row q) l) = l.
Proof.
  induction l as [ | x l IH]; simpl; [reflexivity | now rewrite IH].
Qed.

Lemma query_loop_exact (tm : Timing) (q : string -> AsyncR jsval)
    (l : list string) (s : Probe) :
  for_of l (query_one tm q) s
  = (if all_answered q l then Return tt else Pending,
     {| el := el s ++ map (query_row q) (answered q l);
        elapsed := elapsed s + queries_time tm (answered q l);
        calls := calls s ++ map PermissionsQuery (asked q l) |}).
Proof.
  revert s. induction l as [ | x l IH]; intros s.
  - destruct s; simpl. rewrite N.add_0_r, !app_nil_r. reflexivity.
  - rewrite for_of_cons, query_one_run. unfold all_answered. simpl.
    destruct (q x) as [state | | ]; simpl.
    + rewrite IH. simpl. rewrite <- !app_assoc, N.add_assoc. reflexivity.
    + rewrite IH. simpl. rewrite <- !app_assoc, N.add_assoc. reflexivity.
    + rewrite N.add_0_r, app_nil_r. reflexivity.
Qed.

Lemma answered_prefix (q : string -> AsyncR jsval) (l : list string) :
  (forall name, In name (answered q l) -> q name <> NeverSettles) /\
  exists rest,
    l = (answered q l ++ rest)%list /\
    match rest with
    | [] => all_answered q l = true
    | x :: _ => q x = NeverSettles /\ all_answered q l = false
    end.
Proof.
  induction l as [ | x l [IHa [rest [IHl IHr]]]]; simpl.
  - split; [intros name [] | ]. exists []. auto.
  - unfold all_answered. simpl.
    destruct (q x) as [state | | ] eqn:Hx; simpl.
    + split.
      * intros name [<- | Hin]; [congruence | now apply IHa].
      * exists rest. split; [now rewrite <- IHl | exact IHr].
    + split.
      * intros name [<- | Hin]; [congruence | now apply IHa].
      * exists rest. split; [now rewrite <- IHl | exact IHr].
    + split; [intros name [] | ]. exists (x :: l). auto.
Qed.

(** X4. With [navigator.permissions.query] there, the permissions probe
    never throws.  Its rows are, in the order of the list of names, one row
    for each name before the first whose query is never answered: the state,
    or "unknown" for a rejected query.  It has asked for these names and for
    that first one, has taken the latencies of the answered queries added
    up, and returns its card exactly when every query is answered; else it
    waits for ever.  The row "permissions" / "error" is never there. *)
Theorem gatherPermissions_rows (env : Env) (tm : Timing)
    (q : string -> AsyncR jsval) :
  permissions_query env = Some q ->
  gatherPermissions env tm fresh
  = (if all_answered q names
     then Return {| title := "Permissions";
                    body := Rows (map (query_row q) (answered q names)) |}
     else Pending,
     {| el := map (query_row q) (answered q names);
        elapsed := queries_time tm (answered q names);
        calls := map PermissionsQuery (asked q names) |}) /\
  map key (rows_of (gatherPermissions env tm)) = answered q names /\
  (forall name, In name (answered q names) ->
                q name <> NeverSettles /\
                In (mkKV name match q name with
                              | Resolves state => state
                              | _ => VString "unknown"
                              end)
                   (rows_of (gatherPermissions env tm))) /\
  (exists rest,
     names = (answered q names ++ rest)%list /\
     match rest with
     | [] => all_answered q names = true
     | x :: _ => q x = NeverSettles /\ all_answered q names = false
     end) /\
  ~ In "permissions" (map key (rows_of (gatherPermissions env tm))).
Proof.
  intros Hq.
  assert (Hrun : gatherPermissions env tm fresh
    = (if all_answered q names
       then Return {| title := "Permissions";
                      body := Rows (map (query_row q) (answered q names)) |}
       else Pending,
       {| el := map (query_row q) (answered q names);
          elapsed := queries_time tm (answered q names);
          calls := map PermissionsQuery (asked q names) |})).
  { rewrite (gatherPermissions_run env tm q Hq), query_loop_exact.
    destruct (all_answered q names); reflexivity. }
  assert (Hrows : rows_of (gatherPermissions env tm)
                  = map (query_row q) (answered q names)).
  { unfold rows_of. rewrite Hrun. reflexivity. }
  destruct (answered_prefix q names) as [Hans Hrest].
  split; [exact Hrun | split; [ | split; [ | split; [exact Hrest | ]]]].
  - rewrite Hrows. apply query_row_keys.
  - intros name Hin. split; [now apply Hans | ].
    rewrite Hrows. now apply (in_map (query_row q)).
  - rewrite Hrows, query_row_keys. intros Hin.
    destruct Hrest as [rest [Hnames _]].
    assert (Hin' : In "permissions" names)
      by (rewrite Hnames; apply in_or_app; now left).
    simpl in Hin'.
    repeat (destruct Hin' as [Hin' | Hin']; [discriminate Hin' | ]).
    exact Hin'.
Qed.

(** On the sample desktop every query is answered, the one for "push" with a
    rejection. *)
Lemma gatherPermissions_rows_witness :
  map key (rows_of (gatherPermissions (env_desktop "denied")
                      (timing_of 10 100))) = names /\
  In {| key := "push"; val := "unknown" |}
     (rows_of (gatherPermissions (env_desktop "denied")
                 (timing_of 10 100))).
Proof.
  destruct (gatherPermissions_rows (env_desktop "denied") (timing_of 10 100)
              (fun name =>
                 if String.eqb name "geolocation"
                 then Resolves (VString "denied")
                 else if String.eqb name "push" then Rejects
                 else Resolves (VString "prompt")) eq_refl)
    as (_ & Hkeys & Hrows & _).
  split; [exact Hkeys | ].
  apply (Hrows "push"). simpl. auto 7.
Defined.

(** ** The geolocation probe, further *)

Lemma display_append (a b : string) (c : ascii) :
  display (VString (a ++ String c b)) = a ++ String c b.
Proof. destruct a; reflexivity. Qed.

(** X5. With the permission state "granted" or "prompt" and a position that
    arrives before the timer of 8000 ms, the geolocation card has the rows
    permission, coords ("latitude, longitude"), accuracy_m and altitude, an
    altitude of null or undefined being shown as "null"; the probe takes the
    latency of the query plus that of the position and has made the query,
    set the timer and requested the position once, in this order. *)
Theorem gatherGeo_position_rows (env : Env) (tm : Timing)
    (coords : Coordinates) (permState : jsval) :
  geolocation env = Some (CallsSuccess coords) ->
  geo_permState env = Some permState ->
  granted_or_prompt permState = true ->
  fix_in_time tm = true ->
  gatherGeo env tm fresh
  = (Return
       {| title := "Geolocation";
          body := Rows
            [ mkKV "permission" permState;
              {| key := "coords";
                 val := ToString (latitude coords) ++ ", "
                          ++ ToString (longitude coords) |};
              mkKV "accuracy_m" (accuracy coords);
              mkKV "altitude" (altitude coords ?? "null") ] |},
     {| el := [ mkKV "permission" permState;
                {| key := "coords";
                   val := ToString (latitude coords) ++ ", "
                            ++ ToString (longitude coords) |};
                mkKV "accuracy_m" (accuracy coords);
                mkKV "altitude" (altitude coords ?? "null") ];
        elapsed := t_geolocation_query tm + t_getCurrentPosition tm;
        calls := [ PermissionsQuery "geolocation"; SetTimeout 8000;
                   GetCurrentPosition ] |}) /\
  (is_nullish (altitude coords) = true ->
   mkKV "altitude" (altitude coords ?? "null")
   = {| key := "altitude"; val := "null" |}).
Proof.
  intros Hgeo Hv Hgp Hfix. split.
  - unfold gatherGeo. rewrite Hgeo.
    unfold geo_permState in Hv. unfold granted_or_prompt in Hgp.
    unfold fix_in_time in Hfix.
    destruct (permissions_query env) as [q | ].
    + destruct (q "geolocation") as [state | | ]; inversion Hv; subst.
      * run_probe. rewrite Hgp. unfold position_promise. run_probe.
        rewrite Hfix. run_probe. unfold mkKV at 2 6.
        rewrite !display_append. reflexivity.
      * discriminate.
    + inversion Hv; subst. discriminate.
  - destruct (altitude coords); simpl; intros; try discriminate; reflexivity.
Qed.

Lemma gatherGeo_position_rows_witness :
  rows_of (gatherGeo (env_desktop "granted") (timing_of 10 100))
  = [ {| key := "permission"; val := "granted" |};
      {| key := "coords"; val := "52, 13" |};
      {| key := "accuracy_m"; val := "25" |};
      {| key := "altitude"; val := "null" |} ] /\
  elapsed (snd (gatherGeo (env_desktop "granted") (timing_of 10 100) fresh))
  = 110%N.
Proof.
  unfold rows_of.
  rewrite (proj1 (gatherGeo_position_rows (env_desktop "granted")
                    (timing_of 10 100) desktop_coords (VString "granted")
                    eq_refl eq_refl eq_refl eq_refl)).
  split; reflexivity.
Defined.

(** X6. With the permission state "granted" or "prompt" and no position in
    time, the coords row shows "unknown or blocked" and the probe returns as
    soon as the wait is over: at once when [getCurrentPosition] throws,
    when the error callback is called if that is before 8000 ms, and after
    8000 ms otherwise. *)
Theorem gatherGeo_gives_up (env : Env) (tm : Timing) (geo : Geolocation)
    (permState : jsval) :
  geolocation env = Some geo ->
  geo_permState env = Some permState ->
  granted_or_prompt permState = true ->
  (forall coords, geo = CallsSuccess coords -> fix_in_time tm = false) ->
  exists s,
    gatherGeo env tm fresh
    = (Return {| title := "Geolocation";
                 body := Rows [ mkKV "permission" permState;
                                {| key := "coords";
                                   val := "unknown or blocked" |} ] |}, s) /\
    elapsed s = (t_geolocation_query tm + position_wait tm geo)%N /\
    calls s = [ PermissionsQuery "geolocation"; SetTimeout 8000;
                GetCurrentPosition ].
Proof.
  intros Hgeo Hv Hgp Hlate. unfold gatherGeo. rewrite Hgeo.
  unfold geo_permState in Hv. unfold granted_or_prompt in Hgp.
  unfold fix_in_time in Hlate.
  destruct (permissions_query env) as [q | ].
  - destruct (q "geolocation") as [state | | ]; inversion Hv; subst;
      [ | discriminate].
    run_probe. rewrite Hgp. unfold position_promise. run_probe.
    destruct geo as [coords | | | ]; run_probe.
    + rewrite (Hlate coords eq_refl). run_probe.
      eexists. repeat split. simpl.
      specialize (Hlate coords eq_refl). apply N.ltb_ge in Hlate. lia.
    + eexists. repeat split.
    + eexists. repeat split.
    + eexists. repeat split. simpl. lia.
  - inversion Hv; subst. discriminate.
Qed.

Lemma gatherGeo_gives_up_witness :
  exists s,
    gatherGeo (env_desktop "prompt") (timing_of 10 9000) fresh
    = (Return {| title := "Geolocation";
                 body := Rows [ mkKV "permission" (VString "prompt");
                                {| key := "coords";
                                   val := "unknown or blocked" |} ] |}, s) /\
    elapsed s
    = (t_geolocation_query (timing_of 10 9000)
       + position_wait (timing_of 10 9000) (CallsSuccess desktop_coords))%N /\
    calls s = [ PermissionsQuery "geolocation"; SetTimeout 8000;
                GetCurrentPosition ].
Proof.
  apply (gatherGeo_gives_up (env_desktop "prompt") (timing_of 10 9000)
           (CallsSuccess desktop_coords) (VString "prompt"));
    try reflexivity.
Defined.

(** X7. The position is requested at most once, and never without a query
    of the permission answered before it: the calls of the geolocation probe
    are none, the query alone, or the query, the timer and the request.  In
    a browser without [navigator.permissions.query] the probe makes no call
    at all and the coords row always shows "unknown (permission denied or
    prompt)", whatever the user would allow. *)
Theorem gatherGeo_calls (env : Env) (tm : Timing) :
  (calls (snd (gatherGeo env tm fresh)) = [] \/
   calls (snd (gatherGeo env tm fresh)) = [PermissionsQuery "geolocation"] \/
   calls (snd (gatherGeo env tm fresh))
   = [PermissionsQuery "geolocation"; SetTimeout 8000; GetCurrentPosition]) /\
  (permissions_query env = None ->
   forall geo, geolocation env = Some geo ->
     gatherGeo env tm fresh
     = (Return
          {| title := "Geolocation";
             body := Rows
               [ {| key := "permission"; val := "unknown" |};
                 {| key := "coords";
                    val := "unknown (permission denied or prompt)" |} ] |},
        {| el := [ {| key := "permission"; val := "unknown" |};
                   {| key := "coords";
                      val := "unknown (permission denied or prompt)" |} ];
           elapsed := 0;
           calls := [] |})).
Proof.
  split.
  - unfold gatherGeo.
    destruct (geolocation env) as [geo | ]; [ | left; reflexivity].
    destruct (permissions_query env) as [q | ].
    + destruct (q "geolocation") as [state | | ]; run_probe; auto.
      destruct (strict_eq_string state "granted"
                || strict_eq_string state "prompt"); [ | simpl; auto].
      unfold position_promise. run_probe.
      destruct geo; run_probe; auto.
      destruct (t_getCurrentPosition tm <? 8000)%N; simpl; auto.
    + run_probe. auto.
  - intros Hq geo Hgeo. unfold gatherGeo. rewrite Hgeo, Hq. reflexivity.
Qed.

(** ** The display probe *)

(** X8. With a [screen], the display probe returns the rows screenWxH,
    availWxH, colorDepth, pixelRatio and viewportWxH, and orientation when
    [screen.orientation] is there.  A width and height that are falsy (0,
    NaN, undefined) are shown as "unknown x unknown", while a colour depth
    of 0 is shown as "0"; undefined viewport sizes are shown as "undefined x
    undefined"; an orientation without type and with angle 0 or none is
    shown as "unknown @ 0°". *)
Theorem gatherScreen_rows (env : Env) (sc : Screen) :
  screen env = Some sc ->
  map key (rows_of (gatherScreen env))
  = (["screenWxH"; "availWxH"; "colorDepth"; "pixelRatio"; "viewportWxH"]
     ++ match orientation sc with
        | Some _ => ["orientation"]
        | None => []
        end)%list /\
  (ToBoolean (width sc) = false -> ToBoolean (height sc) = false ->
   In {| key := "screenWxH"; val := "unknown x unknown" |}
      (rows_of (gatherScreen env))) /\
  (colorDepth sc = VNumber (Int 0) ->
   In {| key := "colorDepth"; val := "0" |} (rows_of (gatherScreen env))) /\
  (innerWidth env = VUndefined -> innerHeight env = VUndefined ->
   In {| key := "viewportWxH"; val := "undefined x undefined" |}
      (rows_of (gatherScreen env))) /\
  (forall o, orientation sc = Some o ->
             ToBoolean (type o) = false -> ToBoolean (angle o) = false ->
             In {| key := "orientation"; val := "unknown @ 0°" |}
                (rows_of (gatherScreen env))).
Proof.
  intros Hsc. unfold rows_of, gatherScreen, s_. rewrite Hsc.
  split; [ | split; [ | split; [ | split]]].
  - destruct (orientation sc); reflexivity.
  - intros Hw Hh. unfold js_or. rewrite Hw, Hh.
    destruct (orientation sc); simpl; auto.
  - intros Hc. rewrite Hc. destruct (orientation sc); simpl; auto.
  - intros Hw Hh. rewrite Hw, Hh. destruct (orientation sc); simpl; auto 6.
  - intros o Ho Ht Ha. rewrite Ho. unfold js_or. rewrite Ht, Ha.
    simpl. auto 7.
Qed.

Lemma gatherScreen_rows_witness :
  map key (rows_of (gatherScreen (env_desktop "denied")))
  = ["screenWxH"; "availWxH"; "colorDepth"; "pixelRatio"; "viewportWxH";
     "orientation"].
Proof.
  apply (gatherScreen_rows (env_desktop "denied") desktop_screen eq_refl).
Defined.

(** ** The hardware probe *)

(** X9. The hardware probe returns hardwareConcurrency, deviceMemory and
    maxTouchPoints followed by either the one row webgl or the two rows
    webglVendor and webglRenderer, never one of the two alone.  With the
    debug extension the unmasked vendor and renderer are shown; the
    experimental context is used when [getContext('webgl')] returns null;
    and when the renderer cannot be read the vendor is not shown either. *)
Theorem gatherHardware_rows (env : Env) :
  (map key (rows_of (gatherHardware env))
   = ["hardwareConcurrency"; "deviceMemory"; "maxTouchPoints"; "webgl"] \/
   map key (rows_of (gatherHardware env))
   = ["hardwareConcurrency"; "deviceMemory"; "maxTouchPoints";
      "webglVendor"; "webglRenderer"]) /\
  (forall gl v r,
     getContext_webgl (canvas env) = Ok (Some gl) ->
     WEBGL_debug_renderer_info gl = Ok true ->
     UNMASKED_VENDOR_WEBGL gl = Ok v ->
     UNMASKED_RENDERER_WEBGL gl = Ok r ->
     rows_of (gatherHardware env)
     = [ mkKV "hardwareConcurrency" (hardwareConcurrency env ?? "unknown");
         mkKV "deviceMemory" (deviceMemory env ?? "unknown");
         mkKV "maxTouchPoints" (maxTouchPoints env ?? "unknown");
         mkKV "webglVendor" v; mkKV "webglRenderer" r ]) /\
  (forall gl v r,
     getContext_webgl (canvas env) = Ok None ->
     getContext_experimental_webgl (canvas env) = Ok (Some gl) ->
     WEBGL_debug_renderer_info gl = Ok false ->
     VENDOR gl = Ok v ->
     RENDERER gl = Ok r ->
     rows_of (gatherHardware env)
     = [ mkKV "hardwareConcurrency" (hardwareConcurrency env ?? "unknown");
         mkKV "deviceMemory" (deviceMemory env ?? "unknown");
         mkKV "maxTouchPoints" (maxTouchPoints env ?? "unknown");
         mkKV "webglVendor" v; mkKV "webglRenderer" r ]) /\
  (forall gl,
     getContext_webgl (canvas env) = Ok (Some gl) ->
     WEBGL_debug_renderer_info gl = Ok false ->
     RENDERER gl = Throws ->
     map key (rows_of (gatherHardware env))
     = ["hardwareConcurrency"; "deviceMemory"; "maxTouchPoints"; "webgl"] /\
     In {| key := "webgl"; val := "unknown" |} (rows_of (gatherHardware env))).
Proof.
  split; [ | split; [ | split]].
  - unfold rows_of, gatherHardware, eval. run_probe.
    repeat (break_match; run_probe); auto.
  - intros gl v r H1 H2 H3 H4. unfold rows_of, gatherHardware.
    rewrite H1. run_probe. rewrite H2. simpl. rewrite H3. simpl.
    rewrite H4. reflexivity.
  - intros gl v r H1 H2 H3 H4 H5. unfold rows_of, gatherHardware.
    rewrite H1. run_probe. rewrite H2. simpl. rewrite H3. simpl.
    rewrite H4. simpl. rewrite H5. reflexivity.
  - intros gl H1 H2 H3. unfold rows_of, gatherHardware.
    rewrite H1. run_probe. rewrite H2. simpl. rewrite H3.
    destruct (VENDOR gl); simpl; auto 6.
Qed.

(** ** The network probe *)

(** X10. The network card starts with the online row and ends with the
    publicIP row, "unknown (use server or STUN)", in every environment.
    Between them are the four rows of the connection object, which is
    [navigator.connection] when it is there, else [mozConnection], else
    [webkitConnection], or the one row networkAPI / unsupported when none
    of the three is. *)
Theorem gatherNetwork_rows (env : Env) :
  (exists middle,
     rows_of (gatherNetwork env)
     = (mkKV "online" (onLine env) :: middle
        ++ [ {| key := "publicIP";
                val := "unknown (use server or STUN)" |} ])%list /\
     match connection env, mozConnection env, webkitConnection env with
     | Some c, _, _ | None, Some c, _ | None, None, Some c =>
         middle = [ mkKV "effectiveType" (effectiveType c ?? "unknown");
                    mkKV "downlink" (downlink c ?? "unknown");
                    mkKV "rtt" (rtt c ?? "unknown");
                    mkKV "saveData" (saveData c ?? "unknown") ]
     | None, None, None =>
         middle = [ {| key := "networkAPI"; val := "unsupported" |} ]
     end) /\
  gatherNetwork env fresh
  = (Return (mkCard "Network" (CElement (rows_of (gatherNetwork env)))),
     {| el := rows_of (gatherNetwork env); elapsed := 0; calls := [] |}).
Proof.
  unfold rows_of, gatherNetwork, navConn. split.
  - destruct (connection env) as [c | ];
      [ | destruct (mozConnection env) as [c | ];
          [ | destruct (webkitConnection env) as [c | ]]];
      eexists; split; reflexivity.
  - destruct (connection env) as [c | ];
      [ | destruct (mozConnection env) as [c | ];
          [ | destruct (webkitConnection env) as [c | ]]];
      reflexivity.
Qed.

(** ** The media probe, further *)

Lemma existsb_false_Forall {A} (f : A -> bool) (l : list A) :
  existsb f l = false <-> Forall (fun x => f x = false) l.
Proof.
  induction l as [ | x l IH]; simpl.
  - split; [constructor | reflexivity].
  - rewrite orb_false_iff, IH. split.
    + intros [Hx Hl]. now constructor.
    + intros H. inversion H; subst. auto.
Qed.

(** X11. When the devices are enumerated the media card has the rows count
    (the number of devices), kinds (the counts object as JSON) and
    deviceLabelsAvailable, which is "false" exactly when every device has an
    empty label; an empty list gives "0", "{}" and "false".  The probe takes
    the latency of the enumeration. *)
Theorem gatherMediaDevices_rows (env : Env) (tm : Timing)
    (devices : list MediaDeviceInfo) :
  mediaDevices_enumerateDevices env = Some (Resolves devices) ->
  (exists labels,
     gatherMediaDevices env tm fresh
     = (Return
          {| title := "Media & Devices";
             body := Rows
               [ mkKV "count" (VNumber (Int (Z.of_nat (length devices))));
                 mkKV "kinds" (JSON_stringify (byType devices));
                 {| key := "deviceLabelsAvailable"; val := labels |} ] |},
        {| el := [ mkKV "count" (VNumber (Int (Z.of_nat (length devices))));
                   mkKV "kinds" (JSON_stringify (byType devices));
                   {| key := "deviceLabelsAvailable"; val := labels |} ];
           elapsed := t_enumerateDevices tm;
           calls := [EnumerateDevices] |}) /\
     (labels = "false" \/ labels = "true") /\
     (labels = "false" <->
      Forall (fun d => label d = EmptyString) devices)) /\
  (devices = [] ->
   rows_of (gatherMediaDevices env tm)
   = [ {| key := "count"; val := "0" |};
       {| key := "kinds"; val := "{}" |};
       {| key := "deviceLabelsAvailable"; val := "false" |} ]).
Proof.
  intros Hm. split.
  - exists (if existsb (fun d => negb (is_empty (label d))) devices
            then "true" else "false").
    split; [ | split].
    + unfold gatherMediaDevices. rewrite Hm. run_probe.
      destruct (existsb _ devices); reflexivity.
    + destruct (existsb _ devices); auto.
    + destruct (existsb (fun d => negb (is_empty (label d))) devices)
        eqn:Hex.
      * split; [discriminate | ].
        intros Hall.
        assert (existsb (fun d => negb (is_empty (label d))) devices = false)
          as Hno; [ | congruence].
        apply existsb_false_Forall.
        eapply Forall_impl; [ | exact Hall].
        intros d Hd. simpl in Hd. now rewrite Hd.
      * split; [ | reflexivity]. intros _.
        apply existsb_false_Forall in Hex.
        eapply Forall_impl; [ | exact Hex].
        intros d Hd. simpl in Hd. destruct (label d); [reflexivity | ].
        discriminate.
  - intros ->. unfold rows_of, gatherMediaDevices. rewrite Hm. reflexivity.
Qed.

Lemma gatherMediaDevices_rows_witness :
  map val (rows_of (gatherMediaDevices (env_desktop "denied")
                      (timing_of 10 100)))
  = ["3"; "{" ++ dquote ++ "audioinput" ++ dquote ++ ":2,"
              ++ dquote ++ "videoinput" ++ dquote ++ ":1}"; "false"].
Proof.
  destruct (proj1 (gatherMediaDevices_rows (env_desktop "denied")
                     (timing_of 10 100)
                     [ {| kind := audioinput; label := EmptyString |};
                       {| kind := videoinput; label := EmptyString |};
                       {| kind := audioinput; label := EmptyString |} ]
                     eq_refl))
    as [labels [Hrun [_ Hlabels]]].
  unfold rows_of. rewrite Hrun. simpl.
  rewrite (proj2 Hlabels); [reflexivity | ].
  repeat constructor.
Defined.

(** ** The performance probe *)

(** X12. With [performance] there the card always starts with the
    timeOrigin row, also when a later call throws: the rows appended before
    the failure stay and the row performance / unknown is added after them,
    exactly when [getEntriesByType] or [now] throws.  The navigation entry,
    when there is one, is what the domContentLoaded row shows, whether or
    not [performance.timing] exists. *)
Theorem gatherPerformance_rows (env : Env) (tm : Timing) (perf : Performance) :
  performance env = Some perf ->
  (exists rest,
     rows_of (gatherPerformance env tm)
     = mkKV "timeOrigin"
         (timeOrigin perf
            ||' match timing perf with
                | Some t => navigationStart t
                | None => VUndefined
                end
            ||' "unknown") :: rest) /\
  (In {| key := "performance"; val := "unknown" |}
      (rows_of (gatherPerformance env tm)) <->
   getEntriesByType_navigation_0 perf = Throws \/ now perf = Throws) /\
  (getEntriesByType_navigation_0 perf = Throws ->
   map key (rows_of (gatherPerformance env tm))
   = ["timeOrigin"; "performance"]) /\
  (forall nav,
     getEntriesByType_navigation_0 perf = Ok (Some nav) ->
     In (mkKV "domContentLoaded" (domContentLoadedEventEnd nav))
        (rows_of (gatherPerformance env tm))) /\
  fst (gatherPerformance env tm fresh)
  = Return (mkCard "Performance"
              (CElement (rows_of (gatherPerformance env tm)))).
Proof.
  intros Hp. unfold rows_of, gatherPerformance, eval. rewrite Hp. run_probe.
  split; [ | split; [ | split; [ | split]]].
  - destruct (getEntriesByType_navigation_0 perf) as [[nav | ] | ];
      destruct (timing perf) as [t | ];
      destruct (now perf) as [[] | ]; simpl; eexists; reflexivity.
  - destruct (getEntriesByType_navigation_0 perf) as [[nav | ] | ];
      destruct (timing perf) as [t | ];
      destruct (now perf) as [[] | ]; simpl; split; intros H;
      try (right; reflexivity); try (left; reflexivity); auto 8;
      exfalso;
      repeat match goal with
             | H : _ \/ _ |- _ => destruct H as [H | H]
             | H : {| key := _; val := _ |} = _ |- _ => discriminate H
             | H : mkKV _ _ = _ |- _ => discriminate H
             | H : _ = _ |- _ => discriminate H
             | H : False |- _ => contradiction
             end.
  - intros ->. destruct (timing perf); reflexivity.
  - intros nav ->.
    destruct (timing perf) as [t | ]; destruct (now perf) as [[] | ];
      simpl; auto.
  - destruct (getEntriesByType_navigation_0 perf) as [[nav | ] | ];
      destruct (timing perf) as [t | ];
      destruct (now perf) as [[] | ]; reflexivity.
Qed.

Lemma gatherPerformance_rows_witness :
  In (mkKV "domContentLoaded" (VNumber (Int 120)))
     (rows_of (gatherPerformance (env_desktop "denied") (timing_of 10 100))).
Proof.
  destruct (gatherPerformance_rows (env_desktop "denied") (timing_of 10 100)
              _ eq_refl) as (_ & _ & _ & Hnav & _).
  apply (Hnav {| domContentLoadedEventEnd := VNumber (Int 120);
                 loadEventEnd := VNumber (Int 0) |}).
  reflexivity.
Defined.

(** ** The canvas and audio probe *)

Lemma length_append (a b : string) :
  String.length (a ++ b) = (String.length a + String.length b)%nat.
Proof. induction a as [ | c a IH]; simpl; [reflexivity | now rewrite IH]. Qed.

Lemma length_substring_0 (n : nat) (s : string) :
  (String.length (substring 0 n s) <= n)%nat.
Proof.
  revert s. induction n as [ | n IH]; intros [ | c s]; simpl; try lia.
  specialize (IH s). lia.
Qed.

Lemma substring_0_short (n : nat) (s : string) :
  (String.length s <= n)%nat -> substring 0 n s = s.
Proof.
  revert s. induction n as [ | n IH]; intros [ | c s]; simpl; try reflexivity.
  - lia.
  - intros Hl. rewrite IH; [reflexivity | lia].
Qed.

(** X13. The canvas and audio probe returns exactly the two rows canvasProbe
    and audioContext in every environment, a failure of the canvas part not
    keeping the audio part from running.  A data URL is shown cut to its
    first 80 characters followed by "...", so in at most 83 characters, and
    whole when it has at most 80.  The audio row shows "available",
    "limited", "unsupported" or "error", and the timer of 60 ms that stops
    the oscillator is set exactly when it shows "available". *)
Theorem gatherCanvasAudio_rows (env : Env) :
  map key (rows_of (gatherCanvasAudioFingerprintingProbe env))
  = ["canvasProbe"; "audioContext"] /\
  (exists v, fst (gatherCanvasAudioFingerprintingProbe env fresh)
             = Return {| title := "Canvas / Audio Probes"; body := Rows v |}) /\
  (forall data,
     getContext_2d (canvas env) = Ok true ->
     draw_2d (canvas env) = Ok tt ->
     toDataURL (canvas env) = Ok data ->
     In {| key := "canvasProbe"; val := substring 0 80 data ++ "..." |}
        (rows_of (gatherCanvasAudioFingerprintingProbe env)) /\
     (String.length (substring 0 80 data ++ "...") <= 83)%nat /\
     ((String.length data <= 80)%nat ->
      substring 0 80 data ++ "..." = data ++ "...")) /\
  (exists v,
     In {| key := "audioContext"; val := v |}
        (rows_of (gatherCanvasAudioFingerprintingProbe env)) /\
     (v = "available" \/ v = "limited" \/ v = "unsupported" \/ v = "error") /\
     (v = "available" <->
      In (SetTimeout 60)
         (calls (snd (gatherCanvasAudioFingerprintingProbe env fresh))))).
Proof.
  split; [ | split; [ | split]].
  - unfold rows_of, gatherCanvasAudioFingerprintingProbe, eval. run_probe.
    repeat (break_match; run_probe); reflexivity.
  - unfold rows_of, gatherCanvasAudioFingerprintingProbe, eval. run_probe.
    repeat (break_match; run_probe); eexists; reflexivity.
  - intros data H1 H2 H3. split; [ | split].
    + unfold rows_of, gatherCanvasAudioFingerprintingProbe, eval.
      rewrite H1, H2, H3. run_probe.
      repeat (break_match; run_probe);
        left; unfold mkKV; now rewrite display_append.
    + rewrite length_append. pose proof (length_substring_0 80 data).
      simpl. lia.
    + intros Hl. now rewrite substring_0_short.
  - unfold rows_of, gatherCanvasAudioFingerprintingProbe, eval. run_probe.
    repeat (break_match; run_probe);
      eexists; (split; [right; left; reflexivity | ]);
      (split; [auto | ]);
      (split; [intros H; try discriminate H; simpl; auto
              | intros H; simpl in H;
                repeat (destruct H as [H | H]; try discriminate H);
                try contradiction; reflexivity]).
Qed.

(** ** The Web APIs probe *)

Lemma display_bool (k : string) (b : bool) :
  val (mkKV k (VBool b)) = "true" \/ val (mkKV k (VBool b)) = "false".
Proof. destruct b; simpl; auto. Qed.

(** X14. The Web APIs probe reads the eleven capabilities before it
    appends any row, and only the read of [localStorage] is guarded.  When
    no other read throws it returns the same eleven rows, each showing
    "true" or "false", a throwing [localStorage] being shown as "false",
    without taking time or making an asynchronous call.  When one of the
    other reads throws, the probe throws with no row appended, and the
    orchestrator shows the error card in its place.  With the reads as
    [Env] has them, none of which throws outside the [try], this is
    [gatherWebAPIs]. *)
Theorem gatherWebAPIs_reading_rows (r : FeatureReads) :
  (unguarded_read_throws r = false ->
   exists rows,
     gatherWebAPIs_reading r fresh
     = (Return {| title := "Web APIs"; body := Rows rows |},
        {| el := rows; elapsed := 0; calls := [] |}) /\
     map key rows
     = ["ServiceWorker"; "localStorage"; "IndexedDB"; "FileSystem Access";
        "Clipboard (write)"; "Clipboard (read)"; "WebBluetooth"; "WebUSB";
        "WebSerial"; "WebHID"; "Gamepad"] /\
     Forall (fun row => val row = "true" \/ val row = "false") rows /\
     (read_localStorage r = Throws ->
      In {| key := "localStorage"; val := "false" |} rows)) /\
  (unguarded_read_throws r = true ->
   gatherWebAPIs_reading r fresh = (Throw, fresh) /\
   forall pg,
     fst (try_catch (card <- await_probe (gatherWebAPIs_reading r);;
                     append_card card)
                    (append_card (mkCard "error" (CString "unknown"))) pg)
     = Return tt /\
     cards (snd (try_catch (card <- await_probe (gatherWebAPIs_reading r);;
                            append_card card)
                           (append_card (mkCard "error" (CString "unknown")))
                           pg))
     = (cards pg ++ [error_card])%list) /\
  (forall env s,
     unguarded_read_throws (reads_of env) = false /\
     gatherWebAPIs_reading (reads_of env) s = gatherWebAPIs env s).
Proof.
  split; [ | split].
  - intros Hok.
    destruct r as [[sw | ] ls [idb | ] [fsa | ] [cb | ] [bt | ] [us | ]
                   [se | ] [hi | ] [gp | ]];
      try discriminate Hok.
    destruct ls as [ls | ]; eexists;
      (split; [vm_compute; reflexivity | split; [reflexivity | split]]);
      try (repeat (apply Forall_cons; [simpl; repeat break_match; auto | ]);
           apply Forall_nil);
      try discriminate; intros _; simpl; auto.
  - intros Hthrow.
    assert (Hrun : gatherWebAPIs_reading r fresh = (Throw, fresh)).
    { destruct r as [[sw | ] [ls | ] [idb | ] [fsa | ] [cb | ] [bt | ]
                     [us | ] [se | ] [hi | ] [gp | ]];
        try discriminate Hthrow; vm_compute; reflexivity. }
    split; [exact Hrun | ].
    intros pg. unfold try_catch, bind, await_probe. rewrite Hrun.
    split; reflexivity.
  - intros env s. split; [reflexivity | ].
    unfold gatherWebAPIs_reading, features_reading, gatherWebAPIs, features,
      reads_of. simpl.
    destruct (localStorage env); reflexivity.
Qed.

(** ** The browser and locale probe *)

(** X15. The browser card has the same eight rows in every environment; the
    probe takes no time and makes no asynchronous call.  The languages are
    joined with ", "; an absent or empty list, or one that joins to the
    empty string, is shown as "unknown".  A failure of [JSON.stringify] on
    the user agent data is shown as "unknown". *)
Theorem gatherBasic_rows (env : Env) :
  map key (rows_of (gatherBasic env))
  = ["userAgent"; "userAgentData"; "platform"; "language"; "languages";
     "cookieEnabled"; "doNotTrack"; "vendor"] /\
  gatherBasic env fresh
  = (Return (mkCard "Browser & Locale"
               (CElement (rows_of (gatherBasic env)))),
     {| el := rows_of (gatherBasic env); elapsed := 0; calls := [] |}) /\
  (forall l, languages env = Some l ->
             In {| key := "languages";
                   val := if is_empty (String.concat ", " l) then "unknown"
                          else String.concat ", " l |}
                (rows_of (gatherBasic env))) /\
  (languages env = None \/ languages env = Some [] ->
   In {| key := "languages"; val := "unknown" |} (rows_of (gatherBasic env))) /\
  (forall uad, userAgentData env = Some uad -> uad_json uad = Throws ->
               In {| key := "userAgentData"; val := "unknown" |}
                  (rows_of (gatherBasic env))).
Proof.
  unfold rows_of, gatherBasic.
  split; [reflexivity | split; [reflexivity | split; [ | split]]].
  - intros l ->. unfold js_or. simpl.
    destruct (String.concat ", " l); simpl; auto 7.
  - intros [-> | ->]; simpl; auto 7.
  - intros uad -> ->. simpl. auto.
Qed.

(** ** How long a run takes *)

Ltac sync_probe :=
  unfold eval; run_probe; repeat (break_match; run_probe); simpl; lia.

Lemma probes_elapsed (env : Env) (tm : Timing) :
  Forall2 (fun p b => (elapsed (snd (p fresh)) <= b)%N)
          (probes env tm) (probe_bounds tm).
Proof.
  unfold probes, probe_bounds.
  repeat apply Forall2_cons; try apply Forall2_nil.
  - unfold gatherBasic. simpl. lia.
  - unfold gatherScreen, s_. sync_probe.
  - unfold gatherHardware. sync_probe.
  - unfold gatherBattery. destruct (getBattery env) as [[b | | ] | ];
      simpl; lia.
  - unfold gatherNetwork, navConn. sync_probe.
  - unfold gatherGeo.
    destruct (geolocation env) as [geo | ]; [ | simpl; lia].
    destruct (permissions_query env) as [q | ]; [ | simpl; lia].
    destruct (q "geolocation") as [state | | ]; run_probe; try lia.
    destruct (strict_eq_string state "granted"
              || strict_eq_string state "prompt"); [ | simpl; lia].
    unfold position_promise. run_probe.
    destruct geo; run_probe; try lia.
    destruct (t_getCurrentPosition tm <? 8000)%N eqn:Hlt; simpl; try lia.
    apply N.ltb_lt in Hlt. lia.
  - unfold gatherMediaDevices.
    destruct (mediaDevices_enumerateDevices env) as [[devices | | ] | ];
      simpl; lia.
  - destruct (permissions_query env) as [q | ] eqn:Hq.
    + rewrite (gatherPermissions_run env tm q Hq).
      destruct (query_loop_prefix tm q names fresh) as (k & _ & Hth & Ht & _).
      destruct (for_of names (query_one tm q) fresh) as [[[] | | ] s];
        simpl in *; first [lia | now contradiction Hth].
    + unfold gatherPermissions. rewrite Hq. simpl. lia.
  - unfold gatherPerformance. sync_probe.
  - unfold gatherSensors. sync_probe.
  - unfold gatherCanvasAudioFingerprintingProbe. sync_probe.
  - unfold gatherWebAPIs, features. simpl. lia.
Qed.

Lemma duration_bound (ps : list (M Probe Card)) (bs : list N) :
  Forall2 (fun p b => (elapsed (snd (p fresh)) <= b)%N) ps bs ->
  (duration ps <= fold_right N.add 0 bs)%N.
Proof.
  induction 1 as [ | p b ps bs Hp _ IH]; simpl; [lia | ].
  destruct (fst (p fresh)); lia.
Qed.

(** The loader after the load handler has run. *)
Lemma on_DOMContentLoaded_loader (env : Env) (tm : Timing) (pg : Page) :
  on_DOMContentLoaded env tm pg = initFlow env tm pg /\
  fst (on_DOMContentLoaded env tm pg) = fst (gatherAll env tm pg) /\
  loader_hidden_at (snd (on_DOMContentLoaded env tm pg))
  = match fst (gatherAll env tm pg) with
    | Return _ =>
        if loader env
        then Some (N.max (clock (snd (gatherAll env tm pg)))
                         (clock pg + 7000))
        else loader_hidden_at pg
    | _ => loader_hidden_at pg
    end /\
  scrolled_to_top (snd (on_DOMContentLoaded env tm pg))
  = match fst (gatherAll env tm pg) with
    | Return _ => true
    | _ => scrolled_to_top pg
    end.
Proof.
  unfold on_DOMContentLoaded, try_catch, initFlow, bind,
    await_all_with_minWait, hide_loader, scrollTo_top.
  rewrite gatherAll_after_setTimeout.
  pose proof (gatherAll_never_throws env tm pg) as Hnt.
  destruct (fst (gatherAll env tm pg)) as [[] | | ].
  - destruct (loader env); repeat split; reflexivity.
  - contradiction.
  - repeat split; reflexivity.
Qed.

(** X16. A run of the orchestrator that returns has taken no longer than
    the latencies of the battery status, the geolocation query, the
    enumeration and the nine permission queries added up, plus the 8000 ms
    of the position timer; and it does return whenever every awaited promise
    settles (a run that waits on a promise that is never settled does not
    return, and nothing bounds it).  On load, with a loader and promises
    that settle, the loader is hidden, between 7000 ms after the start and
    the larger of 7000 ms and this bound. *)
Theorem gatherAll_time_bound (env : Env) (tm : Timing) (pg : Page) :
  (fst (gatherAll env tm pg) = Return tt ->
   (clock (snd (gatherAll env tm pg)) <= clock pg + run_bound tm)%N) /\
  (always_settles env ->
   fst (gatherAll env tm pg) = Return tt /\
   (clock (snd (gatherAll env tm pg)) <= clock pg + run_bound tm)%N) /\
  (always_settles env -> loader env = true ->
   exists T,
     loader_hidden_at (snd (on_DOMContentLoaded env tm pg)) = Some T /\
     (clock pg + 7000 <= T)%N /\
     (T <= clock pg + N.max (run_bound tm) 7000)%N) /\
  (forall T,
     loader_hidden_at pg = None ->
     loader_hidden_at (snd (on_DOMContentLoaded env tm pg)) = Some T ->
     fst (gatherAll env tm pg) = Return tt /\
     (T <= clock pg + N.max (run_bound tm) 7000)%N).
Proof.
  assert (Hrun : (clock (snd (gatherAll env tm pg))
                  <= clock pg + run_bound tm)%N).
  { destruct (CARDS_ROOT env) eqn:Hroot.
    - rewrite gatherAll_eq by assumption. unfold snd, clock.
      pose proof (duration_bound _ _ (probes_elapsed env tm)) as Hd.
      unfold probe_bounds in Hd. unfold run_bound.
      revert Hd.
      generalize (queries_time tm names), (duration (probes env tm)).
      intros Q d Hd. simpl in Hd. lia.
    - rewrite gatherAll_without_root by assumption. simpl. lia. }
  destruct (on_DOMContentLoaded_loader env tm pg) as (_ & _ & Hl & _).
  split; [intros _; exact Hrun | split; [ | split]].
  - intros Hs. split; [now apply gatherAll_settles | exact Hrun].
  - intros Hs Hloader. rewrite Hl, (gatherAll_settles env tm pg Hs), Hloader.
    eexists. split; [reflexivity | lia].
  - intros T Hnone HT. rewrite Hl, Hnone in HT.
    destruct (fst (gatherAll env tm pg)) as [[] | | ]; try discriminate.
    destruct (loader env); [ | discriminate].
    injection HT as <-. split; [reflexivity | lia].
Qed.

Lemma gatherAll_time_bound_witness :
  fst (gatherAll (env_desktop "granted") (timing_of 500 4000) page_at_load)
  = Return tt /\
  (clock (snd (gatherAll (env_desktop "granted") (timing_of 500 4000)
                 page_at_load))
   <= clock page_at_load + run_bound (timing_of 500 4000))%N.
Proof.
  apply (proj1 (proj2 (gatherAll_time_bound (env_desktop "granted")
                         (timing_of 500 4000) page_at_load))).
  apply env_desktop_always_settles.
Defined.

(** ** Runs after runs *)

(** X17. With a cards container a run of the orchestrator starts from an
    empty container: the cards it leaves do not depend on the cards that
    were there, so a second run leaves the cards of the second run only; the
    loader, the scroll position and the refresh button are left as they
    were.  Without a container the run does nothing at all: no probe is
    started. *)
Theorem gatherAll_discards_previous_cards (env : Env) (tm : Timing)
    (pg pg' : Page) :
  (CARDS_ROOT env = true ->
   cards (snd (gatherAll env tm pg)) = cards (snd (gatherAll env tm pg')) /\
   cards (snd (gatherAll env tm (snd (gatherAll env tm pg))))
   = cards (snd (gatherAll env tm pg)) /\
   loader_hidden_at (snd (gatherAll env tm pg)) = loader_hidden_at pg /\
   scrolled_to_top (snd (gatherAll env tm pg)) = scrolled_to_top pg /\
   refresh_disabled (snd (gatherAll env tm pg)) = refresh_disabled pg /\
   refresh_text (snd (gatherAll env tm pg)) = refresh_text pg) /\
  (CARDS_ROOT env = false -> gatherAll env tm pg = (Return tt, pg)).
Proof.
  split.
  - intros Hroot. rewrite !gatherAll_eq by assumption.
    repeat split; reflexivity.
  - apply gatherAll_without_root.
Qed.

Lemma gatherAll_discards_previous_cards_witness :
  cards (snd (gatherAll (env_desktop "denied") (timing_of 10 100)
                (snd (gatherAll env_absent (timing_of 10 100)
                        page_at_load))))
  = cards (snd (gatherAll (env_desktop "denied") (timing_of 10 100)
                  page_at_load)).
Proof.
  exact (proj1 (proj1 (gatherAll_discards_previous_cards
                         (env_desktop "denied") (timing_of 10 100)
                         (snd (gatherAll env_absent (timing_of 10 100)
                                 page_at_load))
                         page_at_load) eq_refl)).
Defined.

(** X18. After a click on the refresh button the button is enabled again,
    with the text "Refresh data", when the run it started has finished, and
    only then: while the run waits on a promise that is never settled the
    button stays disabled with the text "Refreshing…".  The handler never
    throws, and the run finishes whenever every awaited promise settles. *)
Theorem refresh_button_after_click (env : Env) (tm : Timing) (pg : Page) :
  REFRESH_BTN env = true ->
  fst (on_refresh_click env tm pg) = fst (gatherAll env tm pg) /\
  match fst (on_refresh_click env tm pg) with
  | Return _ =>
      refresh_disabled (snd (on_refresh_click env tm pg)) = false /\
      refresh_text (snd (on_refresh_click env tm pg)) = "Refresh data"
  | Throw => False
  | Pending =>
      refresh_disabled (snd (on_refresh_click env tm pg)) = true /\
      refresh_text (snd (on_refresh_click env tm pg)) = "Refreshing…"
  end /\
  (always_settles env -> fst (on_refresh_click env tm pg) = Return tt).
Proof.
  intros Hbtn.
  assert (Hfst : fst (on_refresh_click env tm pg) = fst (gatherAll env tm pg)
                 /\ match fst (on_refresh_click env tm pg) with
                    | Return _ =>
                        refresh_disabled (snd (on_refresh_click env tm pg))
                        = false /\
                        refresh_text (snd (on_refresh_click env tm pg))
                        = "Refresh data"
                    | Throw => False
                    | Pending =>
                        refresh_disabled (snd (on_refresh_click env tm pg))
                        = true /\
                        refresh_text (snd (on_refresh_click env tm pg))
                        = "Refreshing…"
                    end).
  { unfold on_refresh_click. rewrite Hbtn. unfold bind, set_refresh.
    destruct (CARDS_ROOT env) eqn:Hroot.
    - rewrite !gatherAll_eq by assumption. unfold fst, snd.
      destruct (settled (probes env tm)); simpl; auto.
    - rewrite !gatherAll_without_root by assumption. simpl. auto. }
  destruct Hfst as [Hfst Hstate].
  split; [exact Hfst | split; [exact Hstate | ]].
  intros Hs. rewrite Hfst. now apply gatherAll_settles.
Qed.

Lemma refresh_button_after_click_witness :
  fst (on_refresh_click (env_desktop_with "granted" NeverSettles)
         (timing_of 10 100) page_at_load) = Pending /\
  refresh_disabled (snd (on_refresh_click
                           (env_desktop_with "granted" NeverSettles)
                           (timing_of 10 100) page_at_load)) = true /\
  fst (on_refresh_click (env_desktop "granted") (timing_of 10 100)
         page_at_load) = Return tt.
Proof.
  pose proof (refresh_button_after_click
                (env_desktop_with "granted" NeverSettles) (timing_of 10 100)
                page_at_load eq_refl) as (Hf & Hst & _).
  assert (Hp : fst (on_refresh_click
                      (env_desktop_with "granted" NeverSettles)
                      (timing_of 10 100) page_at_load) = Pending)
    by (vm_compute; reflexivity).
  rewrite Hp in Hst. split; [exact Hp | split; [apply Hst | ]].
  apply (refresh_button_after_click (env_desktop "granted")
           (timing_of 10 100) page_at_load eq_refl).
  apply env_desktop_always_settles.
Defined.

(** X19. The load handler never throws, so its [catch] never runs: it is
    [initFlow], and it ends as the orchestrator's run ends.  The page is
    scrolled to the top when the run has finished, also when there is no
    loader to hide; while the run has not finished neither the loader nor
    the scroll position is touched. *)
Theorem on_DOMContentLoaded_never_catches (env : Env) (tm : Timing)
    (pg : Page) :
  on_DOMContentLoaded env tm pg = initFlow env tm pg /\
  fst (on_DOMContentLoaded env tm pg) <> Throw /\
  (fst (on_DOMContentLoaded env tm pg) = Return tt <->
   fst (gatherAll env tm pg) = Return tt) /\
  (fst (on_DOMContentLoaded env tm pg) = Return tt ->
   scrolled_to_top (snd (on_DOMContentLoaded env tm pg)) = true) /\
  (fst (on_DOMContentLoaded env tm pg) = Pending ->
   scrolled_to_top (snd (on_DOMContentLoaded env tm pg)) = scrolled_to_top pg
   /\
   loader_hidden_at (snd (on_DOMContentLoaded env tm pg))
   = loader_hidden_at pg).
Proof.
  destruct (on_DOMContentLoaded_loader env tm pg) as (Hinit & Hfst & Hl & Hs).
  split; [exact Hinit | ].
  rewrite Hfst, Hl, Hs.
  pose proof (gatherAll_never_throws env tm pg) as Hnt.
  destruct (fst (gatherAll env tm pg)) as [[] | | ];
    repeat split; auto; try discriminate; try contradiction.
Qed.

(** ** Distinct keys *)

Ltac distinct_keys :=
  unfold keys_distinct; simpl;
  repeat (apply NoDup_cons; [simpl; intuition discriminate | ]);
  apply NoDup_nil.

Ltac probe_keys :=
  unfold eval; run_probe; repeat (break_match; run_probe);
  intros c0 Hc0; inversion Hc0; subst; distinct_keys.

Lemma NoDup_firstn {A} (k : nat) (l : list A) :
  NoDup l -> NoDup (firstn k l).
Proof.
  revert l. induction k as [ | k IH]; intros [ | x l] Hnd; simpl;
    try constructor.
  - inversion Hnd; subst. intros Hin. apply In_firstn in Hin. contradiction.
  - inversion Hnd; subst. now apply IH.
Qed.

Lemma probes_keys_distinct (env : Env) (tm : Timing) :
  Forall (fun p => forall c, fst (p fresh) = Return c -> keys_distinct c)
         (probes env tm).
Proof.
  unfold probes. repeat apply Forall_cons; try apply Forall_nil.
  - unfold gatherBasic. probe_keys.
  - unfold gatherScreen, s_. probe_keys.
  - unfold gatherHardware. probe_keys.
  - unfold gatherBattery. probe_keys.
  - unfold gatherNetwork, navConn. probe_keys.
  - unfold gatherGeo, position_promise. probe_keys.
  - unfold gatherMediaDevices. probe_keys.
  - destruct (permissions_query env) as [q | ] eqn:Hq.
    + rewrite (gatherPermissions_run env tm q Hq).
      destruct (query_loop_prefix tm q names fresh) as (k & Hel & _).
      destruct (for_of names (query_one tm q) fresh) as [[[] | | ] s];
        simpl in *; intros c Hc; inversion Hc; subst.
      * unfold keys_distinct. simpl. rewrite Hel, query_row_keys.
        apply NoDup_firstn. distinct_keys.
      * unfold keys_distinct. simpl. rewrite Hel, map_app, query_row_keys.
        simpl. apply NoDup_app.
        -- apply NoDup_firstn. distinct_keys.
        -- distinct_keys.
        -- intros x Hx [<- | []]. apply In_firstn in Hx. simpl in Hx.
           intuition discriminate.
    + unfold gatherPermissions. rewrite Hq. probe_keys.
  - unfold gatherPerformance. probe_keys.
  - unfold gatherSensors. probe_keys.
  - unfold gatherCanvasAudioFingerprintingProbe. probe_keys.
  - unfold gatherWebAPIs, features. probe_keys.
Qed.

Lemma shown_keys_distinct (ps : list (M Probe Card)) :
  Forall (fun p => forall c, fst (p fresh) = Return c -> keys_distinct c)
         ps ->
  Forall keys_distinct (shown ps).
Proof.
  induction 1 as [ | p ps Hp _ IH]; simpl; [constructor | ].
  destruct (fst (p fresh)) as [c | | ].
  - constructor; [now apply Hp | exact IH].
  - constructor; [exact I | exact IH].
  - constructor.
Qed.

(** X20. In every card a run of the orchestrator leaves on the page the
    keys of the rows are pairwise distinct, in every environment and for any
    latencies. *)
Theorem gatherAll_keys_distinct (env : Env) (tm : Timing) (pg : Page) :
  CARDS_ROOT env = true ->
  Forall keys_distinct (cards (snd (gatherAll env tm pg))).
Proof.
  intros Hroot. rewrite gatherAll_eq by assumption. unfold snd, cards.
  apply shown_keys_distinct, probes_keys_distinct.
Qed.

Lemma gatherAll_keys_distinct_witness :
  Forall keys_distinct
         (cards (snd (gatherAll (env_desktop "granted") (timing_of 10 100)
                        page_at_load))).
Proof.
  exact (gatherAll_keys_distinct (env_desktop "granted") (timing_of 10 100)
           page_at_load eq_refl).
Defined.

(** ** Queries that throw *)

(** C1. A query that throws is not always shown as "unknown".  When a call
    inside the [try] of the canvas part throws ([getContext('2d')], a
    drawing call or [toDataURL]; on the host with everything absent it is
    the first), the canvasProbe row shows "error" and no row shows
    "unknown"; the same for the audio part and its audioContext row.  The
    script's header says "unknown" for a detection that fails, and the
    [catch] blocks of the other probes do show it: webgl for any call that
    throws in the hardware probe, battery and mediaDevices for a rejected
    promise, a permission name for a rejected query, performance for any
    call that throws. *)
Theorem canvasProbe_shows_error_not_unknown :
  (getContext_2d (canvas env_absent) = Throws /\
   rows_of (gatherCanvasAudioFingerprintingProbe env_absent)
   = [ {| key := "canvasProbe"; val := "error" |};
       {| key := "audioContext"; val := "unsupported" |} ]) /\
  (forall env,
     canvas_try_throws env = true ->
     In {| key := "canvasProbe"; val := "error" |}
        (rows_of (gatherCanvasAudioFingerprintingProbe env)) /\
     ~ In {| key := "canvasProbe"; val := "unknown" |}
          (rows_of (gatherCanvasAudioFingerprintingProbe env))) /\
  (forall env,
     audio_try_throws env = true ->
     In {| key := "audioContext"; val := "error" |}
        (rows_of (gatherCanvasAudioFingerprintingProbe env)) /\
     ~ In {| key := "audioContext"; val := "unknown" |}
          (rows_of (gatherCanvasAudioFingerprintingProbe env))) /\
  (forall env,
     webgl_try_throws env = true ->
     In {| key := "webgl"; val := "unknown" |}
        (rows_of (gatherHardware env))) /\
  (forall env tm,
     getBattery env = Some Rejects ->
     rows_of (gatherBattery env tm)
     = [ {| key := "battery"; val := "unknown" |} ]) /\
  (forall env tm,
     mediaDevices_enumerateDevices env = Some Rejects ->
     rows_of (gatherMediaDevices env tm)
     = [ {| key := "mediaDevices"; val := "unknown" |} ]) /\
  (forall env tm q name,
     permissions_query env = Some q ->
     In name names ->
     q name = Rejects ->
     fst (gatherPermissions env tm fresh) <> Pending ->
     In {| key := name; val := "unknown" |}
        (rows_of (gatherPermissions env tm))) /\
  (forall env tm,
     performance env = None \/
     (exists perf, performance env = Some perf /\
                   (getEntriesByType_navigation_0 perf = Throws \/
                    now perf = Throws)) ->
     In {| key := "performance"; val := "unknown" |}
        (rows_of (gatherPerformance env tm))).
Proof.
  split; [ | split; [ | split; [ | split; [ | split; [ | split; [ | split]]]]]].
  - split; reflexivity.
  - intros env. unfold canvas_try_throws, rows_of,
      gatherCanvasAudioFingerprintingProbe, eval. run_probe. intros Hthrow.
    destruct (getContext_2d (canvas env)) as [[ | ] | ];
      [destruct (draw_2d (canvas env)) as [[] | ];
       [destruct (toDataURL (canvas env)) as [data | ];
        [discriminate | ] | ] | | ];
      run_probe; repeat (break_match; run_probe);
      (split; [auto | intros [H | [H | []]]; discriminate H]).
  - intros env. unfold audio_try_throws, rows_of,
      gatherCanvasAudioFingerprintingProbe, eval. run_probe.
    repeat (break_match; run_probe); intros Hthrow; try discriminate Hthrow;
      (split; [auto | intros [H | [H | []]]; discriminate H]).
  - intros env. unfold webgl_try_throws, gl_throws, rows_of, gatherHardware,
      eval. run_probe. intros Hthrow.
    repeat (break_match; run_probe); try discriminate; auto 6.
  - intros env tm Ha. unfold rows_of, gatherBattery. now rewrite Ha.
  - intros env tm Ha. unfold rows_of, gatherMediaDevices. now rewrite Ha.
  - intros env tm q name Hq Hin Hrej Hnp. unfold rows_of.
    rewrite (gatherPermissions_run env tm q Hq) in *.
    destruct (query_loop_prefix tm q names fresh) as (k & Hel & Hth & _ & Hk).
    destruct (for_of names (query_one tm q) fresh) as [[[] | | ] s];
      simpl in *.
    + assert (Hall : firstn k names = names)
        by (rewrite (Hk eq_refl); reflexivity).
      rewrite Hel, Hall.
      change {| key := name; val := "unknown" |}
        with (mkKV name (VString "unknown")).
      replace (mkKV name (VString "unknown")) with (query_row q name)
        by (unfold query_row; now rewrite Hrej).
      now apply in_map.
    + now contradiction Hth.
    + now contradiction Hnp.
  - intros env tm [Hp | [perf [Hp Hthrow]]];
      unfold rows_of, gatherPerformance, eval; rewrite Hp; run_probe.
    + auto.
    + destruct Hthrow as [Ht | Ht]; rewrite Ht;
        repeat (break_match; run_probe); auto 6.
Qed.
